(** * CAAM DSA driver and DCP buffer utilities: a shallow embedding

  Sources covered:
  - core/drivers/dcp/imx_dcp_utils.c
        (read_cacheline_size, dcp_alloc_memalign, dcp_free_memalign,
         dcp_calloc_align_buf, dcp_free, left_shift_buffer, dcp_udelay)
  - core/drivers/crypto/caam/acipher/caam_dsa.c
        (do_keypair_free, get_keypair_domain_params, do_keypriv_conv,
         do_keypub_conv, do_allocate_keypair, do_allocate_publickey,
         do_gen_keypair, do_sign, do_verify)

  Machine integers are carried as [Z] with the wrap-around written out,
  byte buffers as [list Z] with every element in [0, 256). *)

From Stdlib Require Import ZArith Lia List Bool Permutation.
From stdpp Require Import base option list.
Import ListNotations.

Local Open Scope Z_scope.

(** ** Result codes *)

(** Modelled from the spec: tee_api_defines.h is not among the sources; the
    typed results of sections 6 and 7 (success, generic failure, bad
    parameters, out of memory, signature invalid) with the 32-bit values of
    the TEE Internal Core API. *)
Definition TEE_Result := Z.

Definition TEE_SUCCESS : TEE_Result := 0x00000000.
Definition TEE_ERROR_GENERIC : TEE_Result := 0xFFFF0000.
Definition TEE_ERROR_BAD_PARAMETERS : TEE_Result := 0xFFFF0006.
Definition TEE_ERROR_OUT_OF_MEMORY : TEE_Result := 0xFFFF000C.
Definition TEE_ERROR_SIGNATURE_INVALID : TEE_Result := 0xFFFF3072.

(** ** Fixed-width unsigned arithmetic *)

Module Mach.

(** [wrap w v]: the value a [w]-bit unsigned object holds after [v] is
    stored into it. *)
Definition wrap (w v : Z) : Z := v mod 2 ^ w.

Definition max_of (w : Z) : Z := 2 ^ w - 1.

(** Modelled from the spec: util.h is not among the sources; BIT(nr) is
    the word with bit [nr] set. *)
Definition BIT (nr : Z) : Z := Z.shiftl 1 nr.

(** Modelled from the spec: compiler.h is not among the sources;
    ADD_OVERFLOW(a, b, res) is __builtin_add_overflow: the wrapped sum is
    stored in [res] and the return value tells whether the mathematical sum
    did not fit. *)
Definition ADD_OVERFLOW (w a b : Z) : bool * Z :=
  (negb (a + b <=? max_of w), wrap w (a + b)).

(** Modelled from the spec: util.h is not among the sources; the
    roundup(v, size) of the spec as the macro computes it,
    [(((v) + ((__typeof__(v))(size) - 1)) & ~((__typeof__(v))(size) - 1))],
    in the [w]-bit unsigned type of [v]. *)
Definition ROUNDUP (w v size : Z) : Z :=
  Z.land (wrap w (v + (size - 1))) (wrap w (Z.lnot (size - 1))).

End Mach.

(** ** Big-endian byte strings *)

Module Bytes.

Definition byte_ok (b : Z) : Prop := 0 <= b < 256.

Definition bytes_ok (l : list Z) : Prop := Forall byte_ok l.

(** The unsigned integer a byte string denotes, most significant byte
    first. *)
Definition be_value (l : list Z) : Z :=
  fold_left (fun acc b => acc * 256 + b) l 0.

Definition zeros (n : nat) : list Z := replicate n 0.

End Bytes.

(** ** DCP buffer utilities (core/drivers/dcp/imx_dcp_utils.c) *)

Module Dcp.

Import Mach.

(** What the file takes from its surroundings: the target architecture
    (the ARM64 build flag fixes the width of [size_t], [vaddr_t] and
    [void *]), the cache type register, the C allocator and the address
    translation.  A pointer is its address, [0] being NULL. *)
Record environment := {
  arm64 : bool;
  ctr_reg : Z;
  calloc : Z -> Z;
  virt_to_phys : Z -> Z
}.

Definition size_bits (e : environment) : Z := if arm64 e then 64 else 32.

Definition sizeof_ptr (e : environment) : Z := size_bits e / 8.

(** struct __packed mem_hdr { void *addr; size_t size; } *)
Record mem_hdr := { addr : Z; size : Z }.

Definition sizeof_mem_hdr (e : environment) : Z := sizeof_ptr e + sizeof_ptr e.

Definition MEM_HDR_SIZE (e : environment) : Z :=
  ROUNDUP (size_bits e) (sizeof_mem_hdr e) (sizeof_ptr e).

Definition OF_MEM_HDR (e : environment) (p : Z) : Z :=
  wrap (size_bits e) (p - MEM_HDR_SIZE e).

(** Modelled from the spec: arm.h is not among the sources; the fields of
    the cache type register that give the smallest data cache line in
    words. *)
Definition CTR_WORD_SIZE : Z := 4.
Definition CTR_DMINLINE_SHIFT : Z := 16.
Definition CTR_DMINLINE_MASK : Z := 0xf.

Definition read_cacheline_size (e : environment) : Z :=
  let value := wrap 32 (ctr_reg e) in
  wrap 32 (Z.shiftl CTR_WORD_SIZE
             (Z.land (Z.shiftr value CTR_DMINLINE_SHIFT) CTR_DMINLINE_MASK)).

(** The memory the allocator has handed out: every area is a zero-filled
    range [(base, length)]; [headers] records the [mem_hdr] stored at an
    address. *)
Record heap := {
  areas : list (Z * Z);
  headers : list (Z * mem_hdr)
}.

Definition empty_heap : heap := {| areas := []; headers := [] |}.

Definition dcp_alloc_memalign (e : environment) (h : heap) (size : Z)
  : Z * heap :=
  let w := size_bits e in
  let '(ovf, alloc_size) := ADD_OVERFLOW w size (MEM_HDR_SIZE e) in
  if ovf then (0, h) else
  let cacheline_size := read_cacheline_size e in
  let '(ovf, alloc_size) :=
    if size =? cacheline_size
    then ADD_OVERFLOW w alloc_size cacheline_size
    else (false, alloc_size) in
  if ovf then (0, h) else
  let '(ovf, alloc_size) :=
    ADD_OVERFLOW w cacheline_size (ROUNDUP w alloc_size cacheline_size) in
  if ovf then (0, h) else
  let ptr := calloc e alloc_size in
  if ptr =? 0 then (0, h) else
  let ret_addr := wrap w (ptr + MEM_HDR_SIZE e) in
  let ret_addr := ROUNDUP w ret_addr cacheline_size in
  let hdr := OF_MEM_HDR e ret_addr in
  (ret_addr,
   {| areas := (ptr, alloc_size) :: areas h;
      headers := (hdr, {| addr := ptr; size := alloc_size |}) :: headers h |}).

Definition lookup_hdr (h : heap) (a : Z) : option mem_hdr :=
  snd <$> List.find (fun '(a', _) => a' =? a) (headers h).

(** free(p): the area based at [p] goes back to the allocator. *)
Definition free (h : heap) (p : Z) : heap :=
  {| areas := List.filter (fun '(b, _) => negb (b =? p)) (areas h);
     headers := headers h |}.

Definition dcp_free_memalign (e : environment) (h : heap) (ptr : Z) : heap :=
  if ptr =? 0 then h else
  match lookup_hdr h (OF_MEM_HDR e ptr) with
  | Some hdr => free h (addr hdr)
  | None => h
  end.

Definition dcp_free (e : environment) (h : heap) (ptr : Z) : heap :=
  dcp_free_memalign e h ptr.

(** Modelled from the spec: imx_dcp_utils.h is not among the sources;
    struct align_buf with the three fields the function assigns. *)
Record align_buf := { data : Z; buf_size : Z; paddr : Z }.

(** [buf] is [None] for a null [struct align_buf *]. *)
Definition dcp_calloc_align_buf (e : environment) (h : heap)
    (buf : option align_buf) (size : Z)
  : TEE_Result * option align_buf * heap :=
  match buf with
  | None => (TEE_ERROR_BAD_PARAMETERS, None, h)
  | Some b =>
    let '(d, h) := dcp_alloc_memalign e h size in
    let b := {| data := d; buf_size := buf_size b; paddr := paddr b |} in
    if d =? 0 then (TEE_ERROR_OUT_OF_MEMORY, Some b, h) else
    let pa := virt_to_phys e d in
    let b := {| data := d; buf_size := buf_size b; paddr := pa |} in
    if pa =? 0 then (TEE_ERROR_OUT_OF_MEMORY, Some b, dcp_free e h d) else
    (TEE_SUCCESS, Some {| data := d; buf_size := size; paddr := pa |}, h)
  end.

(** The byte range a successfully filled [align_buf] designates lies inside
    one of the areas handed out by the allocator. *)
Definition buf_within_area (b : align_buf) (h : heap) : Prop :=
  exists base len,
    In (base, len) (areas h) /\ base <= data b /\ data b + buf_size b <= base + len.

(** [left_shift_buffer]: the loop counter [i] is an [unsigned int]; the
    index [buffer_size - 1 - i] is computed in [size_t].  A read or write
    outside a buffer is a fault ([None]); [fuel] bounds the number of
    iterations the model follows. *)
Fixpoint left_shift_loop (fuel : nat) (size_bits : Z) (input result : list Z)
    (buffer_size i msb : Z) : option (list Z) :=
  if i <? buffer_size then
    match fuel with
    | O => None
    | S fuel' =>
      let idx := Z.to_nat (wrap size_bits (buffer_size - 1 - i)) in
      b ← input !! idx;
      _ ← result !! idx;
      let r := Z.land (Z.shiftl b 1) 0xFF in
      let r := if msb =? 0 then r else Z.lor r msb in
      let result := <[idx := r]> result in
      let msb := Z.shiftr (Z.land b (BIT 7)) 7 in
      left_shift_loop fuel' size_bits input result buffer_size
        (wrap 32 (i + 1)) msb
    end
  else Some result.

Definition left_shift_buffer (fuel : nat) (size_bits : Z)
    (input result : list Z) (buffer_size : Z) : option (list Z) :=
  left_shift_loop fuel size_bits input result buffer_size 0 0.

End Dcp.

(** ** The big-integer library (the crypto_bignum functions) *)

Module Bignum.

Import Bytes.

(** A scalar of the arbitrary-precision library: a natural number. *)
Definition bignum := N.

(** Modelled from the spec: the big-integer library is an external
    collaborator (section 6, [byte_length(scalar)]); the minimal number of
    bytes that hold the scalar, none for zero. *)
Definition crypto_bignum_num_bytes (bn : bignum) : Z :=
  match bn with
  | N0 => 0
  | Npos _ => Z.log2 (Z.of_N bn) / 8 + 1
  end.

Fixpoint be_bytes (len : nat) (v : Z) : list Z :=
  match len with
  | O => []
  | S k => be_bytes k (v / 256) ++ [v mod 256]
  end.

(** Modelled from the spec: section 6, [to_bytes_big_endian(scalar, dest)];
    the bytes written at the destination, [crypto_bignum_num_bytes] of
    them, most significant first. *)
Definition crypto_bignum_bn2bin (bn : bignum) : list Z :=
  be_bytes (Z.to_nat (crypto_bignum_num_bytes bn)) (Z.of_N bn).

(** Modelled from the spec: section 6, [from_bytes_big_endian(bytes)]; the
    scalar read from the first [len] bytes of [from]. *)
Definition bin2bn_value (from : list Z) (len : Z) : bignum :=
  Z.to_N (be_value (take (Z.to_nat len) from)).

(** Writing [src] at [buf + off]: [None] when the bytes would land outside
    the buffer. *)
Definition store_bytes (buf : list Z) (off : Z) (src : list Z)
  : option (list Z) :=
  if (0 <=? off) && (off + Z.of_nat (length src) <=? Z.of_nat (length buf))
  then Some (take (Z.to_nat off) buf ++ src
               ++ drop (Z.to_nat off + length src) buf)
  else None.

End Bignum.

(** ** The job descriptor helper (caam_desc_helper, caam_desc_defines) *)

Module CaamDesc.

Import Mach.

(** Modelled from the spec: the descriptor helper is not among the sources.
    Section 3: a descriptor is an ordered sequence of machine words in a
    preallocated area of fixed capacity, the first of them the header. *)
Record descriptor := { capacity : Z; words : list Z }.

(** Modelled from the spec: job descriptor header word; the descriptor
    length sits in bits 6..0 and the start index in bits 21..16. *)
Definition HDR_JD_DESCLEN (len : Z) : Z := Z.land len 0x7F.
Definition GET_JD_DESCLEN (entry : Z) : Z := Z.land entry 0x7F.
Definition HDR_JD_START_IDX (idx : Z) : Z := Z.shiftl (Z.land idx 0x3F) 16.
Definition CMD_HDR_JD_TYPE : Z := Z.shiftl 0x16 27.
Definition HDR_JD_ONE : Z := BIT 23.

Definition DESC_HEADER (desclen : Z) : Z :=
  Z.lor (Z.lor CMD_HDR_JD_TYPE HDR_JD_ONE) (HDR_JD_DESCLEN desclen).

Definition DESC_HEADER_IDX (desclen idx : Z) : Z :=
  Z.lor (Z.lor (Z.lor CMD_HDR_JD_TYPE HDR_JD_ONE) (HDR_JD_START_IDX idx))
        (HDR_JD_DESCLEN desclen).

(** Modelled from the spec: section 4.2, [begin()]. *)
Definition caam_desc_init (d : descriptor) : descriptor :=
  {| capacity := capacity d; words := [] |}.

(** Modelled from the spec: section 4.2, the word count of [finish()]. *)
Definition caam_desc_get_len (d : descriptor) : Z :=
  wrap 32 (Z.of_nat (length (words d))).

Definition append (d : descriptor) (ws : list Z) : option descriptor :=
  if Z.of_nat (length (words d) + length ws) <=? capacity d
  then Some {| capacity := capacity d; words := words d ++ ws |}
  else None.

(** Modelled from the spec: section 4.2, [add_word(w)]; [None] is the
    DescriptorOverflow of the spec. *)
Definition caam_desc_add_word (d : descriptor) (word : Z) : option descriptor :=
  append d [wrap 32 word].

(** Modelled from the spec: section 4.2, the words a device address
    takes: one, or two when addresses are 64-bit wide, ordered by the
    endianness of the device. *)
Definition ptr_words (caam_64bit big_endian : bool) (ptr : Z) : list Z :=
  if caam_64bit then
    if big_endian
    then [wrap 32 (Z.shiftr ptr 32); wrap 32 ptr]
    else [wrap 32 ptr; wrap 32 (Z.shiftr ptr 32)]
  else [wrap 32 ptr].

(** Modelled from the spec: section 4.2, [add_pointer(addr)]. *)
Definition caam_desc_add_ptr (caam_64bit big_endian : bool) (d : descriptor)
    (ptr : Z) : option descriptor :=
  append d (ptr_words caam_64bit big_endian ptr).

(** Modelled from the spec: section 4.2, the header patch of [finish()]. *)
Definition caam_desc_update_hdr (d : descriptor) (word : Z)
  : option descriptor :=
  match words d with
  | [] => None
  | _ :: ws => Some {| capacity := capacity d; words := wrap 32 word :: ws |}
  end.

(** The length the header word of a descriptor announces. *)
Definition header_len (d : descriptor) : option Z :=
  GET_JD_DESCLEN <$> head (words d).

End CaamDesc.

(** ** The CAAM DSA driver (core/drivers/crypto/caam/acipher/caam_dsa.c) *)

Module Caam.

Import Mach Bytes Bignum CaamDesc.

(** Modelled from the spec: caam_common.h is not among the sources; enum
    caam_status with the enumerators the driver names, [CAAM_OTHER]
    standing for the remaining ones. *)
Inductive caam_status :=
| CAAM_NO_ERROR
| CAAM_FAILURE
| CAAM_OUT_MEMORY
| CAAM_JOB_STATUS
| CAAM_OTHER.

Definition caam_status_eqb (a b : caam_status) : bool :=
  match a, b with
  | CAAM_NO_ERROR, CAAM_NO_ERROR => true
  | CAAM_FAILURE, CAAM_FAILURE => true
  | CAAM_OUT_MEMORY, CAAM_OUT_MEMORY => true
  | CAAM_JOB_STATUS, CAAM_JOB_STATUS => true
  | CAAM_OTHER, CAAM_OTHER => true
  | _, _ => false
  end.

(** Build configuration, and the descriptor constants of
    caam_desc_defines.h, which is not among the sources: the driver uses
    them by name and they are taken as parameters. *)
Record config := {
  size_bits : Z;
  CFG_CAAM_64BIT : bool;
  CFG_CAAM_BIG_ENDIAN : bool;
  PDB_DL_KEY_L_SIZE : Z -> Z;
  PDB_DL_KEY_N_SIZE : Z -> Z;
  PK_KEYPAIR_GEN_DL : Z;
  PDB_DSA_SIGN_N : Z -> Z;
  PDB_DSA_SIGN_L : Z -> Z;
  PDB_SGT_PKSIGN_MSG : Z;
  PDB_SGT_PKSIGN_SIGN_C : Z;
  PDB_SGT_PKSIGN_SIGN_D : Z;
  DSA_SIGN_DL : Z;
  PDB_DSA_VERIF_N : Z -> Z;
  PDB_DSA_VERIF_L : Z -> Z;
  PDB_SGT_PKVERIF_MSG : Z;
  PDB_SGT_PKVERIF_SIGN_C : Z;
  PDB_SGT_PKVERIF_SIGN_D : Z;
  DSA_VERIFY_DL : Z
}.

Definition MAX_DESC_KEY_GEN (c : config) : Z :=
  if CFG_CAAM_64BIT c then 14 else 9.
Definition MAX_DESC_SIGN (c : config) : Z :=
  if CFG_CAAM_64BIT c then 19 else 12.
Definition MAX_DESC_VERIFY (c : config) : Z :=
  if CFG_CAAM_64BIT c then 21 else 13.

(** The external collaborators of one driver call, as the outcomes they
    produce.  Requests for memory (buffers, descriptors, DMA objects) are
    numbered in the order the call makes them; the number of a served
    request names the area it returned. *)
Record environment := {
  alloc_ok : nat -> bool;
  paddr_of : nat -> Z;
  stale : nat -> list Z;
  dmaobj_ret : nat -> TEE_Result;
  dmaobj_sgt : nat -> bool;
  prime_gen_status : caam_status;
  prime_gen_g : list Z;
  prime_gen_p : list Z;
  prime_gen_q : list Z;
  jr_retstatus : caam_status;
  jr_jobstatus : Z;
  device_out : nat -> list Z;
  bin2bn_ret : nat -> TEE_Result;
  job_status_to_tee_result : Z -> TEE_Result
}.

(** Modelled from the spec: tee/cache.h is not among the sources; the
    three cache operations of section 6 (push, flush, pull). *)
Inductive cache_op := TEE_CACHECLEAN | TEE_CACHEFLUSH | TEE_CACHEINVALIDATE.

Inductive event :=
| EvCache (op : cache_op) (area : option nat) (len : Z)
| EvCachePush (area : option nat)
| EvDmaInput (len : Z)
| EvDmaOutput (len min_len : Z)
| EvDmaDerive (offset len : Z)
| EvPrimeGen
| EvEnqueue (desc : list Z).

(** The ledger of one call: requests made, conversions made, areas obtained,
    areas still held, areas given back (in order), and the calls made to the
    collaborators. *)
Record state := {
  reqs : nat;
  convs : nat;
  allocated : list nat;
  live : list nat;
  freed : list nat;
  events : list event
}.

Definition init_state : state :=
  {| reqs := 0; convs := 0; allocated := []; live := []; freed := [];
     events := [] |}.

(** Computations over the ledger; [None] is a memory fault. *)
Definition M (A : Type) : Type := state -> option (A * state).

Definition ret {A} (a : A) : M A := fun s => Some (a, s).

Definition bind {A B} (m : M A) (k : A -> M B) : M B :=
  fun s => match m s with
           | Some (a, s') => k a s'
           | None => None
           end.

Definition lift {A} (o : option A) : M A :=
  fun s => match o with
           | Some a => Some (a, s)
           | None => None
           end.

Notation "'let*' x ':=' m 'in' k" := (bind m (fun x => k))
  (at level 10, x pattern, m at level 100, k at level 200).

Definition acquire (served : nat -> bool) : M (nat * bool) :=
  fun s =>
    let k := reqs s in
    if served k
    then Some ((k, true),
               {| reqs := S k; convs := convs s;
                  allocated := allocated s ++ [k]; live := live s ++ [k];
                  freed := freed s; events := events s |})
    else Some ((k, false),
               {| reqs := S k; convs := convs s;
                  allocated := allocated s; live := live s;
                  freed := freed s; events := events s |}).

Definition release (h : nat) : M unit :=
  fun s =>
    Some (tt,
          {| reqs := reqs s; convs := convs s; allocated := allocated s;
             live := List.filter (fun x => negb (Nat.eqb x h)) (live s);
             freed := freed s ++ [h]; events := events s |}).

Definition emit (ev : event) : M unit :=
  fun s =>
    Some (tt,
          {| reqs := reqs s; convs := convs s; allocated := allocated s;
             live := live s; freed := freed s;
             events := events s ++ [ev] |}).

Definition next_conv : M nat :=
  fun s =>
    Some (convs s,
          {| reqs := reqs s; convs := S (convs s); allocated := allocated s;
             live := live s; freed := freed s; events := events s |}).

(** Number of calls made to the domain-parameter generator. *)
Definition gen_calls (s : state) : nat :=
  length (List.filter (fun ev => match ev with EvPrimeGen => true | _ => false end)
            (events s)).

(** *** Buffers (caam_utils_mem) *)

(** Modelled from the spec: caam_types.h is not among the sources; the
    FixedWidthBuffer of section 3 (struct caambuf).  [cb_data] is [None]
    for a null data pointer, otherwise the area it points to; [cb_bytes] is
    the content of that area. *)
Record caambuf := {
  cb_data : option nat;
  cb_bytes : list Z;
  cb_length : Z;
  cb_paddr : Z
}.

Definition caambuf_zero : caambuf :=
  {| cb_data := None; cb_bytes := []; cb_length := 0; cb_paddr := 0 |}.

(** Modelled from the spec: the allocator is an external collaborator
    (section 6, zero-initialized allocation sized in bytes); a refused
    request leaves the buffer object as it was. *)
Definition caam_calloc_buf (e : environment) (buf : caambuf) (size : Z)
  : M (caam_status * caambuf) :=
  let* (k, ok) := acquire (alloc_ok e) in
  if ok
  then ret (CAAM_NO_ERROR,
            {| cb_data := Some k; cb_bytes := zeros (Z.to_nat size);
               cb_length := size; cb_paddr := paddr_of e k |})
  else ret (CAAM_OUT_MEMORY, buf).

(** Modelled from the spec: as [caam_calloc_buf], cache-line aligned. *)
Definition caam_calloc_align_buf (e : environment) (buf : caambuf) (size : Z)
  : M (caam_status * caambuf) :=
  caam_calloc_buf e buf size.

(** Modelled from the spec: aligned allocation that does not clear the
    area. *)
Definition caam_alloc_align_buf (e : environment) (buf : caambuf) (size : Z)
  : M (caam_status * caambuf) :=
  let* (k, ok) := acquire (alloc_ok e) in
  if ok
  then ret (CAAM_NO_ERROR,
            {| cb_data := Some k;
               cb_bytes := resize (Z.to_nat size) 0 (stale e k);
               cb_length := size; cb_paddr := paddr_of e k |})
  else ret (CAAM_OUT_MEMORY, buf).

(** Modelled from the spec: releasing a buffer object gives its area back,
    if it has one, and clears the object. *)
Definition caam_free_buf (buf : caambuf) : M caambuf :=
  match cb_data buf with
  | Some h => let* _ := release h in ret caambuf_zero
  | None => ret caambuf_zero
  end.

(** Modelled from the spec: section 6, cache maintenance over a byte range;
    after an invalidate the host reads what the device left in the area. *)
Definition cache_operation (e : environment) (op : cache_op) (buf : caambuf)
  : M caambuf :=
  let* _ := emit (EvCache op (cb_data buf) (cb_length buf)) in
  match op, cb_data buf with
  | TEE_CACHEINVALIDATE, Some h =>
    ret {| cb_data := cb_data buf;
           cb_bytes := resize (Z.to_nat (cb_length buf)) 0 (device_out e h);
           cb_length := cb_length buf; cb_paddr := cb_paddr buf |}
  | _, _ => ret buf
  end.

(** [crypto_bignum_bn2bin(bn, buf->data + off)] *)
Definition bn2bin_at (bn : bignum) (buf : caambuf) (off : Z) : M caambuf :=
  let* bytes := lift (store_bytes (cb_bytes buf) off (crypto_bignum_bn2bin bn)) in
  ret {| cb_data := cb_data buf; cb_bytes := bytes;
         cb_length := cb_length buf; cb_paddr := cb_paddr buf |}.

(** [crypto_bignum_bin2bn(from, len, to)]: the library reports a result; the
    destination scalar is set when the result is TEE_SUCCESS. *)
Definition crypto_bignum_bin2bn (e : environment) (from : list Z) (len : Z)
    (to : bignum) : M (TEE_Result * bignum) :=
  let* k := next_conv in
  let r := bin2bn_ret e k in
  if r =? TEE_SUCCESS then ret (r, bin2bn_value from len) else ret (r, to).

(** *** DMA objects (caam_utils_dmaobj) *)

(** Modelled from the spec: caam_utils_dmaobj.h is not among the sources;
    struct caamdmaobj with the caller's buffer ([orig_data],
    [orig_length]), the descriptor entry ([sgt_type], [sgt_paddr]), the
    private area of the object and the content of the area the device works
    on. *)
Record caamdmaobj := {
  orig_data : list Z;
  orig_length : Z;
  sgt_type : bool;
  sgt_paddr : Z;
  priv : option nat;
  work : list Z
}.

Definition caamdmaobj_zero : caamdmaobj :=
  {| orig_data := []; orig_length := 0; sgt_type := false; sgt_paddr := 0;
     priv := None; work := [] |}.

Definition dma_served (e : environment) (k : nat) : bool :=
  dmaobj_ret e k =? TEE_SUCCESS.

(** Modelled from the spec: section 4.4, wrapping a caller buffer as an
    input buffer of the device. *)
Definition caam_dmaobj_init_input (e : environment) (obj : caamdmaobj)
    (data : list Z) (len : Z) : M (TEE_Result * caamdmaobj) :=
  let* _ := emit (EvDmaInput len) in
  let* (k, ok) := acquire (dma_served e) in
  if ok
  then ret (TEE_SUCCESS,
            {| orig_data := data; orig_length := len;
               sgt_type := dmaobj_sgt e k; sgt_paddr := paddr_of e k;
               priv := Some k; work := take (Z.to_nat len) data |})
  else ret (dmaobj_ret e k, obj).

(** Modelled from the spec: section 4.4, the working buffer of an output,
    sized [min_length] bytes. *)
Definition caam_dmaobj_init_output (e : environment) (obj : caamdmaobj)
    (data : list Z) (len min_length : Z) : M (TEE_Result * caamdmaobj) :=
  let* _ := emit (EvDmaOutput len min_length) in
  let* (k, ok) := acquire (dma_served e) in
  if ok
  then ret (TEE_SUCCESS,
            {| orig_data := data; orig_length := len;
               sgt_type := dmaobj_sgt e k; sgt_paddr := paddr_of e k;
               priv := Some k; work := zeros (Z.to_nat min_length) |})
  else ret (dmaobj_ret e k, obj).

(** Modelled from the spec: section 4.4, a logical part ([offset], [len])
    of another DMA object. *)
Definition caam_dmaobj_derive (e : environment) (obj from : caamdmaobj)
    (offset len : Z) : M (TEE_Result * caamdmaobj) :=
  let* _ := emit (EvDmaDerive offset len) in
  let* (k, ok) := acquire (dma_served e) in
  if ok
  then ret (TEE_SUCCESS,
            {| orig_data := drop (Z.to_nat offset) (orig_data from);
               orig_length := len;
               sgt_type := dmaobj_sgt e k; sgt_paddr := paddr_of e k;
               priv := Some k;
               work := take (Z.to_nat len) (drop (Z.to_nat offset) (work from)) |})
  else ret (dmaobj_ret e k, obj).

(** Modelled from the spec: section 4.3, the cache push of a DMA object
    before the device reads it. *)
Definition caam_dmaobj_cache_push (obj : caamdmaobj) : M unit :=
  emit (EvCachePush (priv obj)).

(** Modelled from the spec: section 4.4, copying the first [orig_length]
    bytes of the working buffer, as the device left it, over the front of
    the caller's buffer. *)
Definition caam_dmaobj_copy_to_orig (e : environment) (obj : caamdmaobj)
  : M caamdmaobj :=
  match priv obj with
  | None => ret obj
  | Some h =>
    let w := resize (length (work obj)) 0 (device_out e h) in
    let n := Z.to_nat (Z.min (orig_length obj) (Z.of_nat (length w))) in
    ret {| orig_data := take n w ++ drop n (orig_data obj);
           orig_length := orig_length obj;
           sgt_type := sgt_type obj; sgt_paddr := sgt_paddr obj;
           priv := priv obj; work := w |}
  end.

(** Modelled from the spec: releasing a DMA object gives its private area
    back, if it has one, and clears the object. *)
Definition caam_dmaobj_free (obj : caamdmaobj) : M caamdmaobj :=
  match priv obj with
  | Some h => let* _ := release h in ret caamdmaobj_zero
  | None => ret caamdmaobj_zero
  end.

(** *** Job descriptors and the job ring *)

(** Modelled from the spec: a zero-filled descriptor area of [nb] words, or
    a null pointer. *)
Definition caam_calloc_desc (e : environment) (nb : Z)
  : M (option (nat * descriptor)) :=
  let* (k, ok) := acquire (alloc_ok e) in
  if ok
  then ret (Some (k, {| capacity := nb; words := [] |}))
  else ret None.

(** Modelled from the spec: releasing a descriptor gives its area back, if
    there is one, and nulls the pointer. *)
Definition caam_free_desc (desc : option (nat * descriptor))
  : M (option (nat * descriptor)) :=
  match desc with
  | Some (h, _) => let* _ := release h in ret None
  | None => ret None
  end.

(** Modelled from the spec: section 6, the job transport; it hands back its
    own status and the status word of the job. *)
Definition caam_jr_enqueue (e : environment) (d : descriptor)
  : M (caam_status * Z) :=
  let* _ := emit (EvEnqueue (words d)) in
  ret (jr_retstatus e, jr_jobstatus e).

(** *** Keys *)

(** struct caam_dsa_keypair *)
Record caam_dsa_keypair := {
  ck_g : caambuf;
  ck_p : caambuf;
  ck_q : caambuf;
  ck_x : caambuf;
  ck_y : caambuf
}.

Definition caam_dsa_keypair_zero : caam_dsa_keypair :=
  {| ck_g := caambuf_zero; ck_p := caambuf_zero; ck_q := caambuf_zero;
     ck_x := caambuf_zero; ck_y := caambuf_zero |}.

Definition set_g (k : caam_dsa_keypair) (b : caambuf) : caam_dsa_keypair :=
  {| ck_g := b; ck_p := ck_p k; ck_q := ck_q k; ck_x := ck_x k; ck_y := ck_y k |}.
Definition set_p (k : caam_dsa_keypair) (b : caambuf) : caam_dsa_keypair :=
  {| ck_g := ck_g k; ck_p := b; ck_q := ck_q k; ck_x := ck_x k; ck_y := ck_y k |}.
Definition set_q (k : caam_dsa_keypair) (b : caambuf) : caam_dsa_keypair :=
  {| ck_g := ck_g k; ck_p := ck_p k; ck_q := b; ck_x := ck_x k; ck_y := ck_y k |}.
Definition set_x (k : caam_dsa_keypair) (b : caambuf) : caam_dsa_keypair :=
  {| ck_g := ck_g k; ck_p := ck_p k; ck_q := ck_q k; ck_x := b; ck_y := ck_y k |}.
Definition set_y (k : caam_dsa_keypair) (b : caambuf) : caam_dsa_keypair :=
  {| ck_g := ck_g k; ck_p := ck_p k; ck_q := ck_q k; ck_x := ck_x k; ck_y := b |}.

(** Modelled from the spec: crypto.h is not among the sources; the KeyPair
    of section 3 as struct dsa_keypair, five scalars. *)
Record dsa_keypair := {
  dk_g : bignum;
  dk_p : bignum;
  dk_q : bignum;
  dk_y : bignum;
  dk_x : bignum
}.

(** Modelled from the spec: crypto.h is not among the sources; the
    public-only key of section 3 as struct dsa_public_key. *)
Record dsa_public_key := {
  pk_g : bignum;
  pk_p : bignum;
  pk_q : bignum;
  pk_y : bignum
}.

(** Modelled from the spec: drvcrypt.h is not among the sources; struct
    cryptobuf, a caller buffer with its length. *)
Record cryptobuf := { cr_data : list Z; cr_length : Z }.

(** struct drvcrypt_sign_data (drvcrypt_acipher.h); [key] is the key the
    [void *] points to. *)
Record drvcrypt_sign_data (K : Type) := {
  algo : Z;
  key : K;
  size_sec : Z;
  message : cryptobuf;
  signature : cryptobuf
}.

Arguments algo {K} _.
Arguments key {K} _.
Arguments size_sec {K} _.
Arguments message {K} _.
Arguments signature {K} _.

(** Modelled from the spec: section 4.1, the external domain-parameter
    generator; it fills the three buffers it is given when it succeeds. *)
Definition caam_prime_dsa_gen (e : environment) (outkey : caam_dsa_keypair)
  : M (caam_status * caam_dsa_keypair) :=
  let* _ := emit EvPrimeGen in
  let fill (b : caambuf) (gen : list Z) : caambuf :=
    {| cb_data := cb_data b;
       cb_bytes := resize (Z.to_nat (cb_length b)) 0 gen;
       cb_length := cb_length b; cb_paddr := cb_paddr b |} in
  if caam_status_eqb (prime_gen_status e) CAAM_NO_ERROR
  then ret (CAAM_NO_ERROR,
            {| ck_g := fill (ck_g outkey) (prime_gen_g e);
               ck_p := fill (ck_p outkey) (prime_gen_p e);
               ck_q := fill (ck_q outkey) (prime_gen_q e);
               ck_x := ck_x outkey; ck_y := ck_y outkey |})
  else ret (prime_gen_status e, outkey).

Definition do_keypair_free (k : caam_dsa_keypair) : M caam_dsa_keypair :=
  let* g := caam_free_buf (ck_g k) in
  let* p := caam_free_buf (ck_p k) in
  let* q := caam_free_buf (ck_q k) in
  let* x := caam_free_buf (ck_x k) in
  let* y := caam_free_buf (ck_y k) in
  ret {| ck_g := g; ck_p := p; ck_q := q; ck_x := x; ck_y := y |}.

Definition get_keypair_domain_params (e : environment)
    (outkey : caam_dsa_keypair) (key : dsa_keypair) (l_bytes n_bytes : Z)
  : M (TEE_Result * caam_dsa_keypair * dsa_keypair) :=
  let* (retstatus, q) := caam_calloc_buf e (ck_q outkey) n_bytes in
  let outkey := set_q outkey q in
  if negb (caam_status_eqb retstatus CAAM_NO_ERROR)
  then ret (TEE_ERROR_OUT_OF_MEMORY, outkey, key) else
  let* (retstatus, g) := caam_calloc_buf e (ck_g outkey) l_bytes in
  let outkey := set_g outkey g in
  if negb (caam_status_eqb retstatus CAAM_NO_ERROR)
  then ret (TEE_ERROR_OUT_OF_MEMORY, outkey, key) else
  let* (retstatus, p) := caam_calloc_buf e (ck_p outkey) l_bytes in
  let outkey := set_p outkey p in
  if negb (caam_status_eqb retstatus CAAM_NO_ERROR)
  then ret (TEE_ERROR_OUT_OF_MEMORY, outkey, key) else
  let in_g_size := crypto_bignum_num_bytes (dk_g key) in
  let in_p_size := crypto_bignum_num_bytes (dk_p key) in
  let in_q_size := crypto_bignum_num_bytes (dk_q key) in
  if (in_q_size =? 0) || (in_g_size =? 0) || (in_p_size =? 0) then
    let* (retstatus, outkey) := caam_prime_dsa_gen e outkey in
    if negb (caam_status_eqb retstatus CAAM_NO_ERROR)
    then ret (TEE_ERROR_GENERIC, outkey, key) else
    let* (_, kq) :=
      crypto_bignum_bin2bn e (cb_bytes (ck_q outkey)) (cb_length (ck_q outkey))
        (dk_q key) in
    let* (_, kg) :=
      crypto_bignum_bin2bn e (cb_bytes (ck_g outkey)) (cb_length (ck_g outkey))
        (dk_g key) in
    let* (_, kp) :=
      crypto_bignum_bin2bn e (cb_bytes (ck_p outkey)) (cb_length (ck_p outkey))
        (dk_p key) in
    ret (TEE_SUCCESS, outkey,
         {| dk_g := kg; dk_p := kp; dk_q := kq;
            dk_y := dk_y key; dk_x := dk_x key |})
  else
    let* q := bn2bin_at (dk_q key) (ck_q outkey) (n_bytes - in_q_size) in
    let* q := cache_operation e TEE_CACHECLEAN q in
    let outkey := set_q outkey q in
    let* g := bn2bin_at (dk_g key) (ck_g outkey) (l_bytes - in_g_size) in
    let* g := cache_operation e TEE_CACHECLEAN g in
    let outkey := set_g outkey g in
    let* p := bn2bin_at (dk_p key) (ck_p outkey) (l_bytes - in_p_size) in
    let* p := cache_operation e TEE_CACHECLEAN p in
    let outkey := set_p outkey p in
    ret (TEE_SUCCESS, outkey, key).

Definition do_keypriv_conv (e : environment) (outkey : caam_dsa_keypair)
    (inkey : dsa_keypair) (l_bytes n_bytes : Z)
  : M (caam_status * caam_dsa_keypair) :=
  let* (retstatus, g) := caam_calloc_buf e (ck_g outkey) l_bytes in
  let outkey := set_g outkey g in
  if negb (caam_status_eqb retstatus CAAM_NO_ERROR)
  then ret (CAAM_OUT_MEMORY, outkey) else
  let field_size := crypto_bignum_num_bytes (dk_g inkey) in
  let* g := bn2bin_at (dk_g inkey) (ck_g outkey) (l_bytes - field_size) in
  let outkey := set_g outkey g in
  let* (retstatus, p) := caam_calloc_buf e (ck_p outkey) l_bytes in
  let outkey := set_p outkey p in
  if negb (caam_status_eqb retstatus CAAM_NO_ERROR)
  then ret (CAAM_OUT_MEMORY, outkey) else
  let field_size := crypto_bignum_num_bytes (dk_p inkey) in
  let* p := bn2bin_at (dk_p inkey) (ck_p outkey) (l_bytes - field_size) in
  let outkey := set_p outkey p in
  let* (retstatus, q) := caam_calloc_buf e (ck_q outkey) n_bytes in
  let outkey := set_q outkey q in
  if negb (caam_status_eqb retstatus CAAM_NO_ERROR)
  then ret (CAAM_OUT_MEMORY, outkey) else
  let field_size := crypto_bignum_num_bytes (dk_q inkey) in
  let* q := bn2bin_at (dk_q inkey) (ck_q outkey) (n_bytes - field_size) in
  let outkey := set_q outkey q in
  let* (retstatus, x) := caam_calloc_buf e (ck_x outkey) n_bytes in
  let outkey := set_x outkey x in
  if negb (caam_status_eqb retstatus CAAM_NO_ERROR)
  then ret (CAAM_OUT_MEMORY, outkey) else
  let field_size := crypto_bignum_num_bytes (dk_x inkey) in
  let* x := bn2bin_at (dk_x inkey) (ck_x outkey) (n_bytes - field_size) in
  let outkey := set_x outkey x in
  let* g := cache_operation e TEE_CACHECLEAN (ck_g outkey) in
  let outkey := set_g outkey g in
  let* p := cache_operation e TEE_CACHECLEAN (ck_p outkey) in
  let outkey := set_p outkey p in
  let* q := cache_operation e TEE_CACHECLEAN (ck_q outkey) in
  let outkey := set_q outkey q in
  let* x := cache_operation e TEE_CACHECLEAN (ck_x outkey) in
  let outkey := set_x outkey x in
  ret (CAAM_NO_ERROR, outkey).

Definition do_keypub_conv (e : environment) (outkey : caam_dsa_keypair)
    (inkey : dsa_public_key) (l_bytes n_bytes : Z)
  : M (caam_status * caam_dsa_keypair) :=
  let* (retstatus, g) := caam_calloc_buf e (ck_g outkey) l_bytes in
  let outkey := set_g outkey g in
  if negb (caam_status_eqb retstatus CAAM_NO_ERROR)
  then ret (CAAM_OUT_MEMORY, outkey) else
  let field_size := crypto_bignum_num_bytes (pk_g inkey) in
  let* g := bn2bin_at (pk_g inkey) (ck_g outkey) (l_bytes - field_size) in
  let outkey := set_g outkey g in
  let* (retstatus, p) := caam_calloc_buf e (ck_p outkey) l_bytes in
  let outkey := set_p outkey p in
  if negb (caam_status_eqb retstatus CAAM_NO_ERROR)
  then ret (CAAM_OUT_MEMORY, outkey) else
  let field_size := crypto_bignum_num_bytes (pk_p inkey) in
  let* p := bn2bin_at (pk_p inkey) (ck_p outkey) (l_bytes - field_size) in
  let outkey := set_p outkey p in
  let* (retstatus, q) := caam_calloc_buf e (ck_q outkey) n_bytes in
  let outkey := set_q outkey q in
  if negb (caam_status_eqb retstatus CAAM_NO_ERROR)
  then ret (CAAM_OUT_MEMORY, outkey) else
  let field_size := crypto_bignum_num_bytes (pk_q inkey) in
  let* q := bn2bin_at (pk_q inkey) (ck_q outkey) (n_bytes - field_size) in
  let outkey := set_q outkey q in
  let* (retstatus, y) := caam_calloc_buf e (ck_y outkey) l_bytes in
  let outkey := set_y outkey y in
  if negb (caam_status_eqb retstatus CAAM_NO_ERROR)
  then ret (CAAM_OUT_MEMORY, outkey) else
  let field_size := crypto_bignum_num_bytes (pk_y inkey) in
  let* y := bn2bin_at (pk_y inkey) (ck_y outkey) (l_bytes - field_size) in
  let outkey := set_y outkey y in
  let* g := cache_operation e TEE_CACHECLEAN (ck_g outkey) in
  let outkey := set_g outkey g in
  let* p := cache_operation e TEE_CACHECLEAN (ck_p outkey) in
  let outkey := set_p outkey p in
  let* q := cache_operation e TEE_CACHECLEAN (ck_q outkey) in
  let outkey := set_q outkey q in
  let* y := cache_operation e TEE_CACHECLEAN (ck_y outkey) in
  let outkey := set_y outkey y in
  ret (CAAM_NO_ERROR, outkey).

(** *** Descriptor construction *)

(** [do_gen_keypair], from [caam_desc_init] to [caam_desc_update_hdr]. *)
Definition gen_keypair_desc (c : config) (desc : descriptor)
    (l_bytes n_bytes : Z) (k : caam_dsa_keypair) : option descriptor :=
  let add_ptr := caam_desc_add_ptr (CFG_CAAM_64BIT c) (CFG_CAAM_BIG_ENDIAN c) in
  let desc := caam_desc_init desc in
  desc ← caam_desc_add_word desc (DESC_HEADER 0);
  desc ← caam_desc_add_word desc
           (Z.lor (PDB_DL_KEY_L_SIZE c l_bytes) (PDB_DL_KEY_N_SIZE c n_bytes));
  desc ← add_ptr desc (cb_paddr (ck_p k));
  desc ← add_ptr desc (cb_paddr (ck_q k));
  desc ← add_ptr desc (cb_paddr (ck_g k));
  desc ← add_ptr desc (cb_paddr (ck_x k));
  desc ← add_ptr desc (cb_paddr (ck_y k));
  desc ← caam_desc_add_word desc (PK_KEYPAIR_GEN_DL c);
  let desclen := caam_desc_get_len desc in
  caam_desc_update_hdr desc (DESC_HEADER_IDX desclen (wrap 32 (desclen - 1))).

(** [do_sign], from [caam_desc_init] to [caam_desc_update_hdr]. *)
Definition sign_desc (c : config) (desc : descriptor) (l_bytes n_bytes : Z)
    (pdb_sgt_flags : Z) (k : caam_dsa_keypair) (msg sign_c sign_d : caamdmaobj)
    (message_length : Z) : option descriptor :=
  let add_ptr := caam_desc_add_ptr (CFG_CAAM_64BIT c) (CFG_CAAM_BIG_ENDIAN c) in
  let desc := caam_desc_init desc in
  desc ← caam_desc_add_word desc (DESC_HEADER 0);
  desc ← caam_desc_add_word desc
           (Z.lor (Z.lor (PDB_DSA_SIGN_N c n_bytes) (PDB_DSA_SIGN_L c l_bytes))
                  pdb_sgt_flags);
  desc ← add_ptr desc (cb_paddr (ck_p k));
  desc ← add_ptr desc (cb_paddr (ck_q k));
  desc ← add_ptr desc (cb_paddr (ck_g k));
  desc ← add_ptr desc (cb_paddr (ck_x k));
  desc ← add_ptr desc (sgt_paddr msg);
  desc ← add_ptr desc (sgt_paddr sign_c);
  desc ← add_ptr desc (sgt_paddr sign_d);
  desc ← caam_desc_add_word desc message_length;
  desc ← caam_desc_add_word desc (DSA_SIGN_DL c);
  let desclen := caam_desc_get_len desc in
  caam_desc_update_hdr desc (DESC_HEADER_IDX desclen (wrap 32 (desclen - 1))).

(** [do_verify], from [caam_desc_init] to [caam_desc_update_hdr]. *)
Definition verify_desc (c : config) (desc : descriptor) (l_bytes n_bytes : Z)
    (pdb_sgt_flags : Z) (k : caam_dsa_keypair) (msg sign_c sign_d : caamdmaobj)
    (tmp : caambuf) (message_length : Z) : option descriptor :=
  let add_ptr := caam_desc_add_ptr (CFG_CAAM_64BIT c) (CFG_CAAM_BIG_ENDIAN c) in
  let desc := caam_desc_init desc in
  desc ← caam_desc_add_word desc (DESC_HEADER 0);
  desc ← caam_desc_add_word desc
           (Z.lor (Z.lor (PDB_DSA_VERIF_N c n_bytes) (PDB_DSA_VERIF_L c l_bytes))
                  pdb_sgt_flags);
  desc ← add_ptr desc (cb_paddr (ck_p k));
  desc ← add_ptr desc (cb_paddr (ck_q k));
  desc ← add_ptr desc (cb_paddr (ck_g k));
  desc ← add_ptr desc (cb_paddr (ck_y k));
  desc ← add_ptr desc (sgt_paddr msg);
  desc ← add_ptr desc (sgt_paddr sign_c);
  desc ← add_ptr desc (sgt_paddr sign_d);
  desc ← add_ptr desc (cb_paddr tmp);
  desc ← caam_desc_add_word desc message_length;
  desc ← caam_desc_add_word desc (DSA_VERIFY_DL c);
  let desclen := caam_desc_get_len desc in
  caam_desc_update_hdr desc (DESC_HEADER_IDX desclen (wrap 32 (desclen - 1))).

(** *** The three operations *)

(** The local objects of an operation that its exit sequence releases. *)
Record locals := {
  l_desc : option (nat * descriptor);
  l_key : caam_dsa_keypair;
  l_tmp : caambuf;
  l_msg : caamdmaobj;
  l_sign_c : caamdmaobj;
  l_sign_d : caamdmaobj
}.

Definition gen_locals (desc : option (nat * descriptor))
    (k : caam_dsa_keypair) : locals :=
  {| l_desc := desc; l_key := k; l_tmp := caambuf_zero;
     l_msg := caamdmaobj_zero; l_sign_c := caamdmaobj_zero;
     l_sign_d := caamdmaobj_zero |}.

Definition sign_locals (desc : option (nat * descriptor))
    (k : caam_dsa_keypair) (msg sign_c sign_d : caamdmaobj) : locals :=
  {| l_desc := desc; l_key := k; l_tmp := caambuf_zero;
     l_msg := msg; l_sign_c := sign_c; l_sign_d := sign_d |}.

Definition verify_locals (desc : option (nat * descriptor))
    (k : caam_dsa_keypair) (tmp : caambuf) (msg sign_c sign_d : caamdmaobj)
  : locals :=
  {| l_desc := desc; l_key := k; l_tmp := tmp;
     l_msg := msg; l_sign_c := sign_c; l_sign_d := sign_d |}.

(** [do_gen_keypair] up to the label [exit_gen_keypair]: the result, the
    caller's key and the locals with which the label is reached. *)
Definition gen_keypair_run (e : environment) (c : config) (key : dsa_keypair)
    (l_bytes n_bytes : Z) : M (TEE_Result * dsa_keypair * locals) :=
  let k := caam_dsa_keypair_zero in
  let* desc := caam_calloc_desc e (MAX_DESC_KEY_GEN c) in
  match desc with
  | None => ret (TEE_ERROR_OUT_OF_MEMORY, key, gen_locals desc k)
  | Some (hd, d) =>
    let* (retstatus, x) := caam_calloc_align_buf e (ck_x k) n_bytes in
    let k := set_x k x in
    if negb (caam_status_eqb retstatus CAAM_NO_ERROR)
    then ret (TEE_ERROR_OUT_OF_MEMORY, key, gen_locals desc k) else
    let* x := cache_operation e TEE_CACHEFLUSH (ck_x k) in
    let k := set_x k x in
    let* (retstatus, y) := caam_calloc_align_buf e (ck_y k) l_bytes in
    let k := set_y k y in
    if negb (caam_status_eqb retstatus CAAM_NO_ERROR)
    then ret (TEE_ERROR_OUT_OF_MEMORY, key, gen_locals desc k) else
    let* y := cache_operation e TEE_CACHEFLUSH (ck_y k) in
    let k := set_y k y in
    let* (r, k, key) := get_keypair_domain_params e k key l_bytes n_bytes in
    if negb (r =? TEE_SUCCESS) then ret (r, key, gen_locals desc k) else
    let* d := lift (gen_keypair_desc c d l_bytes n_bytes k) in
    let desc := Some (hd, d) in
    let* (retstatus, status) := caam_jr_enqueue e d in
    if caam_status_eqb retstatus CAAM_NO_ERROR then
      let* x := cache_operation e TEE_CACHEINVALIDATE (ck_x k) in
      let k := set_x k x in
      let* y := cache_operation e TEE_CACHEINVALIDATE (ck_y k) in
      let k := set_y k y in
      let* (r, kx) :=
        crypto_bignum_bin2bn e (cb_bytes (ck_x k)) (cb_length (ck_x k))
          (dk_x key) in
      let key := {| dk_g := dk_g key; dk_p := dk_p key; dk_q := dk_q key;
                    dk_y := dk_y key; dk_x := kx |} in
      if negb (r =? TEE_SUCCESS) then ret (r, key, gen_locals desc k) else
      let* (r, ky) :=
        crypto_bignum_bin2bn e (cb_bytes (ck_y k)) (cb_length (ck_y k))
          (dk_y key) in
      let key := {| dk_g := dk_g key; dk_p := dk_p key; dk_q := dk_q key;
                    dk_y := ky; dk_x := dk_x key |} in
      if negb (r =? TEE_SUCCESS) then ret (r, key, gen_locals desc k) else
      ret (TEE_SUCCESS, key, gen_locals desc k)
    else ret (job_status_to_tee_result e status, key, gen_locals desc k)
  end.

(** The statements after the label [exit_gen_keypair]. *)
Definition exit_gen_keypair (loc : locals) : M unit :=
  let* _ := caam_free_desc (l_desc loc) in
  let* _ := do_keypair_free (l_key loc) in
  ret tt.

Definition do_gen_keypair (e : environment) (c : config) (key : dsa_keypair)
    (l_bits n_bits : Z) : M (TEE_Result * dsa_keypair) :=
  let l_bytes := l_bits / 8 in
  let n_bytes := n_bits / 8 in
  let* (r, key, loc) := gen_keypair_run e c key l_bytes n_bytes in
  let* _ := exit_gen_keypair loc in
  ret (r, key).

(** [do_sign] up to the label [exit_sign]. *)
Definition sign_run (e : environment) (c : config)
    (sdata : drvcrypt_sign_data dsa_keypair) (l_bytes n_bytes : Z)
  : M (TEE_Result * drvcrypt_sign_data dsa_keypair * locals) :=
  let w := size_bits c in
  let inkey := key sdata in
  let k := caam_dsa_keypair_zero in
  let z := caamdmaobj_zero in
  let* desc := caam_calloc_desc e (MAX_DESC_SIGN c) in
  match desc with
  | None => ret (TEE_ERROR_OUT_OF_MEMORY, sdata, sign_locals desc k z z z)
  | Some (hd, d) =>
    let* (retstatus, k) := do_keypriv_conv e k inkey l_bytes n_bytes in
    if negb (caam_status_eqb retstatus CAAM_NO_ERROR)
    then ret (TEE_ERROR_OUT_OF_MEMORY, sdata, sign_locals desc k z z z) else
    let* (r, msg) :=
      caam_dmaobj_init_input e z (cr_data (message sdata))
        (cr_length (message sdata)) in
    if negb (r =? 0) then ret (r, sdata, sign_locals desc k msg z z) else
    let pdb_sgt_flags := 0 in
    let pdb_sgt_flags :=
      if sgt_type msg then Z.lor pdb_sgt_flags (PDB_SGT_PKSIGN_MSG c)
      else pdb_sgt_flags in
    let* _ := caam_dmaobj_cache_push msg in
    let sign_len := wrap w (ROUNDUP w (size_sec sdata) 16 + size_sec sdata) in
    let* (r, sign_c) :=
      caam_dmaobj_init_output e z (cr_data (signature sdata))
        (cr_length (signature sdata)) sign_len in
    if negb (r =? 0) then ret (r, sdata, sign_locals desc k msg sign_c z) else
    let pdb_sgt_flags :=
      if sgt_type sign_c then Z.lor pdb_sgt_flags (PDB_SGT_PKSIGN_SIGN_C c)
      else pdb_sgt_flags in
    let* (r, sign_d) :=
      caam_dmaobj_derive e z sign_c (size_sec sdata)
        (ROUNDUP w (size_sec sdata) 16) in
    if negb (r =? 0)
    then ret (r, sdata, sign_locals desc k msg sign_c sign_d) else
    let pdb_sgt_flags :=
      if sgt_type sign_d then Z.lor pdb_sgt_flags (PDB_SGT_PKSIGN_SIGN_D c)
      else pdb_sgt_flags in
    let* _ := caam_dmaobj_cache_push sign_c in
    let* _ := caam_dmaobj_cache_push sign_d in
    let* d :=
      lift (sign_desc c d l_bytes n_bytes pdb_sgt_flags k msg sign_c sign_d
              (cr_length (message sdata))) in
    let desc := Some (hd, d) in
    let* (retstatus, status) := caam_jr_enqueue e d in
    if caam_status_eqb retstatus CAAM_NO_ERROR then
      let sign_c :=
        {| orig_data := orig_data sign_c;
           orig_length := wrap w (2 * size_sec sdata);
           sgt_type := sgt_type sign_c; sgt_paddr := sgt_paddr sign_c;
           priv := priv sign_c; work := work sign_c |} in
      let* sign_c := caam_dmaobj_copy_to_orig e sign_c in
      let sdata :=
        {| algo := algo sdata; key := key sdata; size_sec := size_sec sdata;
           message := message sdata;
           signature := {| cr_data := orig_data sign_c;
                           cr_length := orig_length sign_c |} |} in
      ret (TEE_SUCCESS, sdata, sign_locals desc k msg sign_c sign_d)
    else ret (job_status_to_tee_result e status, sdata,
              sign_locals desc k msg sign_c sign_d)
  end.

(** The statements after the label [exit_sign]. *)
Definition exit_sign (loc : locals) : M unit :=
  let* _ := caam_free_desc (l_desc loc) in
  let* _ := do_keypair_free (l_key loc) in
  let* _ := caam_dmaobj_free (l_msg loc) in
  let* _ := caam_dmaobj_free (l_sign_c loc) in
  let* _ := caam_dmaobj_free (l_sign_d loc) in
  ret tt.

Definition do_sign (e : environment) (c : config)
    (sdata : drvcrypt_sign_data dsa_keypair) (l_bytes n_bytes : Z)
  : M (TEE_Result * drvcrypt_sign_data dsa_keypair) :=
  let* (r, sdata, loc) := sign_run e c sdata l_bytes n_bytes in
  let* _ := exit_sign loc in
  ret (r, sdata).

(** [do_verify] up to the label [exit_verify]. *)
Definition verify_run (e : environment) (c : config)
    (sdata : drvcrypt_sign_data dsa_public_key) (l_bytes n_bytes : Z)
  : M (TEE_Result * locals) :=
  let inkey := key sdata in
  let k := caam_dsa_keypair_zero in
  let z := caamdmaobj_zero in
  let tmp := caambuf_zero in
  let* desc := caam_calloc_desc e (MAX_DESC_VERIFY c) in
  match desc with
  | None => ret (TEE_ERROR_OUT_OF_MEMORY, verify_locals desc k tmp z z z)
  | Some (hd, d) =>
    let* (retstatus, k) := do_keypub_conv e k inkey l_bytes n_bytes in
    if negb (caam_status_eqb retstatus CAAM_NO_ERROR)
    then ret (TEE_ERROR_OUT_OF_MEMORY, verify_locals desc k tmp z z z) else
    let* (r, msg) :=
      caam_dmaobj_init_input e z (cr_data (message sdata))
        (cr_length (message sdata)) in
    if negb (r =? 0) then ret (r, verify_locals desc k tmp msg z z) else
    let pdb_sgt_flags := 0 in
    let pdb_sgt_flags :=
      if sgt_type msg then Z.lor pdb_sgt_flags (PDB_SGT_PKVERIF_MSG c)
      else pdb_sgt_flags in
    let* _ := caam_dmaobj_cache_push msg in
    let* (r, sign_c) :=
      caam_dmaobj_init_input e z (cr_data (signature sdata))
        (cr_length (signature sdata)) in
    if negb (r =? 0) then ret (r, verify_locals desc k tmp msg sign_c z) else
    let pdb_sgt_flags :=
      if sgt_type sign_c then Z.lor pdb_sgt_flags (PDB_SGT_PKVERIF_SIGN_C c)
      else pdb_sgt_flags in
    let* (r, sign_d) :=
      caam_dmaobj_derive e z sign_c (size_sec sdata) (size_sec sdata) in
    if negb (r =? 0)
    then ret (r, verify_locals desc k tmp msg sign_c sign_d) else
    let pdb_sgt_flags :=
      if sgt_type sign_d then Z.lor pdb_sgt_flags (PDB_SGT_PKVERIF_SIGN_D c)
      else pdb_sgt_flags in
    let* _ := caam_dmaobj_cache_push sign_c in
    let* _ := caam_dmaobj_cache_push sign_d in
    let* (retstatus, tmp) := caam_alloc_align_buf e tmp l_bytes in
    if negb (caam_status_eqb retstatus CAAM_NO_ERROR)
    then ret (TEE_ERROR_OUT_OF_MEMORY,
              verify_locals desc k tmp msg sign_c sign_d) else
    let* d :=
      lift (verify_desc c d l_bytes n_bytes pdb_sgt_flags k msg sign_c sign_d
              tmp (cr_length (message sdata))) in
    let desc := Some (hd, d) in
    let* tmp := cache_operation e TEE_CACHEFLUSH tmp in
    let* (retstatus, status) := caam_jr_enqueue e d in
    let loc := verify_locals desc k tmp msg sign_c sign_d in
    if caam_status_eqb retstatus CAAM_JOB_STATUS && (status =? 0)
    then ret (TEE_ERROR_SIGNATURE_INVALID, loc)
    else if negb (caam_status_eqb retstatus CAAM_NO_ERROR)
    then ret (job_status_to_tee_result e status, loc)
    else ret (TEE_SUCCESS, loc)
  end.

(** The statements after the label [exit_verify]. *)
Definition exit_verify (loc : locals) : M unit :=
  let* _ := caam_free_desc (l_desc loc) in
  let* _ := do_keypair_free (l_key loc) in
  let* _ := caam_free_buf (l_tmp loc) in
  let* _ := caam_dmaobj_free (l_msg loc) in
  let* _ := caam_dmaobj_free (l_sign_c loc) in
  let* _ := caam_dmaobj_free (l_sign_d loc) in
  ret tt.

Definition do_verify (e : environment) (c : config)
    (sdata : drvcrypt_sign_data dsa_public_key) (l_bytes n_bytes : Z)
  : M TEE_Result :=
  let* (r, loc) := verify_run e c sdata l_bytes n_bytes in
  let* _ := exit_verify loc in
  ret r.

(** Every area the call obtained has been given back, once. *)
Definition balanced (s : state) : Prop :=
  live s = [] /\ NoDup (freed s) /\ freed s ≡ₚ allocated s.

End Caam.

(** ** Reference descriptions used by the statements *)

Module DcpRef.

Import Mach.

(** Bit 7 of the first byte of a byte string, [0] for the empty string. *)
Definition top_bit (l : list Z) : Z :=
  match l with
  | [] => 0
  | b :: _ => Z.shiftr (Z.land b (BIT 7)) 7
  end.

(** A byte string shifted left by one bit, byte by byte: each byte takes
    the top bit of its right neighbour. *)
Fixpoint shift_bytes (l : list Z) : list Z :=
  match l with
  | [] => []
  | b :: tl =>
    let r := Z.land (Z.shiftl b 1) 0xFF in
    (if top_bit tl =? 0 then r else Z.lor r (top_bit tl)) :: shift_bytes tl
  end.

(** A 32-bit target with 64-byte cache lines whose allocator serves a
    request of up to one mebibyte at a fixed address. *)
Definition env32 : Dcp.environment :=
  {| Dcp.arm64 := false;
     Dcp.ctr_reg := 0x84448004;
     Dcp.calloc := fun n => if n <=? 0x100000 then 0x20000008 else 0;
     Dcp.virt_to_phys := fun va => va |}.

Definition buf0 : Dcp.align_buf :=
  {| Dcp.data := 0; Dcp.buf_size := 0; Dcp.paddr := 0 |}.

End DcpRef.

Module CaamRef.

Import Mach Bytes Bignum CaamDesc Caam.

(** A buffer of [W] bytes that holds the scalar [bn] right-justified after
    zero bytes, so that reading the buffer back yields [bn]. *)
Definition right_justified (bn : bignum) (W : Z) (buf : caambuf) : Prop :=
  cb_length buf = W
  /\ Z.of_nat (length (cb_bytes buf)) = W
  /\ cb_bytes buf
     = zeros (Z.to_nat (W - crypto_bignum_num_bytes bn))
         ++ crypto_bignum_bn2bin bn
  /\ bin2bn_value (cb_bytes buf) (cb_length buf) = bn.

(** The scalars of a key fit the widths [l_bytes] and [n_bytes]. *)
Definition keypair_fits (k : dsa_keypair) (l_bytes n_bytes : Z) : Prop :=
  crypto_bignum_num_bytes (dk_g k) <= l_bytes
  /\ crypto_bignum_num_bytes (dk_p k) <= l_bytes
  /\ crypto_bignum_num_bytes (dk_q k) <= n_bytes
  /\ crypto_bignum_num_bytes (dk_x k) <= n_bytes.

Definition public_key_fits (k : dsa_public_key) (l_bytes n_bytes : Z) : Prop :=
  crypto_bignum_num_bytes (pk_g k) <= l_bytes
  /\ crypto_bignum_num_bytes (pk_p k) <= l_bytes
  /\ crypto_bignum_num_bytes (pk_q k) <= n_bytes
  /\ crypto_bignum_num_bytes (pk_y k) <= l_bytes.

(** The domain parameters of a key, when present, fit the widths. *)
Definition domain_fits (k : dsa_keypair) (l_bytes n_bytes : Z) : Prop :=
  crypto_bignum_num_bytes (dk_g k) <= l_bytes
  /\ crypto_bignum_num_bytes (dk_p k) <= l_bytes
  /\ crypto_bignum_num_bytes (dk_q k) <= n_bytes.

Definition domain_present (k : dsa_keypair) : Prop :=
  crypto_bignum_num_bytes (dk_p k) <> 0
  /\ crypto_bignum_num_bytes (dk_q k) <> 0
  /\ crypto_bignum_num_bytes (dk_g k) <> 0.

Definition domain_missing (k : dsa_keypair) : Prop :=
  crypto_bignum_num_bytes (dk_p k) = 0
  \/ crypto_bignum_num_bytes (dk_q k) = 0
  \/ crypto_bignum_num_bytes (dk_g k) = 0.

(** The three buffer requests of [get_keypair_domain_params] are served. *)
Definition domain_allocs_ok (e : environment) (s : state) : Prop :=
  alloc_ok e (reqs s) = true
  /\ alloc_ok e (S (reqs s)) = true
  /\ alloc_ok e (S (S (reqs s))) = true.

(** The fields of a descriptor after its header, as the operation table
    names them: a parameter word or a device address. *)
Inductive field :=
| FWord (w : Z)
| FPtr (a : Z).

Definition field_words (c : config) (f : field) : list Z :=
  match f with
  | FWord w => [wrap 32 w]
  | FPtr a => ptr_words (CFG_CAAM_64BIT c) (CFG_CAAM_BIG_ENDIAN c) a
  end.

Definition layout (c : config) (fs : list field) : list Z :=
  concat (map (field_words c) fs).

(** The fields of the three descriptors in the order of the operation
    table of section 4.2. *)
Definition gen_fields (c : config) (l_bytes n_bytes : Z)
    (k : caam_dsa_keypair) : list field :=
  [FWord (Z.lor (PDB_DL_KEY_L_SIZE c l_bytes) (PDB_DL_KEY_N_SIZE c n_bytes));
   FPtr (cb_paddr (ck_p k));
   FPtr (cb_paddr (ck_q k));
   FPtr (cb_paddr (ck_g k));
   FPtr (cb_paddr (ck_x k));
   FPtr (cb_paddr (ck_y k));
   FWord (PK_KEYPAIR_GEN_DL c)].

Definition sign_fields (c : config) (l_bytes n_bytes pdb_sgt_flags : Z)
    (k : caam_dsa_keypair) (msg sign_c sign_d : caamdmaobj)
    (message_length : Z) : list field :=
  [FWord (Z.lor (Z.lor (PDB_DSA_SIGN_N c n_bytes) (PDB_DSA_SIGN_L c l_bytes))
                pdb_sgt_flags);
   FPtr (cb_paddr (ck_p k));
   FPtr (cb_paddr (ck_q k));
   FPtr (cb_paddr (ck_g k));
   FPtr (cb_paddr (ck_x k));
   FPtr (sgt_paddr msg);
   FPtr (sgt_paddr sign_c);
   FPtr (sgt_paddr sign_d);
   FWord message_length;
   FWord (DSA_SIGN_DL c)].

Definition verify_fields (c : config) (l_bytes n_bytes pdb_sgt_flags : Z)
    (k : caam_dsa_keypair) (msg sign_c sign_d : caamdmaobj) (tmp : caambuf)
    (message_length : Z) : list field :=
  [FWord (Z.lor (Z.lor (PDB_DSA_VERIF_N c n_bytes) (PDB_DSA_VERIF_L c l_bytes))
                pdb_sgt_flags);
   FPtr (cb_paddr (ck_p k));
   FPtr (cb_paddr (ck_q k));
   FPtr (cb_paddr (ck_g k));
   FPtr (cb_paddr (ck_y k));
   FPtr (sgt_paddr msg);
   FPtr (sgt_paddr sign_c);
   FPtr (sgt_paddr sign_d);
   FPtr (cb_paddr tmp);
   FWord message_length;
   FWord (DSA_VERIFY_DL c)].

(** A descriptor area of the capacity the operation allocates. *)
Definition fresh_desc (nb : Z) : descriptor :=
  {| capacity := nb; words := [] |}.

(** [balanced], as a computation on the ledger. *)
Definition balancedb (s : state) : bool :=
  match live s with [] => true | _ => false end
  && forallb (fun x => Nat.eqb (count_occ Nat.eq_dec (freed s) x) 1
                       && Nat.eqb (count_occ Nat.eq_dec (allocated s) x) 1)
       (freed s ++ allocated s).

(** The descriptors a call has handed to the job ring. *)
Definition submitted (s : state) : list (list Z) :=
  flat_map (fun ev => match ev with
                      | EvEnqueue ws => [ws]
                      | _ => []
                      end) (events s).

(** The length field of the first word is the number of words. *)
Definition header_ok (ws : list Z) : Prop :=
  match ws with
  | hdr :: _ => GET_JD_DESCLEN hdr = Z.of_nat (length ws)
  | [] => False
  end.

(** The words after the header are the fields of the operation, in the
    order of the table, for some local objects of the operation. *)
Definition gen_shaped (c : config) (l_bytes n_bytes : Z) (ws : list Z)
  : Prop :=
  exists hdr k, ws = hdr :: layout c (gen_fields c l_bytes n_bytes k).

Definition sign_shaped (c : config) (l_bytes n_bytes mlen : Z) (ws : list Z)
  : Prop :=
  exists hdr flags k msg sign_c sign_d,
    ws = hdr :: layout c (sign_fields c l_bytes n_bytes flags k msg sign_c
                            sign_d mlen).

Definition verify_shaped (c : config) (l_bytes n_bytes mlen : Z)
    (ws : list Z) : Prop :=
  exists hdr flags k msg sign_c sign_d tmp,
    ws = hdr :: layout c (verify_fields c l_bytes n_bytes flags k msg sign_c
                            sign_d tmp mlen).

(** The requests for an output working buffer a call has made: the length
    of the caller's buffer and the size asked for. *)
Definition output_requests (s : state) : list (Z * Z) :=
  flat_map (fun ev => match ev with
                      | EvDmaOutput len min_len => [(len, min_len)]
                      | _ => []
                      end) (events s).

(** The least multiple of 16 that is not below [v]. *)
Definition roundup16 (v : Z) : Z := 16 * ((v + 15) / 16).

(** A 32-bit build with sample descriptor constants. *)
Definition cfg32 : config :=
  {| size_bits := 32; CFG_CAAM_64BIT := false; CFG_CAAM_BIG_ENDIAN := false;
     PDB_DL_KEY_L_SIZE := fun l => Z.shiftl (Z.land l 0x3FF) 7;
     PDB_DL_KEY_N_SIZE := fun n => Z.land n 0x7F;
     PK_KEYPAIR_GEN_DL := 0x86140000;
     PDB_DSA_SIGN_N := fun n => Z.land n 0x7F;
     PDB_DSA_SIGN_L := fun l => Z.shiftl (Z.land l 0x3FF) 7;
     PDB_SGT_PKSIGN_MSG := Z.shiftl 1 27;
     PDB_SGT_PKSIGN_SIGN_C := Z.shiftl 1 26;
     PDB_SGT_PKSIGN_SIGN_D := Z.shiftl 1 25;
     DSA_SIGN_DL := 0x86150000;
     PDB_DSA_VERIF_N := fun n => Z.land n 0x7F;
     PDB_DSA_VERIF_L := fun l => Z.shiftl (Z.land l 0x3FF) 7;
     PDB_SGT_PKVERIF_MSG := Z.shiftl 1 27;
     PDB_SGT_PKVERIF_SIGN_C := Z.shiftl 1 26;
     PDB_SGT_PKVERIF_SIGN_D := Z.shiftl 1 25;
     DSA_VERIFY_DL := 0x86160000 |}.

(** Collaborators that serve every request; the job ends with the given
    transport status and job status word, the generator with the given
    status. *)
Definition env_with (gen jr : caam_status) (jobstatus : Z) : environment :=
  {| alloc_ok := fun _ => true;
     paddr_of := fun k => 0x1000 * (Z.of_nat k + 1);
     stale := fun _ => [];
     dmaobj_ret := fun _ => TEE_SUCCESS;
     dmaobj_sgt := fun _ => false;
     prime_gen_status := gen;
     prime_gen_g := [1; 2; 3; 4];
     prime_gen_p := [9; 9; 9; 9];
     prime_gen_q := [7; 7];
     jr_retstatus := jr;
     jr_jobstatus := jobstatus;
     device_out := fun k => [Z.of_nat k; 1; 2; 3; 4; 5; 6; 7; 8];
     bin2bn_ret := fun _ => TEE_SUCCESS;
     job_status_to_tee_result := fun _ => TEE_ERROR_GENERIC |}.

Definition env_ok : environment := env_with CAAM_NO_ERROR CAAM_NO_ERROR 0.

(** A key without domain parameters and a key with all scalars set. *)
Definition key_empty : dsa_keypair :=
  {| dk_g := 0%N; dk_p := 0%N; dk_q := 0%N; dk_y := 0%N; dk_x := 0%N |}.

Definition key_full : dsa_keypair :=
  {| dk_g := 5%N; dk_p := 0x1234%N; dk_q := 0x77%N; dk_y := 3%N;
     dk_x := 2%N |}.

Definition pubkey_full : dsa_public_key :=
  {| pk_g := 5%N; pk_p := 0x1234%N; pk_q := 0x77%N; pk_y := 3%N |}.

(** Key buffers and DMA objects at distinct device addresses. *)
Definition buf_at (pa : Z) : caambuf :=
  {| cb_data := None; cb_bytes := []; cb_length := 0; cb_paddr := pa |}.

Definition bufs_sample : caam_dsa_keypair :=
  {| ck_g := buf_at 0x3000; ck_p := buf_at 0x1000; ck_q := buf_at 0x2000;
     ck_x := buf_at 0x4000; ck_y := buf_at 0x5000 |}.

Definition dma_at (pa : Z) : caamdmaobj :=
  {| orig_data := []; orig_length := 0; sgt_type := false; sgt_paddr := pa;
     priv := None; work := [] |}.

Definition sign_data : drvcrypt_sign_data dsa_keypair :=
  {| algo := 0; key := key_full; size_sec := 2;
     message := {| cr_data := [1; 2; 3]; cr_length := 3 |};
     signature := {| cr_data := [0; 0; 0; 0; 0; 0]; cr_length := 6 |} |}.

Definition verify_data : drvcrypt_sign_data dsa_public_key :=
  {| algo := 0; key := pubkey_full; size_sec := 2;
     message := {| cr_data := [1; 2; 3]; cr_length := 3 |};
     signature := {| cr_data := [6; 1; 2; 3]; cr_length := 4 |} |}.

End CaamRef.

(** ** DCP buffer utilities on a byte-addressed memory *)

Module DcpMem.

Import Mach Dcp.

(** The memory the two pointers of [left_shift_buffer] point into: a byte
    at every address.  The buffers are address ranges of it and may share
    bytes. *)
Definition memory := Z -> Z.

Definition load (m : memory) (a : Z) : Z := m a.

Definition store (m : memory) (a v : Z) : memory :=
  fun x => if x =? a then v else m x.

(** The [n] bytes at [a], first address first. *)
Definition bytes_at (m : memory) (a : Z) (n : nat) : list Z :=
  map (fun k => load m (a + Z.of_nat k)) (seq 0 n).

(** [left_shift_buffer] statement by statement: the byte at
    [result + idx] is written from the byte at [input + idx], or-ed with
    the carry, and the next carry is then read at [input + idx].  [fuel]
    bounds the number of iterations the model follows. *)
Fixpoint left_shift_loop_at (fuel : nat) (size_bits : Z) (m : memory)
    (input result buffer_size i msb : Z) : option memory :=
  if i <? buffer_size then
    match fuel with
    | O => None
    | S fuel' =>
      let idx := wrap size_bits (buffer_size - 1 - i) in
      let m := store m (result + idx)
                 (Z.land (Z.shiftl (load m (input + idx)) 1) 0xFF) in
      let m := if msb =? 0 then m
               else store m (result + idx)
                      (Z.lor (load m (result + idx)) msb) in
      let msb := Z.shiftr (Z.land (load m (input + idx)) (BIT 7)) 7 in
      left_shift_loop_at fuel' size_bits m input result buffer_size
        (wrap 32 (i + 1)) msb
    end
  else Some m.

Definition left_shift_buffer_at (fuel : nat) (size_bits : Z) (m : memory)
    (input result buffer_size : Z) : option memory :=
  left_shift_loop_at fuel size_bits m input result buffer_size 0 0.

(** The memory that holds the bytes [l] from address 0 on. *)
Definition mem_of (l : list Z) : memory :=
  fun a => nth (Z.to_nat a) l 0.

(** The carry that reaches byte [k] of a run over [r] bytes which starts
    with the carry [c]: read at [input + k + 1], from the byte as it was
    when the buffers are apart and from the shifted byte when they are the
    same. *)
Definition carry_in (m : memory) (input result : Z) (r : nat) (c : Z)
    (k : Z) : Z :=
  if k =? Z.of_nat r - 1 then c
  else if input =? result then (load m (input + k + 1) / 64) mod 2
       else load m (input + k + 1) / 128.

(** [dcp_udelay]: the loop [while (counter--)] with its 32-bit counter; the
    result is the counter the loop leaves and the number of times the two
    barriers were executed. *)
Fixpoint udelay_loop (fuel : nat) (counter barriers : Z) : option (Z * Z) :=
  let test := counter in
  let counter := wrap 32 (counter - 1) in
  if test =? 0 then Some (counter, barriers)
  else match fuel with
       | O => None
       | S fuel' => udelay_loop fuel' counter (barriers + 1)
       end.

Definition dcp_udelay (fuel : nat) (time : Z) : option (Z * Z) :=
  let counter := wrap 32 (time * 500) in
  udelay_loop fuel counter 0.

End DcpMem.

(** ** Assumptions on the C allocator *)

Module DcpHeapRef.

Import Dcp.

(** No area of the heap starts where the allocator places a new one. *)
Definition calloc_fresh (e : environment) (h : heap) : Prop :=
  forall n len, ~ In (calloc e n, len) (areas h).

(** The allocator answers with NULL or with an area of the requested
    length inside the address space. *)
Definition calloc_sane (e : environment) : Prop :=
  forall n, calloc e n = 0
            \/ (0 < calloc e n /\ calloc e n + n <= 2 ^ size_bits e).

(** The allocator places no area in the last bytes of the address space:
    a header and a cache line fit above the start of every area. *)
Definition calloc_low (e : environment) : Prop :=
  forall n, calloc e n = 0
            \/ (0 < calloc e n
                /\ calloc e n + MEM_HDR_SIZE e + read_cacheline_size e
                   <= 2 ^ size_bits e).

(** The least multiple of [a] that is not below [v]. *)
Definition round_up (v a : Z) : Z := a * ((v + (a - 1)) / a).

(** The allocator aligns the areas as it would a header. *)
Definition calloc_aligned (e : environment) : Prop :=
  forall n, calloc e n mod MEM_HDR_SIZE e = 0.

(** As [env32], with an address translation that finds no physical
    address. *)
Definition env32_unmapped : environment :=
  {| arm64 := false;
     ctr_reg := 0x84448004;
     calloc := fun n => if n <=? 0x100000 then 0x20000008 else 0;
     virt_to_phys := fun _ => 0 |}.

End DcpHeapRef.

(** ** Key allocation (do_allocate_keypair, do_allocate_publickey) *)

Module CaamKeyAlloc.

Import Caam.

(** A scalar of the big-integer library as a key structure points to it,
    a pointer to struct bignum: the area the library obtained for it and
    the size in bits it was allocated for. *)
Record bignum_ref := { bn_area : nat; bn_bits : Z }.

(** Modelled from the spec: crypto.h is not among the sources; struct
    dsa_keypair as the allocation functions see it, five pointers to
    scalars, [None] for NULL. *)
Record dsa_keypair_ptrs := {
  kp_g : option bignum_ref;
  kp_p : option bignum_ref;
  kp_q : option bignum_ref;
  kp_y : option bignum_ref;
  kp_x : option bignum_ref
}.

(** Modelled from the spec: struct dsa_public_key, four pointers. *)
Record dsa_public_key_ptrs := {
  pp_g : option bignum_ref;
  pp_p : option bignum_ref;
  pp_q : option bignum_ref;
  pp_y : option bignum_ref
}.

(** Modelled from the spec: the big-integer library is an external
    collaborator (section 6) and not among the sources; as the call sites
    use it, crypto_bignum_allocate(size_bits) returns a new scalar, or
    NULL when it has no memory for it. *)
Definition crypto_bignum_allocate (e : environment) (size_bits : Z)
  : M (option bignum_ref) :=
  let* (k, ok) := acquire (alloc_ok e) in
  if ok then ret (Some {| bn_area := k; bn_bits := size_bits |})
  else ret None.

(** Modelled from the spec: the big-integer library is an external
    collaborator; as the call sites use it, crypto_bignum_free(bn) gives
    the scalar back and accepts NULL (the error paths call it on fields
    that are still NULL).  The pointer is passed by value: the field of
    the caller's structure keeps it. *)
Definition crypto_bignum_free (bn : option bignum_ref) : M unit :=
  match bn with
  | Some r => release (bn_area r)
  | None => ret tt
  end.

(** The statements after the label [err_alloc_keypair]. *)
Definition err_alloc_keypair (key : dsa_keypair_ptrs)
  : M (TEE_Result * dsa_keypair_ptrs) :=
  let* _ := crypto_bignum_free (kp_g key) in
  let* _ := crypto_bignum_free (kp_p key) in
  let* _ := crypto_bignum_free (kp_q key) in
  let* _ := crypto_bignum_free (kp_x key) in
  ret (TEE_ERROR_OUT_OF_MEMORY, key).

(** [do_allocate_keypair]; the structure the caller passes is cleared by
    the memset before anything is read from it. *)
Definition do_allocate_keypair (e : environment) (key : dsa_keypair_ptrs)
    (l_bits n_bits : Z) : M (TEE_Result * dsa_keypair_ptrs) :=
  let key := {| kp_g := None; kp_p := None; kp_q := None; kp_y := None;
                kp_x := None |} in
  let* g := crypto_bignum_allocate e l_bits in
  let key := {| kp_g := g; kp_p := kp_p key; kp_q := kp_q key;
                kp_y := kp_y key; kp_x := kp_x key |} in
  match g with None => err_alloc_keypair key | Some _ =>
  let* p := crypto_bignum_allocate e l_bits in
  let key := {| kp_g := kp_g key; kp_p := p; kp_q := kp_q key;
                kp_y := kp_y key; kp_x := kp_x key |} in
  match p with None => err_alloc_keypair key | Some _ =>
  let* q := crypto_bignum_allocate e n_bits in
  let key := {| kp_g := kp_g key; kp_p := kp_p key; kp_q := q;
                kp_y := kp_y key; kp_x := kp_x key |} in
  match q with None => err_alloc_keypair key | Some _ =>
  let* x := crypto_bignum_allocate e n_bits in
  let key := {| kp_g := kp_g key; kp_p := kp_p key; kp_q := kp_q key;
                kp_y := kp_y key; kp_x := x |} in
  match x with None => err_alloc_keypair key | Some _ =>
  let* y := crypto_bignum_allocate e l_bits in
  let key := {| kp_g := kp_g key; kp_p := kp_p key; kp_q := kp_q key;
                kp_y := y; kp_x := kp_x key |} in
  match y with None => err_alloc_keypair key | Some _ =>
  ret (TEE_SUCCESS, key)
  end end end end end.

(** The statements after the label [err_alloc_pubkey]. *)
Definition err_alloc_pubkey (key : dsa_public_key_ptrs)
  : M (TEE_Result * dsa_public_key_ptrs) :=
  let* _ := crypto_bignum_free (pp_g key) in
  let* _ := crypto_bignum_free (pp_p key) in
  let* _ := crypto_bignum_free (pp_q key) in
  ret (TEE_ERROR_OUT_OF_MEMORY, key).

Definition do_allocate_publickey (e : environment)
    (key : dsa_public_key_ptrs) (l_bits n_bits : Z)
  : M (TEE_Result * dsa_public_key_ptrs) :=
  let key := {| pp_g := None; pp_p := None; pp_q := None; pp_y := None |} in
  let* g := crypto_bignum_allocate e l_bits in
  let key := {| pp_g := g; pp_p := pp_p key; pp_q := pp_q key;
                pp_y := pp_y key |} in
  match g with None => err_alloc_pubkey key | Some _ =>
  let* p := crypto_bignum_allocate e l_bits in
  let key := {| pp_g := pp_g key; pp_p := p; pp_q := pp_q key;
                pp_y := pp_y key |} in
  match p with None => err_alloc_pubkey key | Some _ =>
  let* q := crypto_bignum_allocate e n_bits in
  let key := {| pp_g := pp_g key; pp_p := pp_p key; pp_q := q;
                pp_y := pp_y key |} in
  match q with None => err_alloc_pubkey key | Some _ =>
  let* y := crypto_bignum_allocate e l_bits in
  let key := {| pp_g := pp_g key; pp_p := pp_p key; pp_q := pp_q key;
                pp_y := y |} in
  match y with None => err_alloc_pubkey key | Some _ =>
  ret (TEE_SUCCESS, key)
  end end end end.

(** The pointers a key structure holds. *)
Definition keypair_fields (key : dsa_keypair_ptrs) : list (option bignum_ref) :=
  [kp_g key; kp_p key; kp_q key; kp_x key; kp_y key].

Definition public_key_fields (key : dsa_public_key_ptrs)
  : list (option bignum_ref) :=
  [pp_g key; pp_p key; pp_q key; pp_y key].

(** A pointer that is NULL or names a scalar the library has taken
    back. *)
Definition null_or_freed (s : state) (p : option bignum_ref) : Prop :=
  match p with
  | None => True
  | Some r => In (bn_area r) (freed s)
  end.

Definition scalar (area : nat) (bits : Z) : option bignum_ref :=
  Some {| bn_area := area; bn_bits := bits |}.

Definition keypair_null : dsa_keypair_ptrs :=
  {| kp_g := None; kp_p := None; kp_q := None; kp_y := None; kp_x := None |}.

Definition public_key_null : dsa_public_key_ptrs :=
  {| pp_g := None; pp_p := None; pp_q := None; pp_y := None |}.

(** Collaborators that serve the first two requests for memory and refuse
    the others. *)
Definition env_two : environment :=
  {| alloc_ok := fun k => Nat.ltb k 2;
     paddr_of := paddr_of CaamRef.env_ok;
     stale := stale CaamRef.env_ok;
     dmaobj_ret := dmaobj_ret CaamRef.env_ok;
     dmaobj_sgt := dmaobj_sgt CaamRef.env_ok;
     prime_gen_status := CAAM_NO_ERROR;
     prime_gen_g := prime_gen_g CaamRef.env_ok;
     prime_gen_p := prime_gen_p CaamRef.env_ok;
     prime_gen_q := prime_gen_q CaamRef.env_ok;
     jr_retstatus := CAAM_NO_ERROR;
     jr_jobstatus := 0;
     device_out := device_out CaamRef.env_ok;
     bin2bn_ret := bin2bn_ret CaamRef.env_ok;
     job_status_to_tee_result := job_status_to_tee_result CaamRef.env_ok |}.

End CaamKeyAlloc.

(** ** Reference descriptions of the runs of the three operations *)

Module CaamGenRef.

Import Bignum Caam.

(** The test of [get_keypair_domain_params] that sends it to the
    generator. *)
Definition params_missing (key : dsa_keypair) : bool :=
  (crypto_bignum_num_bytes (dk_q key) =? 0)
  || (crypto_bignum_num_bytes (dk_g key) =? 0)
  || (crypto_bignum_num_bytes (dk_p key) =? 0).

(** The number of conversions [get_keypair_domain_params] makes for a
    key: the three write-backs of generated parameters, or none. *)
Definition param_convs (key : dsa_keypair) : nat :=
  if params_missing key then 3%nat else 0%nat.

(** The scalar read from the [len] bytes the device left in area [h]. *)
Definition device_scalar (e : environment) (h : nat) (len : Z) : bignum :=
  bin2bn_value (resize (Z.to_nat len) 0 (device_out e h)) len.

(** As [env_ok], with a library that refuses the first conversion. *)
Definition env_no_q : environment :=
  {| alloc_ok := alloc_ok CaamRef.env_ok;
     paddr_of := paddr_of CaamRef.env_ok;
     stale := stale CaamRef.env_ok;
     dmaobj_ret := dmaobj_ret CaamRef.env_ok;
     dmaobj_sgt := dmaobj_sgt CaamRef.env_ok;
     prime_gen_status := CAAM_NO_ERROR;
     prime_gen_g := prime_gen_g CaamRef.env_ok;
     prime_gen_p := prime_gen_p CaamRef.env_ok;
     prime_gen_q := prime_gen_q CaamRef.env_ok;
     jr_retstatus := CAAM_NO_ERROR;
     jr_jobstatus := 0;
     device_out := device_out CaamRef.env_ok;
     bin2bn_ret := fun k => match k with
                            | O => TEE_ERROR_BAD_PARAMETERS
                            | _ => TEE_SUCCESS
                            end;
     job_status_to_tee_result := job_status_to_tee_result CaamRef.env_ok |}.

(** As [env_ok], with a library that refuses the second conversion. *)
Definition env_no_y : environment :=
  {| alloc_ok := alloc_ok CaamRef.env_ok;
     paddr_of := paddr_of CaamRef.env_ok;
     stale := stale CaamRef.env_ok;
     dmaobj_ret := dmaobj_ret CaamRef.env_ok;
     dmaobj_sgt := dmaobj_sgt CaamRef.env_ok;
     prime_gen_status := CAAM_NO_ERROR;
     prime_gen_g := prime_gen_g CaamRef.env_ok;
     prime_gen_p := prime_gen_p CaamRef.env_ok;
     prime_gen_q := prime_gen_q CaamRef.env_ok;
     jr_retstatus := CAAM_NO_ERROR;
     jr_jobstatus := 0;
     device_out := device_out CaamRef.env_ok;
     bin2bn_ret := fun k => match k with
                            | 1%nat => TEE_ERROR_BAD_PARAMETERS
                            | _ => TEE_SUCCESS
                            end;
     job_status_to_tee_result := job_status_to_tee_result CaamRef.env_ok |}.

End CaamGenRef.

Module CaamTraceRef.

Import Mach Bignum Caam.

(** The calls a run made before it handed a descriptor to the job ring,
    and the calls it made afterwards. *)
Fixpoint before_submit (evs : list event) : list event :=
  match evs with
  | [] => []
  | EvEnqueue _ :: _ => []
  | ev :: tl => ev :: before_submit tl
  end.

Fixpoint after_submit (evs : list event) : list event :=
  match evs with
  | [] => []
  | EvEnqueue _ :: tl => tl
  | _ :: tl => after_submit tl
  end.


End CaamTraceRef.

Module CaamResultRef.

Import Mach Bignum Caam CaamGenRef.

(** The answer of the DMA layer to the first of the requests [ks] that it
    refuses. *)
Definition first_dma_error (e : environment) (ks : list nat)
  : option TEE_Result :=
  dmaobj_ret e <$> List.find (fun k => negb (dmaobj_ret e k =? 0)) ks.

(** The result of a job that was handed to the job ring by do_gen_keypair
    or do_sign. *)
Definition job_result (e : environment) : TEE_Result :=
  if caam_status_eqb (jr_retstatus e) CAAM_NO_ERROR then TEE_SUCCESS
  else job_status_to_tee_result e (jr_jobstatus e).

(** The result of do_sign by the answers of the collaborators, in the
    order the function consults them: descriptor and key buffers
    (requests 0 to 4), DMA objects (requests 5 to 7), job ring. *)
Definition sign_result (e : environment) : TEE_Result :=
  if negb (forallb (alloc_ok e) [0; 1; 2; 3; 4]%nat)
  then TEE_ERROR_OUT_OF_MEMORY
  else match first_dma_error e [5; 6; 7]%nat with
       | Some r => r
       | None => job_result e
       end.

(** The result of do_verify: as for do_sign, then the scratch buffer
    (request 8) and the reading of the job ring's answer. *)
Definition verify_result (e : environment) : TEE_Result :=
  if negb (forallb (alloc_ok e) [0; 1; 2; 3; 4]%nat)
  then TEE_ERROR_OUT_OF_MEMORY
  else match first_dma_error e [5; 6; 7]%nat with
       | Some r => r
       | None =>
         if negb (alloc_ok e 8%nat) then TEE_ERROR_OUT_OF_MEMORY
         else if caam_status_eqb (jr_retstatus e) CAAM_JOB_STATUS
                 && (jr_jobstatus e =? 0)
         then TEE_ERROR_SIGNATURE_INVALID
         else job_result e
       end.

(** The result of do_gen_keypair: descriptor, x and y buffers and the
    three parameter buffers (requests 0 to 5), the generator when
    parameters are missing, the job ring, the two conversions of the
    generated key. *)
Definition gen_keypair_result (e : environment) (key : dsa_keypair)
  : TEE_Result :=
  if negb (forallb (alloc_ok e) [0; 1; 2; 3; 4; 5]%nat)
  then TEE_ERROR_OUT_OF_MEMORY
  else if params_missing key
          && negb (caam_status_eqb (prime_gen_status e) CAAM_NO_ERROR)
  then TEE_ERROR_GENERIC
  else if negb (caam_status_eqb (jr_retstatus e) CAAM_NO_ERROR)
  then job_status_to_tee_result e (jr_jobstatus e)
  else if negb (bin2bn_ret e (param_convs key) =? 0)
  then bin2bn_ret e (param_convs key)
  else if negb (bin2bn_ret e (S (param_convs key)) =? 0)
  then bin2bn_ret e (S (param_convs key))
  else TEE_SUCCESS.

End CaamResultRef.

Module CaamFieldRef.

Import Mach Bignum CaamDesc Caam CaamRef.

(** The field that holds the device address of the area a call obtained
    with its request number [k]. *)
Definition area (e : environment) (k : nat) : field := FPtr (paddr_of e k).

(** pdb_sgt_flags of a run of do_sign or do_verify from the initial
    ledger: the flag of each of the three DMA objects (message, request 5;
    signature, request 6; its second part, request 7) whose entry is a
    scatter/gather table. *)
Definition sgt_flags (e : environment) (f_msg f_sign_c f_sign_d : Z) : Z :=
  let flags := 0 in
  let flags := if dmaobj_sgt e 5 then Z.lor flags f_msg else flags in
  let flags := if dmaobj_sgt e 6 then Z.lor flags f_sign_c else flags in
  if dmaobj_sgt e 7 then Z.lor flags f_sign_d else flags.

(** The fields of the descriptor of do_gen_keypair in a run from the
    initial ledger.  The call requests the descriptor (0), the buffers of
    x (1) and y (2) and, in get_keypair_domain_params, those of q (3),
    g (4) and p (5). *)
Definition gen_run_fields (e : environment) (c : config)
    (l_bytes n_bytes : Z) : list field :=
  [FWord (Z.lor (PDB_DL_KEY_L_SIZE c l_bytes) (PDB_DL_KEY_N_SIZE c n_bytes));
   area e 5;
   area e 3;
   area e 4;
   area e 1;
   area e 2;
   FWord (PK_KEYPAIR_GEN_DL c)].

(** The fields of the descriptor of do_sign in a run from the initial
    ledger.  The call requests the descriptor (0), in do_keypriv_conv the
    buffers of g (1), p (2), q (3) and x (4), then the DMA objects of the
    message (5), of the signature (6) and of its second part (7). *)
Definition sign_run_fields (e : environment) (c : config)
    (l_bytes n_bytes message_length : Z) : list field :=
  [FWord (Z.lor (Z.lor (PDB_DSA_SIGN_N c n_bytes) (PDB_DSA_SIGN_L c l_bytes))
                (sgt_flags e (PDB_SGT_PKSIGN_MSG c) (PDB_SGT_PKSIGN_SIGN_C c)
                   (PDB_SGT_PKSIGN_SIGN_D c)));
   area e 2;
   area e 3;
   area e 1;
   area e 4;
   area e 5;
   area e 6;
   area e 7;
   FWord message_length;
   FWord (DSA_SIGN_DL c)].

(** The fields of the descriptor of do_verify in a run from the initial
    ledger.  The call requests the descriptor (0), in do_keypub_conv the
    buffers of g (1), p (2), q (3) and y (4), then the DMA objects of the
    message (5), of the signature (6) and of its second part (7), then the
    scratch buffer (8). *)
Definition verify_run_fields (e : environment) (c : config)
    (l_bytes n_bytes message_length : Z) : list field :=
  [FWord (Z.lor (Z.lor (PDB_DSA_VERIF_N c n_bytes) (PDB_DSA_VERIF_L c l_bytes))
                (sgt_flags e (PDB_SGT_PKVERIF_MSG c)
                   (PDB_SGT_PKVERIF_SIGN_C c) (PDB_SGT_PKVERIF_SIGN_D c)));
   area e 2;
   area e 3;
   area e 1;
   area e 4;
   area e 5;
   area e 6;
   area e 7;
   area e 8;
   FWord message_length;
   FWord (DSA_VERIFY_DL c)].

(** The buffer object [buf] stands for the area of request [k]. *)
Definition in_area (e : environment) (k : nat) (buf : caambuf) : Prop :=
  cb_data buf = Some k /\ cb_paddr buf = paddr_of e k.

End CaamFieldRef.

(** * Properties *)

(** ** Machine arithmetic *)

Module MachFacts.

Import Mach.

Lemma wrap_small (w v : Z) : 0 <= v < 2 ^ w -> wrap w v = v.
Proof. intros H. unfold wrap. apply Z.mod_small, H. Qed.

Lemma testbit_above (a w i : Z) :
  0 <= a < 2 ^ w -> w <= i -> Z.testbit a i = false.
Proof.
  intros [Ha Hlt] Hi.
  destruct (Z.eq_dec a 0) as [-> | Hne]; [apply Z.bits_0|].
  apply Z.bits_above_log2; [exact Ha|].
  assert (Hw : 0 <= w).
  { destruct (Z_lt_le_dec w 0) as [Hneg|]; [|assumption].
    rewrite Z.pow_neg_r in Hlt by exact Hneg. lia. }
  assert (Z.log2 a < w) by (apply Z.log2_lt_pow2; lia). lia.
Qed.

(** Where the sum does not wrap, ROUNDUP to a power of two is the least
    multiple of it that is not below the value. *)
Lemma ROUNDUP_pow2 (w k v : Z) :
  0 <= k <= w -> 0 <= v -> v + (2 ^ k - 1) < 2 ^ w ->
  ROUNDUP w v (2 ^ k) = 2 ^ k * ((v + (2 ^ k - 1)) / 2 ^ k).
Proof.
  intros Hk Hv Hb. unfold ROUNDUP.
  assert (Hpk : 0 < 2 ^ k) by (apply Z.pow_pos_nonneg; lia).
  rewrite wrap_small by lia.
  set (a := v + (2 ^ k - 1)) in *.
  rewrite <- Z.shiftr_div_pow2, Z.mul_comm, <- Z.shiftl_mul_pow2 by lia.
  replace (2 ^ k - 1) with (Z.ones k) by (rewrite Z.ones_equiv; lia).
  apply Z.bits_inj'. intros i Hi.
  rewrite Z.land_spec, Z.shiftl_spec by exact Hi. unfold wrap.
  destruct (Z_lt_le_dec i k) as [Hik | Hik].
  - rewrite Z.mod_pow2_bits_low by lia.
    rewrite Z.lnot_spec, Z.ones_spec_low by lia.
    rewrite (Z.testbit_neg_r _ (i - k)) by lia.
    apply andb_false_r.
  - rewrite Z.shiftr_spec by lia.
    replace (i - k + k) with i by lia.
    destruct (Z_lt_le_dec i w) as [Hiw | Hiw].
    + rewrite Z.mod_pow2_bits_low by lia.
      rewrite Z.lnot_spec, Z.ones_spec_high by lia.
      apply andb_true_r.
    + rewrite Z.mod_pow2_bits_high by lia.
      rewrite (testbit_above a w i) by lia. reflexivity.
Qed.

Lemma ROUNDUP_bounds (w k v : Z) :
  0 <= k <= w -> 0 <= v -> v + (2 ^ k - 1) < 2 ^ w ->
  v <= ROUNDUP w v (2 ^ k) <= v + (2 ^ k - 1)
  /\ ROUNDUP w v (2 ^ k) mod 2 ^ k = 0.
Proof.
  intros Hk Hv Hb. rewrite ROUNDUP_pow2 by assumption.
  assert (Hpk : 0 < 2 ^ k) by (apply Z.pow_pos_nonneg; lia).
  pose proof (Z.div_mod (v + (2 ^ k - 1)) (2 ^ k) ltac:(lia)) as Hd.
  pose proof (Z.mod_pos_bound (v + (2 ^ k - 1)) (2 ^ k) Hpk) as Hm.
  split; [lia|].
  rewrite Z.mul_comm. apply Z.mod_mul. lia.
Qed.

End MachFacts.

(** ** Byte strings *)

Module BytesFacts.

Import Mach Bytes.

Lemma be_value_acc (l : list Z) (a : Z) :
  fold_left (fun acc b => acc * 256 + b) l a
  = a * 256 ^ Z.of_nat (length l) + be_value l.
Proof.
  unfold be_value. revert a.
  induction l as [|b tl IH]; intros a.
  - simpl. lia.
  - cbn [fold_left length]. rewrite IH, (IH (0 * 256 + b)).
    rewrite Nat2Z.inj_succ, Z.pow_succ_r by lia. ring.
Qed.

Lemma be_value_cons (b : Z) (tl : list Z) :
  be_value (b :: tl) = b * 256 ^ Z.of_nat (length tl) + be_value tl.
Proof.
  unfold be_value at 1. cbn [fold_left]. rewrite be_value_acc. ring.
Qed.

Lemma be_value_app (l1 l2 : list Z) :
  be_value (l1 ++ l2)
  = be_value l1 * 256 ^ Z.of_nat (length l2) + be_value l2.
Proof.
  unfold be_value at 1. rewrite fold_left_app.
  fold (be_value l1). apply be_value_acc.
Qed.

Lemma be_value_bound (l : list Z) :
  bytes_ok l -> 0 <= be_value l < 256 ^ Z.of_nat (length l).
Proof.
  induction 1 as [|b tl Hb _ IH].
  - cbn. lia.
  - rewrite be_value_cons. cbn [length].
    rewrite Nat2Z.inj_succ, Z.pow_succ_r by lia.
    unfold byte_ok in Hb. nia.
Qed.

Lemma be_value_zeros (n : nat) : be_value (zeros n) = 0.
Proof.
  induction n as [|n IH]; [reflexivity|].
  unfold zeros in *. cbn [replicate]. rewrite be_value_cons, IH. lia.
Qed.

Lemma bytes_ok_zeros (n : nat) : bytes_ok (zeros n).
Proof.
  unfold bytes_ok, zeros. apply Forall_replicate. unfold byte_ok. lia.
Qed.

End BytesFacts.

(** ** left_shift_buffer *)

Module ShiftFacts.

Import Mach Bytes BytesFacts DcpRef.

Lemma byte_cases (P : Z -> bool) :
  forallb P (map Z.of_nat (seq 0 256)) = true ->
  forall b, 0 <= b < 256 -> P b = true.
Proof.
  intros H b Hb. rewrite forallb_forall in H. apply H.
  rewrite <- (Z2Nat.id b) by lia.
  apply in_map, in_seq. lia.
Qed.

Lemma shifted_byte (b : Z) :
  byte_ok b -> Z.land (Z.shiftl b 1) 0xFF = (2 * b) mod 256.
Proof.
  intros Hb.
  apply Z.eqb_eq.
  apply (byte_cases (fun b => Z.land (Z.shiftl b 1) 0xFF =? (2 * b) mod 256));
    [vm_compute; reflexivity | exact Hb].
Qed.

Lemma top_bit_byte (b : Z) :
  byte_ok b -> Z.shiftr (Z.land b (BIT 7)) 7 = b / 128.
Proof.
  intros Hb.
  apply Z.eqb_eq.
  apply (byte_cases (fun b => Z.shiftr (Z.land b (BIT 7)) 7 =? b / 128));
    [vm_compute; reflexivity | exact Hb].
Qed.

Lemma carry_or (b c : Z) :
  byte_ok b -> 0 <= c <= 1 ->
  (if c =? 0 then (2 * b) mod 256 else Z.lor ((2 * b) mod 256) c)
  = (2 * b) mod 256 + c.
Proof.
  intros Hb Hc.
  assert (Hc' : c = 0 \/ c = 1) by lia.
  destruct Hc' as [-> | ->]; cbn [Z.eqb].
  - lia.
  - apply Z.eqb_eq.
    apply (byte_cases
             (fun b => Z.lor ((2 * b) mod 256) 1 =? (2 * b) mod 256 + 1));
      [vm_compute; reflexivity | exact Hb].
Qed.

Lemma top_bit_range (l : list Z) : bytes_ok l -> 0 <= top_bit l <= 1.
Proof.
  destruct 1 as [|b tl Hb _]; cbn [top_bit]; [lia|].
  rewrite top_bit_byte by exact Hb. unfold byte_ok in Hb.
  split; [apply Z.div_pos; lia | ].
  apply Z.lt_succ_r, Z.div_lt_upper_bound; lia.
Qed.

(** The top bit of a byte string is the bit its doubled value carries out
    of its width. *)
Lemma top_bit_carry (l : list Z) :
  bytes_ok l ->
  top_bit l = (2 * be_value l) / 256 ^ Z.of_nat (length l).
Proof.
  destruct 1 as [|b tl Hb Htl]; [reflexivity|].
  cbn [top_bit length]. rewrite top_bit_byte by exact Hb.
  rewrite be_value_cons, Nat2Z.inj_succ, Z.pow_succ_r by lia.
  pose proof (be_value_bound tl Htl) as Hv.
  set (X := 256 ^ Z.of_nat (length tl)) in *.
  unfold byte_ok in Hb.
  assert (HX : 0 < X) by (subst X; apply Z.pow_pos_nonneg; lia).
  apply Z.div_unique with (r := 2 * ((b mod 128) * X + be_value tl)).
  - left. pose proof (Z.mod_pos_bound b 128 ltac:(lia)) as Hm.
    assert (0 <= (b mod 128) * X <= 127 * X) by nia. lia.
  - pose proof (Z.div_mod b 128 ltac:(lia)) as Hd.
    rewrite Hd at 1. ring.
Qed.

Lemma shift_bytes_length (l : list Z) : length (shift_bytes l) = length l.
Proof. induction l; cbn [shift_bytes length]; congruence. Qed.

Lemma shift_bytes_ok (l : list Z) : bytes_ok l -> bytes_ok (shift_bytes l).
Proof.
  induction 1 as [|b tl Hb Htl IH]; cbn [shift_bytes]; constructor; try exact IH.
  rewrite shifted_byte by exact Hb.
  rewrite carry_or by (auto using top_bit_range).
  pose proof (top_bit_range tl Htl).
  unfold byte_ok in *.
  assert (Hev : (2 * b) mod 256 = 2 * (b mod 128)).
  { rewrite (Z.mul_comm 2 b). change 256 with (128 * 2).
    rewrite Zmult_mod_distr_r. ring. }
  pose proof (Z.mod_pos_bound b 128 ltac:(lia)). lia.
Qed.

Lemma shift_bytes_value (l : list Z) :
  bytes_ok l ->
  be_value (shift_bytes l) = (2 * be_value l) mod 256 ^ Z.of_nat (length l).
Proof.
  induction 1 as [|b tl Hb Htl IH]; [reflexivity|].
  cbn [shift_bytes length].
  rewrite !be_value_cons, shift_bytes_length, IH.
  rewrite shifted_byte by exact Hb.
  rewrite carry_or by (auto using top_bit_range).
  pose proof (top_bit_range tl Htl) as Hc.
  rewrite (top_bit_carry tl Htl) in Hc |- *.
  rewrite Nat2Z.inj_succ, Z.pow_succ_r by lia.
  pose proof (be_value_bound tl Htl) as Hv.
  set (X := 256 ^ Z.of_nat (length tl)) in *.
  set (V := be_value tl) in *.
  assert (HX : 0 < X) by (subst X; apply Z.pow_pos_nonneg; lia).
  pose proof (Z.div_mod (2 * V) X ltac:(lia)) as HV.
  pose proof (Z.mod_pos_bound (2 * V) X HX) as HR.
  pose proof (Z.div_mod (2 * b) 256 ltac:(lia)) as HB.
  pose proof (Z.mod_pos_bound (2 * b) 256 ltac:(lia)) as HBr.
  assert (Hev : (2 * b) mod 256 = 2 * (b mod 128)).
  { rewrite (Z.mul_comm 2 b). change 256 with (128 * 2).
    rewrite Zmult_mod_distr_r. ring. }
  pose proof (Z.mod_pos_bound b 128 ltac:(lia)) as Hb128.
  apply Z.mod_unique with (q := (2 * b) / 256).
  - left. nia.
  - nia.
Qed.

End ShiftFacts.

Module ShiftLoop.

Import Mach MachFacts Bytes BytesFacts DcpRef ShiftFacts Dcp.

Lemma shift_bytes_drop (m : nat) (l : list Z) :
  shift_bytes (drop m l) = drop m (shift_bytes l).
Proof.
  revert l. induction m as [|m IH]; intros [|b tl]; cbn; auto.
Qed.

Section Loop.

Variables (w : Z) (input result0 : list Z) (n : nat).
Hypothesis Hin : length input = n.
Hypothesis Hres : length result0 = n.
Hypothesis Hcnt : Z.of_nat n < 2 ^ 32.
Hypothesis Hsz : Z.of_nat n <= 2 ^ w.

(** With [m] bytes still to be handled the loop holds the untouched front
    of [result], the shifted tail of [input] and the top bit of that
    tail. *)
Lemma left_shift_loop_inv (m fuel : nat) :
  (m <= n)%nat -> (m <= fuel)%nat ->
  left_shift_loop fuel w input
    (take m result0 ++ drop m (shift_bytes input))
    (Z.of_nat n) (Z.of_nat (n - m)) (top_bit (drop m input))
  = Some (shift_bytes input).
Proof.
  revert fuel. induction m as [|m IH]; intros fuel Hm Hf.
  - rewrite Nat.sub_0_r. destruct fuel; cbn [left_shift_loop];
      rewrite Z.ltb_irrefl; reflexivity.
  - destruct fuel as [|fuel]; [lia|]. cbn [left_shift_loop].
    assert (Hlt : (Z.of_nat (n - S m) <? Z.of_nat n) = true)
      by (apply Z.ltb_lt; lia).
    rewrite Hlt.
    assert (Hidx : Z.to_nat (wrap w (Z.of_nat n - 1 - Z.of_nat (n - S m))) = m).
    { rewrite wrap_small by lia. lia. }
    rewrite Hidx.
    destruct (lookup_lt_is_Some_2 input m ltac:(lia)) as [b Hb].
    destruct (lookup_lt_is_Some_2 result0 m ltac:(lia)) as [x Hx].
    rewrite Hb. cbn [mbind option_bind].
    rewrite (take_S_r _ _ _ Hx), <- app_assoc.
    assert (Hlen : length (take m result0) = m)
      by (rewrite length_take; lia).
    rewrite lookup_app_r by lia. rewrite Hlen, Nat.sub_diag.
    cbn [app lookup list_lookup mbind option_bind].
    replace (<[m:=_]> (take m result0 ++ x :: drop (S m) (shift_bytes input)))
      with (take m result0 ++ drop m (shift_bytes input)).
    + replace (wrap 32 (Z.of_nat (n - S m) + 1)) with (Z.of_nat (n - m))
        by (rewrite wrap_small by lia; lia).
      replace (Z.shiftr (Z.land b (BIT 7)) 7) with (top_bit (drop m input))
        by (rewrite (drop_S _ _ _ Hb); reflexivity).
      apply IH; lia.
    + rewrite insert_app_r_alt by lia. rewrite Hlen, Nat.sub_diag.
      cbn [insert list_insert]. f_equal.
      rewrite <- !shift_bytes_drop, (drop_S _ _ _ Hb). reflexivity.
Qed.

Lemma left_shift_buffer_shift_bytes (fuel : nat) :
  (n <= fuel)%nat ->
  left_shift_buffer fuel w input result0 (Z.of_nat n)
  = Some (shift_bytes input).
Proof.
  intros Hf. unfold left_shift_buffer.
  pose proof (left_shift_loop_inv n fuel (Nat.le_refl n) Hf) as H.
  rewrite Nat.sub_diag in H.
  rewrite take_ge, drop_ge, app_nil_r in H
    by (rewrite ?shift_bytes_length; lia).
  rewrite drop_ge in H by lia. exact H.
Qed.

End Loop.

End ShiftLoop.

Module ShiftBuffer.

Import Mach Bytes BytesFacts DcpRef ShiftFacts ShiftLoop Dcp.

(** C9. For input and result buffers of the same size n that do not share
    storage, left_shift_buffer returns with result holding the big-endian
    value (2 * value(input)) mod 2^(8n): bit 0 of the result is clear and
    bit j+1 of the result is bit j of the input, the top bit of the input
    being dropped.  The loop counter is an unsigned int, so the run is
    followed for n below 2^32. *)
Theorem left_shift_buffer_doubles (size_bits : Z) (input result : list Z)
    (buffer_size : Z) (fuel : nat) :
  size_bits = 32 \/ size_bits = 64 ->
  bytes_ok input ->
  Z.of_nat (length input) = buffer_size ->
  Z.of_nat (length result) = buffer_size ->
  buffer_size < 2 ^ 32 ->
  (length input <= fuel)%nat ->
  exists out,
    left_shift_buffer fuel size_bits input result buffer_size = Some out
    /\ length out = length input
    /\ bytes_ok out
    /\ be_value out = (2 * be_value input) mod 2 ^ (8 * buffer_size)
    /\ Z.testbit (be_value out) 0 = false
    /\ (forall j, 0 <= j -> j + 1 < 8 * buffer_size ->
          Z.testbit (be_value out) (j + 1) = Z.testbit (be_value input) j).
Proof.
  intros Hw Hok Hin Hres Hcnt Hfuel.
  exists (shift_bytes input).
  assert (Hsz : Z.of_nat (length input) <= 2 ^ size_bits).
  { destruct Hw as [-> | ->]; lia. }
  assert (Hval : be_value (shift_bytes input)
                 = (2 * be_value input) mod 2 ^ (8 * buffer_size)).
  { rewrite shift_bytes_value by exact Hok.
    rewrite Hin, Z.pow_mul_r by lia. reflexivity. }
  split; [|split; [|split; [|split; [|split]]]].
  - rewrite <- Hin.
    apply (left_shift_buffer_shift_bytes size_bits input result (length input));
      auto; lia.
  - apply shift_bytes_length.
  - apply shift_bytes_ok, Hok.
  - exact Hval.
  - rewrite Hval.
    destruct (Z.eq_dec buffer_size 0) as [-> | Hn].
    + cbn. rewrite Z.mod_1_r. reflexivity.
    + rewrite Z.mod_pow2_bits_low by lia. apply Z.testbit_even_0.
  - intros j Hj Hj'. rewrite Hval.
    rewrite Z.mod_pow2_bits_low by lia.
    replace (j + 1) with (Z.succ j) by lia.
    apply Z.testbit_even_succ, Hj.
Qed.

(** The three-byte buffer 81 80 01. *)
Lemma left_shift_buffer_doubles_witness :
  exists out,
    left_shift_buffer 3 32 [0x81; 0x80; 0x01] [0; 0; 0] 3 = Some out
    /\ length out = 3%nat
    /\ bytes_ok out
    /\ be_value out = (2 * be_value [0x81; 0x80; 0x01]) mod 2 ^ (8 * 3)
    /\ Z.testbit (be_value out) 0 = false
    /\ (forall j, 0 <= j -> j + 1 < 8 * 3 ->
          Z.testbit (be_value out) (j + 1)
          = Z.testbit (be_value [0x81; 0x80; 0x01]) j).
Proof.
  apply (left_shift_buffer_doubles 32 [0x81; 0x80; 0x01] [0; 0; 0] 3 3).
  - left; reflexivity.
  - repeat constructor; unfold byte_ok; lia.
  - reflexivity.
  - reflexivity.
  - reflexivity.
  - simpl; lia.
Defined.

End ShiftBuffer.

(** ** dcp_calloc_align_buf *)

Module DcpAlloc.

Import Mach MachFacts DcpRef Dcp.

(** A null [struct align_buf *] is the only source of
    TEE_ERROR_BAD_PARAMETERS; every other call ends in TEE_SUCCESS or
    TEE_ERROR_OUT_OF_MEMORY, and a successful one records the requested
    size. *)
Lemma dcp_calloc_align_buf_results (e : environment) (h : heap)
    (buf : option align_buf) (size : Z) :
  match dcp_calloc_align_buf e h buf size with
  | (r, b, _) =>
    (buf = None /\ r = TEE_ERROR_BAD_PARAMETERS /\ b = None)
    \/ (buf <> None /\ r = TEE_ERROR_OUT_OF_MEMORY)
    \/ (buf <> None /\ r = TEE_SUCCESS
        /\ exists b', b = Some b' /\ buf_size b' = size /\ data b' <> 0
                      /\ paddr b' <> 0)
  end.
Proof.
  unfold dcp_calloc_align_buf.
  destruct buf as [b0|]; [|left; auto].
  destruct (dcp_alloc_memalign e h size) as [d h'].
  destruct (d =? 0) eqn:Hd; [right; left; split; [discriminate|reflexivity]|].
  destruct (virt_to_phys e d =? 0) eqn:Hp;
    [right; left; split; [discriminate|reflexivity]|].
  right; right. split; [discriminate|]. split; [reflexivity|].
  eexists; split; [reflexivity|]. cbn.
  apply Z.eqb_neq in Hd, Hp. auto.
Qed.

Lemma size_bits_cases (e : environment) :
  (size_bits e = 32 /\ MEM_HDR_SIZE e = 8)
  \/ (size_bits e = 64 /\ MEM_HDR_SIZE e = 16).
Proof.
  unfold MEM_HDR_SIZE, sizeof_mem_hdr, sizeof_ptr, size_bits.
  destruct (arm64 e); [right | left]; split; reflexivity.
Qed.

Lemma cacheline_pow2 (e : environment) :
  exists k, 2 <= k <= 17 /\ read_cacheline_size e = 2 ^ k.
Proof.
  unfold read_cacheline_size, CTR_WORD_SIZE, CTR_DMINLINE_SHIFT,
    CTR_DMINLINE_MASK.
  set (d := Z.land (Z.shiftr (wrap 32 (ctr_reg e)) 16) 15).
  assert (Hd : 0 <= d < 16).
  { subst d. change 15 with (Z.ones 4). rewrite Z.land_ones by lia.
    apply Z.mod_pos_bound. lia. }
  exists (d + 2). split; [lia|].
  rewrite Z.shiftl_mul_pow2 by lia.
  assert (H17 : 2 ^ (d + 2) <= 2 ^ 17) by (apply Z.pow_le_mono_r; lia).
  assert (Hpos : 0 < 2 ^ (d + 2)) by (apply Z.pow_pos_nonneg; lia).
  replace (4 * 2 ^ d) with (2 ^ (d + 2))
    by (rewrite Z.pow_add_r by lia; lia).
  apply wrap_small. change (2 ^ 17) with 131072 in H17. 
  change (2 ^ 32) with 4294967296. lia.
Qed.

(** Where the size computation stays below the width of [size_t] (request,
    header and two cache lines fit) and the allocator answers with NULL or
    with an area inside the address space, the call ends in
    TEE_ERROR_OUT_OF_MEMORY or in TEE_SUCCESS with a cache-line aligned
    buffer of the recorded size inside the zero-filled area. *)
Lemma dcp_calloc_align_buf_sound (e : environment) (h : heap) (b0 : align_buf)
    (size : Z) :
  0 <= size ->
  size + MEM_HDR_SIZE e + 2 * read_cacheline_size e <= 2 ^ size_bits e ->
  (forall n, calloc e n = 0
             \/ (0 < calloc e n /\ calloc e n + n <= 2 ^ size_bits e)) ->
  exists r b h',
    dcp_calloc_align_buf e h (Some b0) size = (r, Some b, h')
    /\ (r = TEE_ERROR_OUT_OF_MEMORY
        \/ (r = TEE_SUCCESS
            /\ buf_size b = size
            /\ data b mod read_cacheline_size e = 0
            /\ buf_within_area b h')).
Proof.
  intros Hsize Hfit Hcalloc.
  destruct (cacheline_pow2 e) as (k & Hk & Hcl).
  rewrite Hcl in *.
  assert (Hpk : 4 <= 2 ^ k).
  { change 4 with (2 ^ 2). apply Z.pow_le_mono_r; lia. }
  assert (Hw : 32 <= size_bits e /\ 8 <= MEM_HDR_SIZE e <= 16)
    by (destruct (size_bits_cases e) as [[-> ->] | [-> ->]]; lia).
  destruct Hw as [Hw Hhdr].
  unfold dcp_calloc_align_buf, dcp_alloc_memalign, ADD_OVERFLOW, max_of.
  rewrite Hcl.
  set (w := size_bits e) in *. set (H := MEM_HDR_SIZE e) in *.
  set (cl := 2 ^ k) in *.
  assert (H1 : (size + H <=? 2 ^ w - 1) = true) by (apply Z.leb_le; lia).
  rewrite H1. cbn [negb]. rewrite (wrap_small w (size + H)) by lia.
  set (a1 := if size =? cl then (negb (size + H + cl <=? 2 ^ w - 1), wrap w (size + H + cl))
             else (false, size + H)).
  assert (Ha1 : exists a, a1 = (false, a) /\ size + H <= a <= size + H + cl).
  { subst a1. destruct (size =? cl).
    - exists (size + H + cl).
      assert (Hle : (size + H + cl <=? 2 ^ w - 1) = true) by (apply Z.leb_le; lia).
      rewrite Hle, wrap_small by lia. split; [reflexivity | lia].
    - exists (size + H). split; [reflexivity | lia]. }
  destruct Ha1 as (a & -> & Ha).
  destruct (ROUNDUP_bounds w k a ltac:(lia) ltac:(lia) ltac:(fold cl; lia))
    as [HR _]. fold cl in HR.
  set (R := ROUNDUP w a cl) in *.
  destruct (cl + R <=? 2 ^ w - 1) eqn:Hov; cbn [negb].
  2: { do 3 eexists. split; [reflexivity|]. left. reflexivity. }
  apply Z.leb_le in Hov. rewrite (wrap_small w (cl + R)) by lia.
  destruct (Hcalloc (cl + R)) as [Hnull | [Hptr Hend]].
  { rewrite Hnull. cbn [Z.eqb].
    do 3 eexists. split; [reflexivity|]. left. reflexivity. }
  set (ptr := calloc e (cl + R)) in *.
  assert (Hne : (ptr =? 0) = false) by (apply Z.eqb_neq; lia).
  rewrite Hne. rewrite (wrap_small w (ptr + H)) by lia.
  destruct (ROUNDUP_bounds w k (ptr + H) ltac:(lia) ltac:(lia)
              ltac:(fold cl; lia)) as [HD HDm]. fold cl in HD, HDm.
  set (d := ROUNDUP w (ptr + H) cl) in *.
  assert (Hd0 : (d =? 0) = false) by (apply Z.eqb_neq; lia).
  rewrite Hd0.
  destruct (virt_to_phys e d =? 0) eqn:Hpa.
  { do 3 eexists. split; [reflexivity|]. left. reflexivity. }
  do 3 eexists. split; [reflexivity|]. right.
  split; [reflexivity|]. split; [reflexivity|]. split; [exact HDm|].
  exists ptr, (cl + R). cbn [areas data buf_size].
  split; [left; reflexivity | lia].
Qed.

(** C10. On a 32-bit target with 64-byte cache lines a request of
    0xFFFFFFF7 bytes passes every overflow check, because the rounding of
    the allocation size wraps to zero: the call returns TEE_SUCCESS with
    the recorded size 0xFFFFFFF7 although the area obtained from the
    allocator is 64 bytes long. *)
Theorem dcp_calloc_align_buf_wrapped_roundup :
  exists b h,
    dcp_calloc_align_buf env32 empty_heap (Some buf0) 0xFFFFFFF7
    = (TEE_SUCCESS, Some b, h)
    /\ buf_size b = 0xFFFFFFF7
    /\ areas h = [(0x20000008, 64)]
    /\ ~ buf_within_area b h.
Proof.
  eexists; eexists.
  split; [vm_compute; reflexivity|].
  split; [reflexivity|]. split; [reflexivity|].
  intros (base & len & Hin & Hlo & Hhi).
  cbn in Hin. destruct Hin as [Heq | []].
  inversion Heq; subst. cbn in Hhi. lia.
Qed.

End DcpAlloc.

(** ** The big-integer library *)

Module BignumFacts.

Import Mach Bytes BytesFacts Bignum.

Lemma be_bytes_length (len : nat) (v : Z) : length (be_bytes len v) = len.
Proof.
  revert v. induction len as [|k IH]; intros v; cbn [be_bytes]; [reflexivity|].
  rewrite length_app, IH. cbn. lia.
Qed.

Lemma be_bytes_ok (len : nat) (v : Z) : bytes_ok (be_bytes len v).
Proof.
  revert v. induction len as [|k IH]; intros v; cbn [be_bytes].
  - constructor.
  - apply Forall_app. split; [apply IH|].
    repeat constructor; apply Z.mod_pos_bound; lia.
Qed.

Lemma be_bytes_value (len : nat) (v : Z) :
  be_value (be_bytes len v) = v mod 256 ^ Z.of_nat len.
Proof.
  revert v. induction len as [|k IH]; intros v; cbn [be_bytes].
  - cbn. rewrite Z.mod_1_r. reflexivity.
  - rewrite be_value_app, IH. cbn [length].
    change (256 ^ Z.of_nat 1) with 256.
    rewrite Nat2Z.inj_succ, Z.pow_succ_r by lia.
    rewrite Z.rem_mul_r by (try apply Z.pow_nonzero; lia).
    unfold be_value. cbn [fold_left]. lia.
Qed.

Lemma num_bytes_nonneg (bn : bignum) : 0 <= crypto_bignum_num_bytes bn.
Proof.
  destruct bn as [|p]; cbn [crypto_bignum_num_bytes]; [lia|].
  pose proof (Z.log2_nonneg (Z.of_N (N.pos p))).
  pose proof (Z.div_pos (Z.log2 (Z.of_N (N.pos p))) 8 ltac:(lia) ltac:(lia)).
  lia.
Qed.

(** The scalar fits the number of bytes the library reports for it. *)
Lemma num_bytes_fits (bn : bignum) :
  Z.of_N bn < 256 ^ crypto_bignum_num_bytes bn.
Proof.
  destruct bn as [|p]; [reflexivity|].
  cbn [crypto_bignum_num_bytes].
  set (v := Z.of_N (N.pos p)).
  assert (Hv : 0 < v) by (subst v; lia).
  destruct (Z.log2_spec v Hv) as [_ Hhi].
  pose proof (Z.log2_nonneg v) as Hl.
  pose proof (Z.div_mod (Z.log2 v) 8 ltac:(lia)) as Hd.
  pose proof (Z.mod_pos_bound (Z.log2 v) 8 ltac:(lia)) as Hm.
  change 256 with (2 ^ 8). rewrite <- Z.pow_mul_r by lia.
  eapply Z.lt_le_trans; [exact Hhi|].
  apply Z.pow_le_mono_r; lia.
Qed.

(** ... and no smaller number of bytes would do. *)
Lemma num_bytes_minimal (bn : bignum) :
  bn <> 0%N -> 256 ^ (crypto_bignum_num_bytes bn - 1) <= Z.of_N bn.
Proof.
  destruct bn as [|p]; [congruence|]. intros _.
  cbn [crypto_bignum_num_bytes].
  set (v := Z.of_N (N.pos p)).
  assert (Hv : 0 < v) by (subst v; lia).
  destruct (Z.log2_spec v Hv) as [Hlo _].
  pose proof (Z.log2_nonneg v) as Hl.
  pose proof (Z.div_mod (Z.log2 v) 8 ltac:(lia)) as Hd.
  pose proof (Z.mod_pos_bound (Z.log2 v) 8 ltac:(lia)) as Hm.
  change 256 with (2 ^ 8). rewrite <- Z.pow_mul_r by lia.
  eapply Z.le_trans; [|exact Hlo].
  apply Z.pow_le_mono_r; lia.
Qed.

Lemma bn2bin_length (bn : bignum) :
  Z.of_nat (length (crypto_bignum_bn2bin bn)) = crypto_bignum_num_bytes bn.
Proof.
  unfold crypto_bignum_bn2bin. rewrite be_bytes_length.
  pose proof (num_bytes_nonneg bn). lia.
Qed.

Lemma bn2bin_ok (bn : bignum) : bytes_ok (crypto_bignum_bn2bin bn).
Proof. apply be_bytes_ok. Qed.

Lemma bn2bin_value (bn : bignum) :
  be_value (crypto_bignum_bn2bin bn) = Z.of_N bn.
Proof.
  unfold crypto_bignum_bn2bin. rewrite be_bytes_value.
  pose proof (num_bytes_nonneg bn). rewrite Z2Nat.id by lia.
  apply Z.mod_small. split; [lia | apply num_bytes_fits].
Qed.

Lemma be_value_pad (k : nat) (l : list Z) : be_value (zeros k ++ l) = be_value l.
Proof. rewrite be_value_app, be_value_zeros. lia. Qed.

(** Writing a string at the end of a zero-filled buffer that is long enough
    leaves the string right-justified after a run of zero bytes. *)
Lemma store_bytes_tail (W : Z) (src : list Z) :
  Z.of_nat (length src) <= W ->
  store_bytes (zeros (Z.to_nat W)) (W - Z.of_nat (length src)) src
  = Some (zeros (Z.to_nat (W - Z.of_nat (length src))) ++ src).
Proof.
  intros Hle. unfold store_bytes, zeros.
  rewrite length_replicate.
  assert (H1 : (0 <=? W - Z.of_nat (length src)) = true) by (apply Z.leb_le; lia).
  assert (H2 : (W - Z.of_nat (length src) + Z.of_nat (length src)
                <=? Z.of_nat (Z.to_nat W)) = true) by (apply Z.leb_le; lia).
  rewrite H1, H2. cbn [andb]. f_equal.
  rewrite take_replicate, drop_replicate.
  replace (Z.to_nat W - (Z.to_nat (W - Z.of_nat (length src)) + length src))%nat
    with 0%nat by lia.
  cbn [replicate]. rewrite app_nil_r.
  f_equal. f_equal. lia.
Qed.

End BignumFacts.

(** ** Key material *)

Module KeyCodec.

Import Mach Bytes BytesFacts Bignum BignumFacts CaamDesc Caam CaamRef.

Lemma store_bn2bin (W : Z) (bn : bignum) :
  crypto_bignum_num_bytes bn <= W ->
  store_bytes (zeros (Z.to_nat W)) (W - crypto_bignum_num_bytes bn)
    (crypto_bignum_bn2bin bn)
  = Some (zeros (Z.to_nat (W - crypto_bignum_num_bytes bn))
            ++ crypto_bignum_bn2bin bn).
Proof.
  intros H. rewrite <- bn2bin_length in *. apply store_bytes_tail, H.
Qed.

Lemma right_justified_intro (bn : bignum) (W : Z) (h : option nat) (pa : Z) :
  crypto_bignum_num_bytes bn <= W ->
  right_justified bn W
    {| cb_data := h;
       cb_bytes := zeros (Z.to_nat (W - crypto_bignum_num_bytes bn))
                     ++ crypto_bignum_bn2bin bn;
       cb_length := W; cb_paddr := pa |}.
Proof.
  intros Hfit. pose proof (num_bytes_nonneg bn) as Hnn.
  pose proof (bn2bin_length bn) as Hlen.
  assert (Hl : Z.of_nat
                 (length (zeros (Z.to_nat (W - crypto_bignum_num_bytes bn))
                            ++ crypto_bignum_bn2bin bn)) = W).
  { rewrite length_app. unfold zeros at 1. rewrite length_replicate. lia. }
  unfold right_justified. cbn [cb_length cb_bytes].
  split; [reflexivity|]. split; [exact Hl|]. split; [reflexivity|].
  unfold bin2bn_value. rewrite take_ge by lia.
  rewrite be_value_pad, bn2bin_value. apply N2Z.id.
Qed.

(** Evaluation of a driver function on a symbolic ledger. *)
Ltac mcbn :=
  cbn -[store_bytes zeros crypto_bignum_num_bytes crypto_bignum_bn2bin
        bin2bn_value Z.to_nat Z.sub Z.add Z.mul Z.div Z.lor resize
        wrap ROUNDUP gen_keypair_desc sign_desc verify_desc take drop
        Z.min Z.of_nat].

Ltac munfold :=
  unfold caam_calloc_align_buf, caam_alloc_align_buf, caam_calloc_buf,
    caam_free_buf, bn2bin_at, cache_operation, crypto_bignum_bin2bn,
    caam_dmaobj_init_input, caam_dmaobj_init_output, caam_dmaobj_derive,
    caam_dmaobj_cache_push, caam_dmaobj_copy_to_orig, caam_dmaobj_free,
    caam_calloc_desc, caam_free_desc, caam_jr_enqueue, caam_prime_dsa_gen,
    bind, ret, lift, acquire, release, emit, next_conv, dma_served.

(** Fields of a key object after a sequence of field assignments. *)
Ltac kproj :=
  lazy beta iota delta
    [ck_g ck_p ck_q ck_x ck_y set_g set_p set_q set_x set_y].

(** C3. When the allocator serves the requests and every scalar of the key
    has a byte length of at most its target width (l_bytes for g, p and y,
    n_bytes for q and x), do_keypriv_conv and do_keypub_conv end with
    CAAM_NO_ERROR and each buffer has exactly the target width, holds the
    scalar's bytes at its end after zero bytes only, and reads back as the
    scalar. *)
Theorem key_material_right_justified (e : environment)
    (outkey : caam_dsa_keypair) (inkey : dsa_keypair)
    (pubkey : dsa_public_key) (l_bytes n_bytes : Z) (s : state) :
  (forall k, alloc_ok e k = true) ->
  keypair_fits inkey l_bytes n_bytes ->
  public_key_fits pubkey l_bytes n_bytes ->
  (exists k s',
     do_keypriv_conv e outkey inkey l_bytes n_bytes s
     = Some ((CAAM_NO_ERROR, k), s')
     /\ right_justified (dk_g inkey) l_bytes (ck_g k)
     /\ right_justified (dk_p inkey) l_bytes (ck_p k)
     /\ right_justified (dk_q inkey) n_bytes (ck_q k)
     /\ right_justified (dk_x inkey) n_bytes (ck_x k))
  /\ (exists k s',
        do_keypub_conv e outkey pubkey l_bytes n_bytes s
        = Some ((CAAM_NO_ERROR, k), s')
        /\ right_justified (pk_g pubkey) l_bytes (ck_g k)
        /\ right_justified (pk_p pubkey) l_bytes (ck_p k)
        /\ right_justified (pk_q pubkey) n_bytes (ck_q k)
        /\ right_justified (pk_y pubkey) l_bytes (ck_y k)).
Proof.
  intros Hall (Hg & Hp & Hq & Hx) (Hg' & Hp' & Hq' & Hy').
  split.
  - unfold do_keypriv_conv. munfold.
    repeat (mcbn; rewrite ?Hall; rewrite ?store_bn2bin by assumption).
    eexists; eexists. split; [reflexivity|].
    kproj.
    split; [|split; [|split]]; apply right_justified_intro; assumption.
  - unfold do_keypub_conv. munfold.
    repeat (mcbn; rewrite ?Hall; rewrite ?store_bn2bin by assumption).
    eexists; eexists. split; [reflexivity|].
    kproj.
    split; [|split; [|split]]; apply right_justified_intro; assumption.
Qed.

(** The sample key with the widths 4 and 2. *)
Lemma key_material_right_justified_witness :
  (exists k s',
     do_keypriv_conv env_ok caam_dsa_keypair_zero key_full 4 2 init_state
     = Some ((CAAM_NO_ERROR, k), s')
     /\ right_justified (dk_g key_full) 4 (ck_g k)
     /\ right_justified (dk_p key_full) 4 (ck_p k)
     /\ right_justified (dk_q key_full) 2 (ck_q k)
     /\ right_justified (dk_x key_full) 2 (ck_x k))
  /\ (exists k s',
        do_keypub_conv env_ok caam_dsa_keypair_zero pubkey_full 4 2 init_state
        = Some ((CAAM_NO_ERROR, k), s')
        /\ right_justified (pk_g pubkey_full) 4 (ck_g k)
        /\ right_justified (pk_p pubkey_full) 4 (ck_p k)
        /\ right_justified (pk_q pubkey_full) 2 (ck_q k)
        /\ right_justified (pk_y pubkey_full) 4 (ck_y k)).
Proof.
  apply (key_material_right_justified env_ok caam_dsa_keypair_zero key_full
           pubkey_full 4 2 init_state).
  - intros k. reflexivity.
  - unfold keypair_fits. vm_compute.
    split; [|split; [|split]]; discriminate.
  - unfold public_key_fits. vm_compute.
    split; [|split; [|split]]; discriminate.
Defined.

End KeyCodec.

(** ** Domain parameters *)

Module DomainParams.

Import Mach Bytes BytesFacts Bignum BignumFacts CaamDesc Caam CaamRef KeyCodec.

Lemma present_cond (key : dsa_keypair) :
  domain_present key ->
  (crypto_bignum_num_bytes (dk_q key) =? 0)
  || (crypto_bignum_num_bytes (dk_g key) =? 0)
  || (crypto_bignum_num_bytes (dk_p key) =? 0) = false.
Proof.
  intros (Hp & Hq & Hg).
  apply Z.eqb_neq in Hp, Hq, Hg. rewrite Hp, Hq, Hg. reflexivity.
Qed.

Lemma missing_cond (key : dsa_keypair) :
  domain_missing key ->
  (crypto_bignum_num_bytes (dk_q key) =? 0)
  || (crypto_bignum_num_bytes (dk_g key) =? 0)
  || (crypto_bignum_num_bytes (dk_p key) =? 0) = true.
Proof.
  intros [H | [H | H]]; apply Z.eqb_eq in H; rewrite H;
    rewrite ?orb_true_r; reflexivity.
Qed.

Lemma gen_calls_events (r c : nat) (a l f : list nat) (ev : list event) :
  gen_calls {| reqs := r; convs := c; allocated := a; live := l; freed := f;
               events := ev |}
  = length (List.filter
              (fun ev => match ev with EvPrimeGen => true | _ => false end) ev).
Proof. reflexivity. Qed.

Ltac gen_count :=
  rewrite ?gen_calls_events; unfold gen_calls;
  rewrite ?List.filter_app, ?length_app; cbn [List.filter length]; lia.

(** With all three parameters present no run reaches the generator,
    whatever the allocator answers. *)
Lemma present_never_generates (e : environment) (outkey : caam_dsa_keypair)
    (key : dsa_keypair) (l_bytes n_bytes : Z) (s : state) :
  domain_present key ->
  forall res s',
    get_keypair_domain_params e outkey key l_bytes n_bytes s = Some (res, s') ->
    gen_calls s' = gen_calls s.
Proof.
  intros Hpres res s'.
  unfold get_keypair_domain_params. munfold.
  mcbn. rewrite (present_cond key Hpres).
  repeat (mcbn; match goal with
                | |- context [alloc_ok e ?k] => destruct (alloc_ok e k)
                | |- context [store_bytes ?b ?o ?x] =>
                  destruct (store_bytes b o x)
                end);
    mcbn; intros H; try discriminate; injection H as <- <-; gen_count.
Qed.

Lemma present_encodes (e : environment) (outkey : caam_dsa_keypair)
    (key : dsa_keypair) (l_bytes n_bytes : Z) (s : state) :
  domain_present key ->
  domain_allocs_ok e s ->
  domain_fits key l_bytes n_bytes ->
  exists k s',
    get_keypair_domain_params e outkey key l_bytes n_bytes s
    = Some ((TEE_SUCCESS, k, key), s')
    /\ right_justified (dk_q key) n_bytes (ck_q k)
    /\ right_justified (dk_g key) l_bytes (ck_g k)
    /\ right_justified (dk_p key) l_bytes (ck_p k).
Proof.
  intros Hpres (Ha0 & Ha1 & Ha2) (Hg & Hp & Hq).
  unfold get_keypair_domain_params. munfold.
  mcbn. rewrite (present_cond key Hpres).
  repeat (mcbn; rewrite ?Ha0, ?Ha1, ?Ha2; rewrite ?store_bn2bin by assumption).
  eexists; eexists. split; [reflexivity|]. kproj.
  split; [|split]; apply right_justified_intro; assumption.
Qed.

Lemma missing_generates (e : environment) (outkey : caam_dsa_keypair)
    (key : dsa_keypair) (l_bytes n_bytes : Z) (s : state) :
  domain_missing key ->
  domain_allocs_ok e s ->
  exists r k key' s',
    get_keypair_domain_params e outkey key l_bytes n_bytes s
    = Some ((r, k, key'), s')
    /\ gen_calls s' = S (gen_calls s)
    /\ (prime_gen_status e <> CAAM_NO_ERROR ->
        r = TEE_ERROR_GENERIC /\ key' = key)
    /\ (prime_gen_status e = CAAM_NO_ERROR ->
        r = TEE_SUCCESS
        /\ cb_bytes (ck_q k) = resize (Z.to_nat n_bytes) 0 (prime_gen_q e)
        /\ cb_bytes (ck_g k) = resize (Z.to_nat l_bytes) 0 (prime_gen_g e)
        /\ cb_bytes (ck_p k) = resize (Z.to_nat l_bytes) 0 (prime_gen_p e)
        /\ (bin2bn_ret e (convs s) = TEE_SUCCESS ->
            dk_q key' = bin2bn_value (cb_bytes (ck_q k)) n_bytes)
        /\ (bin2bn_ret e (S (convs s)) = TEE_SUCCESS ->
            dk_g key' = bin2bn_value (cb_bytes (ck_g k)) l_bytes)
        /\ (bin2bn_ret e (S (S (convs s))) = TEE_SUCCESS ->
            dk_p key' = bin2bn_value (cb_bytes (ck_p k)) l_bytes)
        /\ dk_x key' = dk_x key /\ dk_y key' = dk_y key).
Proof.
  intros Hmiss (Ha0 & Ha1 & Ha2).
  unfold get_keypair_domain_params. munfold.
  mcbn. rewrite (missing_cond key Hmiss).
  repeat (mcbn; rewrite ?Ha0, ?Ha1, ?Ha2).
  destruct (prime_gen_status e) eqn:Hst; mcbn;
    try (do 4 eexists; split; [reflexivity|]; split; [gen_count|];
         split; [intros _; split; reflexivity | intros; discriminate]).
  destruct (bin2bn_ret e (convs s) =? TEE_SUCCESS) eqn:H0;
    destruct (bin2bn_ret e (S (convs s)) =? TEE_SUCCESS) eqn:H1;
    destruct (bin2bn_ret e (S (S (convs s))) =? TEE_SUCCESS) eqn:H2;
    repeat (mcbn; rewrite ?H0, ?H1, ?H2);
    do 4 eexists; (split; [reflexivity|]); (split; [gen_count|]);
    (split; [intros Hne; congruence|]); intros _; kproj;
    cbn [dk_g dk_p dk_q dk_x dk_y cb_bytes cb_length];
    apply Z.eqb_eq in H0 || apply Z.eqb_neq in H0;
    apply Z.eqb_eq in H1 || apply Z.eqb_neq in H1;
    apply Z.eqb_eq in H2 || apply Z.eqb_neq in H2;
    repeat (split; [first [reflexivity | intros; congruence]|]);
    reflexivity.
Qed.

(** A run that reports TEE_ERROR_OUT_OF_MEMORY was refused a buffer. *)
Lemma out_of_memory_only_from_allocator (e : environment)
    (outkey : caam_dsa_keypair) (key : dsa_keypair) (l_bytes n_bytes : Z)
    (s : state) :
  forall r k key' s',
    get_keypair_domain_params e outkey key l_bytes n_bytes s
    = Some ((r, k, key'), s') ->
    r = TEE_ERROR_OUT_OF_MEMORY ->
    ~ domain_allocs_ok e s.
Proof.
  intros r k key' s' Hrun Hr (Ha0 & Ha1 & Ha2). revert Hrun.
  unfold get_keypair_domain_params. munfold.
  repeat (mcbn; rewrite ?Ha0, ?Ha1, ?Ha2).
  destruct ((crypto_bignum_num_bytes (dk_q key) =? 0)
            || (crypto_bignum_num_bytes (dk_g key) =? 0)
            || (crypto_bignum_num_bytes (dk_p key) =? 0)).
  - destruct (prime_gen_status e); mcbn;
      repeat match goal with
             | |- context [bin2bn_ret e ?c =? TEE_SUCCESS] =>
               destruct (bin2bn_ret e c =? TEE_SUCCESS); mcbn
             end;
      intros H; injection H as <- _ _ _; discriminate.
  - repeat (mcbn; match goal with
                  | |- context [store_bytes ?b ?o ?x] =>
                    destruct (store_bytes b o x)
                  end);
      mcbn; intros H; try discriminate; injection H as <- _ _ _; discriminate.
Qed.

(** C2. With the three buffer requests served: a key whose p, q and g all
    have a non-zero byte length (and fit their widths) is encoded from the
    caller's values, right-justified, and the generator is not called, on
    any run at all; a key with p, q or g of zero byte length makes
    get_keypair_domain_params call the generator once for the three
    buffers together, and when the generator succeeds the three generated
    values are read back into the caller's key (each one as far as the
    library accepts the conversion). *)
Theorem domain_params_policy (e : environment) (outkey : caam_dsa_keypair)
    (key : dsa_keypair) (l_bytes n_bytes : Z) (s : state) :
  (domain_present key ->
   (forall res s',
      get_keypair_domain_params e outkey key l_bytes n_bytes s
      = Some (res, s') ->
      gen_calls s' = gen_calls s)
   /\ (domain_allocs_ok e s -> domain_fits key l_bytes n_bytes ->
       exists k s',
         get_keypair_domain_params e outkey key l_bytes n_bytes s
         = Some ((TEE_SUCCESS, k, key), s')
         /\ gen_calls s' = gen_calls s
         /\ right_justified (dk_q key) n_bytes (ck_q k)
         /\ right_justified (dk_g key) l_bytes (ck_g k)
         /\ right_justified (dk_p key) l_bytes (ck_p k)))
  /\ (domain_missing key -> domain_allocs_ok e s ->
      exists r k key' s',
        get_keypair_domain_params e outkey key l_bytes n_bytes s
        = Some ((r, k, key'), s')
        /\ gen_calls s' = S (gen_calls s)
        /\ (prime_gen_status e = CAAM_NO_ERROR ->
            r = TEE_SUCCESS
            /\ cb_bytes (ck_q k) = resize (Z.to_nat n_bytes) 0 (prime_gen_q e)
            /\ cb_bytes (ck_g k) = resize (Z.to_nat l_bytes) 0 (prime_gen_g e)
            /\ cb_bytes (ck_p k) = resize (Z.to_nat l_bytes) 0 (prime_gen_p e)
            /\ (bin2bn_ret e (convs s) = TEE_SUCCESS ->
                dk_q key' = bin2bn_value (cb_bytes (ck_q k)) n_bytes)
            /\ (bin2bn_ret e (S (convs s)) = TEE_SUCCESS ->
                dk_g key' = bin2bn_value (cb_bytes (ck_g k)) l_bytes)
            /\ (bin2bn_ret e (S (S (convs s))) = TEE_SUCCESS ->
                dk_p key' = bin2bn_value (cb_bytes (ck_p k)) l_bytes))).
Proof.
  split.
  - intros Hpres. split.
    + apply present_never_generates, Hpres.
    + intros Ha Hfit.
      destruct (present_encodes e outkey key l_bytes n_bytes s Hpres Ha Hfit)
        as (k & s' & Hrun & Hq & Hg & Hp).
      exists k, s'. split; [exact Hrun|]. split; [|auto].
      apply (present_never_generates e outkey key l_bytes n_bytes s Hpres
               _ _ Hrun).
  - intros Hmiss Ha.
    destruct (missing_generates e outkey key l_bytes n_bytes s Hmiss Ha)
      as (r & k & key' & s' & Hrun & Hcnt & _ & Hok).
    exists r, k, key', s'. split; [exact Hrun|]. split; [exact Hcnt|].
    intros Hst. destruct (Hok Hst) as (H1 & H2 & H3 & H4 & H5 & H6 & H7 & _).
    auto 10.
Qed.

(** The sample key with all parameters, and the key without any. *)
Lemma domain_params_policy_witness :
  (exists k s',
     get_keypair_domain_params env_ok caam_dsa_keypair_zero key_full 4 2
       init_state
     = Some ((TEE_SUCCESS, k, key_full), s')
     /\ gen_calls s' = gen_calls init_state
     /\ right_justified (dk_q key_full) 2 (ck_q k)
     /\ right_justified (dk_g key_full) 4 (ck_g k)
     /\ right_justified (dk_p key_full) 4 (ck_p k))
  /\ (exists r k key' s',
        get_keypair_domain_params env_ok caam_dsa_keypair_zero key_empty 4 2
          init_state
        = Some ((r, k, key'), s')
        /\ gen_calls s' = S (gen_calls init_state)
        /\ r = TEE_SUCCESS
        /\ dk_q key' = 0x0707%N /\ dk_g key' = 0x01020304%N
        /\ dk_p key' = 0x09090909%N).
Proof.
  split.
  - apply (domain_params_policy env_ok caam_dsa_keypair_zero key_full 4 2
             init_state).
    + unfold domain_present. vm_compute. split; [|split]; discriminate.
    + unfold domain_allocs_ok. cbn. auto.
    + unfold domain_fits. vm_compute. split; [|split]; discriminate.
  - destruct (proj2 (domain_params_policy env_ok caam_dsa_keypair_zero
                       key_empty 4 2 init_state))
      as (r & k & key' & s' & Hrun & Hcnt & Hok).
    + unfold domain_missing. left. reflexivity.
    + unfold domain_allocs_ok. cbn. auto.
    + exists r, k, key', s'. split; [exact Hrun|]. split; [exact Hcnt|].
      destruct (Hok eq_refl) as (Hr & Hbq & Hbg & Hbp & Hq & Hg & Hp).
      split; [exact Hr|].
      rewrite (Hq eq_refl), (Hg eq_refl), (Hp eq_refl), Hbq, Hbg, Hbp.
      vm_compute. auto.
Defined.

(** C8. When parameters have to be generated, the buffers were obtained and
    the generator reports a failure, get_keypair_domain_params returns
    TEE_ERROR_GENERIC and leaves the caller's key alone.  That result
    differs from TEE_ERROR_OUT_OF_MEMORY, which a run returns only after
    the allocator refused one of the three buffers. *)
Theorem generation_failure_outcome (e : environment)
    (outkey : caam_dsa_keypair) (key : dsa_keypair) (l_bytes n_bytes : Z)
    (s : state) :
  (domain_missing key -> domain_allocs_ok e s ->
   prime_gen_status e <> CAAM_NO_ERROR ->
   exists k s',
     get_keypair_domain_params e outkey key l_bytes n_bytes s
     = Some ((TEE_ERROR_GENERIC, k, key), s')
     /\ gen_calls s' = S (gen_calls s))
  /\ (forall r k key' s',
        get_keypair_domain_params e outkey key l_bytes n_bytes s
        = Some ((r, k, key'), s') ->
        r = TEE_ERROR_OUT_OF_MEMORY ->
        ~ domain_allocs_ok e s)
  /\ TEE_ERROR_GENERIC <> TEE_ERROR_OUT_OF_MEMORY.
Proof.
  split; [|split].
  - intros Hmiss Ha Hst.
    destruct (missing_generates e outkey key l_bytes n_bytes s Hmiss Ha)
      as (r & k & key' & s' & Hrun & Hcnt & Hfail & _).
    destruct (Hfail Hst) as [-> ->].
    exists k, s'. auto.
  - apply out_of_memory_only_from_allocator.
  - discriminate.
Qed.

(** The key without parameters and a generator that fails. *)
Lemma generation_failure_outcome_witness :
  exists k s',
    get_keypair_domain_params (env_with CAAM_FAILURE CAAM_NO_ERROR 0)
      caam_dsa_keypair_zero key_empty 4 2 init_state
    = Some ((TEE_ERROR_GENERIC, k, key_empty), s')
    /\ gen_calls s' = S (gen_calls init_state).
Proof.
  apply (generation_failure_outcome (env_with CAAM_FAILURE CAAM_NO_ERROR 0)
           caam_dsa_keypair_zero key_empty 4 2 init_state).
  - left. reflexivity.
  - unfold domain_allocs_ok. cbn. auto.
  - cbn. discriminate.
Defined.

End DomainParams.

(** ** Job descriptors *)

Module Descriptors.

Import Mach Bytes Bignum CaamDesc Caam CaamRef.

Ltac desc_eval Hc H64 Hbe :=
  unfold caam_desc_add_ptr, caam_desc_add_word, caam_desc_init, append,
    caam_desc_update_hdr, caam_desc_get_len, layout, field_words, ptr_words;
  rewrite ?H64, ?Hbe;
  cbn -[wrap Z.lor DESC_HEADER DESC_HEADER_IDX Z.shiftr];
  rewrite Hc; unfold MAX_DESC_KEY_GEN, MAX_DESC_SIGN, MAX_DESC_VERIFY;
  rewrite ?H64;
  cbn -[wrap Z.lor DESC_HEADER DESC_HEADER_IDX Z.shiftr].

(** The builders never exceed the capacity the operation allocates; they
    leave a header followed by the fields in the order they were added, and
    the header announces the number of words. *)
Lemma gen_keypair_desc_built (c : config) (desc : descriptor)
    (l_bytes n_bytes : Z) (k : caam_dsa_keypair) :
  capacity desc = MAX_DESC_KEY_GEN c ->
  exists hdr,
    gen_keypair_desc c desc l_bytes n_bytes k
    = Some {| capacity := capacity desc;
              words := hdr :: layout c (gen_fields c l_bytes n_bytes k) |}
    /\ GET_JD_DESCLEN hdr
       = Z.of_nat (length (hdr :: layout c (gen_fields c l_bytes n_bytes k))).
Proof.
  intros Hc. unfold gen_keypair_desc, gen_fields.
  destruct (CFG_CAAM_64BIT c) eqn:H64; destruct (CFG_CAAM_BIG_ENDIAN c) eqn:Hbe.
  all: desc_eval Hc H64 Hbe.
  all: eexists; split; [reflexivity | vm_compute; reflexivity].
Qed.

Lemma sign_desc_built (c : config) (desc : descriptor)
    (l_bytes n_bytes flags : Z) (k : caam_dsa_keypair)
    (msg sign_c sign_d : caamdmaobj) (mlen : Z) :
  capacity desc = MAX_DESC_SIGN c ->
  exists hdr,
    sign_desc c desc l_bytes n_bytes flags k msg sign_c sign_d mlen
    = Some {| capacity := capacity desc;
              words := hdr :: layout c (sign_fields c l_bytes n_bytes flags k
                                          msg sign_c sign_d mlen) |}
    /\ GET_JD_DESCLEN hdr
       = Z.of_nat (length (hdr :: layout c (sign_fields c l_bytes n_bytes flags
                                              k msg sign_c sign_d mlen))).
Proof.
  intros Hc. unfold sign_desc, sign_fields.
  destruct (CFG_CAAM_64BIT c) eqn:H64; destruct (CFG_CAAM_BIG_ENDIAN c) eqn:Hbe.
  all: desc_eval Hc H64 Hbe.
  all: eexists; split; [reflexivity | vm_compute; reflexivity].
Qed.

Lemma verify_desc_built (c : config) (desc : descriptor)
    (l_bytes n_bytes flags : Z) (k : caam_dsa_keypair)
    (msg sign_c sign_d : caamdmaobj) (tmp : caambuf) (mlen : Z) :
  capacity desc = MAX_DESC_VERIFY c ->
  exists hdr,
    verify_desc c desc l_bytes n_bytes flags k msg sign_c sign_d tmp mlen
    = Some {| capacity := capacity desc;
              words := hdr :: layout c (verify_fields c l_bytes n_bytes flags k
                                          msg sign_c sign_d tmp mlen) |}
    /\ GET_JD_DESCLEN hdr
       = Z.of_nat (length (hdr :: layout c (verify_fields c l_bytes n_bytes
                                              flags k msg sign_c sign_d tmp
                                              mlen))).
Proof.
  intros Hc. unfold verify_desc, verify_fields.
  destruct (CFG_CAAM_64BIT c) eqn:H64; destruct (CFG_CAAM_BIG_ENDIAN c) eqn:Hbe.
  all: desc_eval Hc H64 Hbe.
  all: eexists; split; [reflexivity | vm_compute; reflexivity].
Qed.

Lemma header_len_built (cap : Z) (hdr : Z) (ws : list Z) :
  GET_JD_DESCLEN hdr = Z.of_nat (length (hdr :: ws)) ->
  header_len {| capacity := cap; words := hdr :: ws |}
  = Some (Z.of_nat (length (words {| capacity := cap; words := hdr :: ws |}))).
Proof. intros H. unfold header_len. cbn [words head fmap option_fmap option_map]. rewrite H. reflexivity. Qed.

End Descriptors.

(** ** The three operations *)

Module Operations.

Import Mach MachFacts Bytes BytesFacts Bignum BignumFacts CaamDesc Caam.
Import CaamRef KeyCodec Descriptors.

Lemma balancedb_sound (s : state) : balancedb s = true -> balanced s.
Proof.
  unfold balancedb, balanced. intros H.
  apply andb_true_iff in H as [Hl H].
  rewrite forallb_forall in H.
  assert (Hc : forall x, In x (freed s ++ allocated s) ->
               count_occ Nat.eq_dec (freed s) x = 1%nat
               /\ count_occ Nat.eq_dec (allocated s) x = 1%nat).
  { intros x Hx. specialize (H x Hx). apply andb_true_iff in H as [H1 H2].
    apply Nat.eqb_eq in H1, H2. auto. }
  split; [destruct (live s); [reflexivity | discriminate]|].
  split.
  - apply NoDup_ListNoDup, (NoDup_count_occ' Nat.eq_dec). intros x Hx.
    apply Hc, in_or_app. left. exact Hx.
  - apply (Permutation_count_occ Nat.eq_dec). intros x.
    destruct (in_dec Nat.eq_dec x (freed s ++ allocated s)) as [Hx | Hx].
    + destruct (Hc x Hx) as [-> ->]. reflexivity.
    + rewrite !(proj1 (count_occ_not_In Nat.eq_dec _ x));
        [reflexivity | |]; intros Hin; apply Hx, in_or_app; auto.
Qed.

(** One case split on an answer of a collaborator. *)
Ltac path_step e :=
  match goal with
  | |- context [alloc_ok e ?k] => destruct (alloc_ok e k)
  | |- context [dmaobj_ret e ?k =? 0] => destruct (dmaobj_ret e k =? 0)
  | |- context [bin2bn_ret e ?k =? 0] => destruct (bin2bn_ret e k =? 0)
  | |- context [store_bytes ?b ?o ?x] => destruct (store_bytes b o x)
  | |- context [caam_status_eqb (prime_gen_status e) _] =>
    destruct (prime_gen_status e)
  | |- context [caam_status_eqb (jr_retstatus e) _] =>
    destruct (jr_retstatus e)
  | |- context [jr_jobstatus e =? 0] => destruct (jr_jobstatus e =? 0)
  | |- context [gen_keypair_desc ?c ?d ?l ?n ?k] =>
    destruct (gen_keypair_desc c d l n k)
  | |- context [sign_desc ?c ?d ?l ?n ?f ?k ?m ?sc ?sd ?ml] =>
    destruct (sign_desc c d l n f k m sc sd ml)
  | |- context [verify_desc ?c ?d ?l ?n ?f ?k ?m ?sc ?sd ?t ?ml] =>
    destruct (verify_desc c d l n f k m sc sd t ml)
  | |- context [(?a =? 0) || (?b =? 0) || (?c =? 0)] =>
    destruct ((a =? 0) || (b =? 0) || (c =? 0))
  end.

Ltac paths e := unfold TEE_SUCCESS; repeat (mcbn; path_step e); mcbn.

Ltac leaf :=
  lazymatch goal with
  | |- None = Some _ -> _ => discriminate
  | |- Some _ = Some _ -> _ =>
    let H := fresh in
    intros H; injection H as <- <-;
    apply balancedb_sound; vm_compute; reflexivity
  end.

(** The same walk where the scalars fit: no store leaves its buffer and no
    descriptor exceeds its area. *)
Ltac tot_step e :=
  match goal with
  | |- context [alloc_ok e ?k] => destruct (alloc_ok e k)
  | |- context [dmaobj_ret e ?k =? 0] => destruct (dmaobj_ret e k =? 0)
  | |- context [bin2bn_ret e ?k =? 0] => destruct (bin2bn_ret e k =? 0)
  | |- context [store_bytes (zeros (Z.to_nat ?W)) _
                  (crypto_bignum_bn2bin ?bn)] =>
    rewrite (store_bn2bin W bn) by assumption
  | |- context [caam_status_eqb (prime_gen_status e) _] =>
    destruct (prime_gen_status e)
  | |- context [caam_status_eqb (jr_retstatus e) _] =>
    destruct (jr_retstatus e)
  | |- context [jr_jobstatus e =? 0] => destruct (jr_jobstatus e =? 0)
  | |- context [gen_keypair_desc ?c ?d ?l ?n ?k] =>
    destruct (gen_keypair_desc_built c d l n k eq_refl) as (? & -> & _)
  | |- context [sign_desc ?c ?d ?l ?n ?f ?k ?m ?sc ?sd ?ml] =>
    destruct (sign_desc_built c d l n f k m sc sd ml eq_refl) as (? & -> & _)
  | |- context [verify_desc ?c ?d ?l ?n ?f ?k ?m ?sc ?sd ?t ?ml] =>
    destruct (verify_desc_built c d l n f k m sc sd t ml eq_refl)
      as (? & -> & _)
  end.

Lemma gen_keypair_balanced (e : environment) (c : config) (key : dsa_keypair)
    (l_bits n_bits : Z) :
  forall res s',
    do_gen_keypair e c key l_bits n_bits init_state = Some (res, s') ->
    balanced s'.
Proof.
  intros res s'.
  unfold do_gen_keypair, gen_keypair_run, exit_gen_keypair, do_keypair_free,
    get_keypair_domain_params.
  munfold. paths e. all: leaf.
Qed.

Lemma sign_balanced (e : environment) (c : config)
    (sdata : drvcrypt_sign_data dsa_keypair) (l_bytes n_bytes : Z) :
  forall res s',
    do_sign e c sdata l_bytes n_bytes init_state = Some (res, s') ->
    balanced s'.
Proof.
  intros res s'.
  unfold do_sign, sign_run, exit_sign, do_keypair_free, do_keypriv_conv.
  munfold. paths e. all: leaf.
Qed.

Lemma verify_balanced (e : environment) (c : config)
    (sdata : drvcrypt_sign_data dsa_public_key) (l_bytes n_bytes : Z) :
  forall res s',
    do_verify e c sdata l_bytes n_bytes init_state = Some (res, s') ->
    balanced s'.
Proof.
  intros res s'.
  unfold do_verify, verify_run, exit_verify, do_keypair_free, do_keypub_conv.
  munfold. paths e. all: leaf.
Qed.

Lemma gen_keypair_returns (e : environment) (c : config) (key : dsa_keypair)
    (l_bits n_bits : Z) (s : state) :
  (domain_present key -> domain_fits key (l_bits / 8) (n_bits / 8)) ->
  exists res s', do_gen_keypair e c key l_bits n_bits s = Some (res, s').
Proof.
  intros Hfit.
  assert (Hc : (crypto_bignum_num_bytes (dk_q key) =? 0)
               || (crypto_bignum_num_bytes (dk_g key) =? 0)
               || (crypto_bignum_num_bytes (dk_p key) =? 0) = true
               \/ ((crypto_bignum_num_bytes (dk_q key) =? 0)
                   || (crypto_bignum_num_bytes (dk_g key) =? 0)
                   || (crypto_bignum_num_bytes (dk_p key) =? 0) = false
                   /\ domain_fits key (l_bits / 8) (n_bits / 8))).
  { destruct (crypto_bignum_num_bytes (dk_q key) =? 0) eqn:Hq;
      destruct (crypto_bignum_num_bytes (dk_g key) =? 0) eqn:Hg;
      destruct (crypto_bignum_num_bytes (dk_p key) =? 0) eqn:Hp; auto.
    right. split; [reflexivity|]. apply Hfit.
    apply Z.eqb_neq in Hq, Hg, Hp. unfold domain_present. auto. }
  unfold do_gen_keypair, gen_keypair_run, exit_gen_keypair, do_keypair_free,
    get_keypair_domain_params.
  munfold. unfold TEE_SUCCESS.
  destruct Hc as [Hc | [Hc (Hg & Hp & Hq)]];
    repeat (mcbn; rewrite ?Hc; try tot_step e); eauto.
Qed.

Lemma sign_returns (e : environment) (c : config)
    (sdata : drvcrypt_sign_data dsa_keypair) (l_bytes n_bytes : Z)
    (s : state) :
  keypair_fits (key sdata) l_bytes n_bytes ->
  exists res s', do_sign e c sdata l_bytes n_bytes s = Some (res, s').
Proof.
  intros (Hg & Hp & Hq & Hx).
  unfold do_sign, sign_run, exit_sign, do_keypair_free, do_keypriv_conv.
  munfold. unfold TEE_SUCCESS.
  repeat (mcbn; try tot_step e); eauto.
Qed.

Lemma verify_returns (e : environment) (c : config)
    (sdata : drvcrypt_sign_data dsa_public_key) (l_bytes n_bytes : Z)
    (s : state) :
  public_key_fits (key sdata) l_bytes n_bytes ->
  exists res s', do_verify e c sdata l_bytes n_bytes s = Some (res, s').
Proof.
  intros (Hg & Hp & Hq & Hy).
  unfold do_verify, verify_run, exit_verify, do_keypair_free, do_keypub_conv.
  munfold. unfold TEE_SUCCESS.
  repeat (mcbn; try tot_step e); eauto.
Qed.

(** C7. Whatever the allocator, the DMA layer, the generator, the library
    and the job ring answer, a call of do_gen_keypair, do_sign or do_verify
    that returns has passed through its exit sequence and has given back
    every area it obtained (descriptor, key buffers, scratch buffer, DMA
    objects) exactly once: nothing is still held and nothing was released
    twice.  The calls do return when the scalars of the key fit the widths
    they are encoded into. *)
Theorem cleanup_on_every_path (e : environment) (c : config) :
  (forall key l_bits n_bits,
     (forall res s',
        do_gen_keypair e c key l_bits n_bits init_state = Some (res, s') ->
        balanced s')
     /\ ((domain_present key -> domain_fits key (l_bits / 8) (n_bits / 8)) ->
         exists res s',
           do_gen_keypair e c key l_bits n_bits init_state = Some (res, s')))
  /\ (forall sdata l_bytes n_bytes,
        (forall res s',
           do_sign e c sdata l_bytes n_bytes init_state = Some (res, s') ->
           balanced s')
        /\ (keypair_fits (key sdata) l_bytes n_bytes ->
            exists res s',
              do_sign e c sdata l_bytes n_bytes init_state = Some (res, s')))
  /\ (forall sdata l_bytes n_bytes,
        (forall res s',
           do_verify e c sdata l_bytes n_bytes init_state = Some (res, s') ->
           balanced s')
        /\ (public_key_fits (key sdata) l_bytes n_bytes ->
            exists res s',
              do_verify e c sdata l_bytes n_bytes init_state
              = Some (res, s'))).
Proof.
  split; [|split]; intros; split.
  - apply gen_keypair_balanced.
  - apply gen_keypair_returns.
  - apply sign_balanced.
  - apply sign_returns.
  - apply verify_balanced.
  - apply verify_returns.
Qed.

(** The sample signature data with collaborators that serve every
    request. *)
Lemma cleanup_on_every_path_witness :
  (exists res s',
     do_gen_keypair env_ok cfg32 key_empty 32 16 init_state = Some (res, s')
     /\ balanced s')
  /\ (exists res s',
        do_sign env_ok cfg32 sign_data 4 2 init_state = Some (res, s')
        /\ balanced s')
  /\ (exists res s',
        do_verify env_ok cfg32 verify_data 4 2 init_state = Some (res, s')
        /\ balanced s').
Proof.
  destruct (cleanup_on_every_path env_ok cfg32) as (Hgen & Hsign & Hver).
  split; [|split].
  - destruct (Hgen key_empty 32 16) as [Hbal Hret].
    destruct Hret as (res & s' & Hrun).
    + intros (Hp & _). exfalso. apply Hp. reflexivity.
    + exists res, s'. split; [exact Hrun | exact (Hbal _ _ Hrun)].
  - destruct (Hsign sign_data 4 2) as [Hbal Hret].
    destruct Hret as (res & s' & Hrun).
    + unfold keypair_fits. vm_compute.
      split; [|split; [|split]]; discriminate.
    + exists res, s'. split; [exact Hrun | exact (Hbal _ _ Hrun)].
  - destruct (Hver verify_data 4 2) as [Hbal Hret].
    destruct Hret as (res & s' & Hrun).
    + unfold public_key_fits. vm_compute.
      split; [|split; [|split]]; discriminate.
    + exists res, s'. split; [exact Hrun | exact (Hbal _ _ Hrun)].
Defined.

(** The run in which every request is served. *)
Ltac ok_step e Hall Hdma :=
  match goal with
  | |- context [alloc_ok e ?k] => rewrite (Hall k)
  | |- context [dmaobj_ret e ?k] => rewrite (Hdma k)
  | |- context [store_bytes (zeros (Z.to_nat ?W)) _
                  (crypto_bignum_bn2bin ?bn)] =>
    rewrite (store_bn2bin W bn) by assumption
  | |- context [gen_keypair_desc ?c ?d ?l ?n ?k] =>
    destruct (gen_keypair_desc_built c d l n k eq_refl) as (? & -> & _)
  | |- context [sign_desc ?c ?d ?l ?n ?f ?k ?m ?sc ?sd ?ml] =>
    destruct (sign_desc_built c d l n f k m sc sd ml eq_refl) as (? & -> & _)
  | |- context [verify_desc ?c ?d ?l ?n ?f ?k ?m ?sc ?sd ?t ?ml] =>
    destruct (verify_desc_built c d l n f k m sc sd t ml eq_refl)
      as (? & -> & _)
  end.



Lemma ROUNDUP_16 (w v : Z) :
  w = 32 \/ w = 64 -> 0 <= v -> v + 15 < 2 ^ w ->
  ROUNDUP w v 16 = roundup16 v.
Proof.
  intros Hw Hv Hb. unfold roundup16.
  change 16 with (2 ^ 4). change 15 with (2 ^ 4 - 1) in *.
  apply ROUNDUP_pow2; [destruct Hw; lia | exact Hv | exact Hb].
Qed.

Lemma roundup16_bounds (v : Z) : 0 <= v -> v <= roundup16 v <= v + 15.
Proof.
  intros Hv. unfold roundup16.
  pose proof (Z.div_mod (v + 15) 16 ltac:(lia)).
  pose proof (Z.mod_pos_bound (v + 15) 16 ltac:(lia)). lia.
Qed.

(** C4. In a call of do_sign with security size S that reaches that point
    (requests served, key scalars fitting, sizes representable in size_t),
    the one output working buffer the call asks for has
    roundup(S,16) + S bytes; after a successful submission the call returns
    TEE_SUCCESS, the reported signature length is 2*S, and the caller's
    signature buffer holds the first 2*S bytes of the working buffer, the
    rest of it untouched.  After a failed submission the caller's
    signature is as it was. *)
Theorem sign_buffer_sizing (e : environment) (c : config)
    (sdata : drvcrypt_sign_data dsa_keypair) (l_bytes n_bytes : Z)
    (s : state) :
  size_bits c = 32 \/ size_bits c = 64 ->
  0 <= size_sec sdata ->
  2 * size_sec sdata + 15 < 2 ^ size_bits c ->
  (forall k, alloc_ok e k = true) ->
  (forall k, dmaobj_ret e k = TEE_SUCCESS) ->
  keypair_fits (key sdata) l_bytes n_bytes ->
  exists r sdata' s',
    do_sign e c sdata l_bytes n_bytes s = Some ((r, sdata'), s')
    /\ output_requests s'
       = output_requests s
           ++ [(cr_length (signature sdata),
                roundup16 (size_sec sdata) + size_sec sdata)]
    /\ (jr_retstatus e = CAAM_NO_ERROR ->
        r = TEE_SUCCESS
        /\ cr_length (signature sdata') = 2 * size_sec sdata
        /\ cr_data (signature sdata')
           = take (Z.to_nat (2 * size_sec sdata))
               (resize (Z.to_nat (roundup16 (size_sec sdata) + size_sec sdata))
                  0 (device_out e (6 + reqs s)))
             ++ drop (Z.to_nat (2 * size_sec sdata))
                  (cr_data (signature sdata)))
    /\ (jr_retstatus e <> CAAM_NO_ERROR ->
        r = job_status_to_tee_result e (jr_jobstatus e)
        /\ signature sdata' = signature sdata).
Proof.
  intros Hw HS Hb Hall Hdma (Hg & Hp & Hq & Hx).
  pose proof (roundup16_bounds (size_sec sdata) HS) as Hr.
  unfold do_sign, sign_run, exit_sign, do_keypair_free, do_keypriv_conv.
  munfold. unfold TEE_SUCCESS in *.
  repeat (mcbn; try ok_step e Hall Hdma).
  rewrite !(ROUNDUP_16 (size_bits c) (size_sec sdata)) by (auto; lia).
  rewrite !(wrap_small (size_bits c)) by lia.
  destruct (jr_retstatus e) eqn:Hjr; mcbn.
  all: do 3 eexists; (split; [reflexivity|]).
  all: split;
    [unfold output_requests; cbn [events];
     rewrite !flat_map_app; cbn [flat_map app];
     rewrite ?app_nil_r; reflexivity|].
  all: split; intros Hst; try congruence.
  2-5: split; reflexivity.
  cbn [signature cr_length cr_data orig_length orig_data work priv].
  split; [reflexivity|]. split; [reflexivity|].
  unfold zeros. rewrite length_replicate, length_resize.
  rewrite Z2Nat.id by lia. rewrite Z.min_l by lia.
  reflexivity.
Qed.

(** The sample signature data: security size 2, a caller buffer of six
    bytes. *)
Lemma sign_buffer_sizing_witness :
  exists s',
    do_sign env_ok cfg32 sign_data 4 2 init_state
    = Some ((TEE_SUCCESS,
             {| algo := 0; key := key_full; size_sec := 2;
                message := {| cr_data := [1; 2; 3]; cr_length := 3 |};
                signature := {| cr_data := [6; 1; 2; 3; 0; 0];
                                cr_length := 4 |} |}), s')
    /\ output_requests s' = [(6, 18)].
Proof.
  destruct (sign_buffer_sizing env_ok cfg32 sign_data 4 2 init_state)
    as (r & sdata' & s' & Hrun & Hreq & Hok & _).
  - left. reflexivity.
  - cbn. lia.
  - cbn. lia.
  - intros k. reflexivity.
  - intros k. reflexivity.
  - unfold keypair_fits. vm_compute.
    split; [|split; [|split]]; discriminate.
  - exists s'. split; [|exact Hreq].
    destruct (Hok eq_refl) as (-> & Hlen & Hdata).
    rewrite Hrun. do 3 f_equal.
    destruct sdata' as [a k sz m [d len]].
    cbn in Hlen, Hdata. subst len d.
    assert (Hrest : a = 0 /\ k = key_full /\ sz = 2
                    /\ m = {| cr_data := [1; 2; 3]; cr_length := 3 |}).
    { revert Hrun. vm_compute. intros H. injection H as <- <- <- <-. auto. }
    destruct Hrest as (-> & -> & -> & ->). reflexivity.
Defined.

End Operations.

(** ** The descriptors handed to the job ring *)

Module Submitted.

Import Mach MachFacts Bytes BytesFacts Bignum BignumFacts CaamDesc Caam.
Import CaamRef KeyCodec Descriptors Operations.

(** The walk over the answers of the collaborators, keeping what is known
    of each descriptor that gets built. *)
Ltac sub_step e :=
  match goal with
  | |- context [alloc_ok e ?k] => destruct (alloc_ok e k)
  | |- context [dmaobj_ret e ?k =? 0] => destruct (dmaobj_ret e k =? 0)
  | |- context [bin2bn_ret e ?k =? 0] => destruct (bin2bn_ret e k =? 0)
  | |- context [store_bytes ?b ?o ?x] => destruct (store_bytes b o x)
  | |- context [caam_status_eqb (prime_gen_status e) _] =>
    destruct (prime_gen_status e)
  | |- context [caam_status_eqb (jr_retstatus e) _] =>
    destruct (jr_retstatus e)
  | |- context [jr_jobstatus e =? 0] => destruct (jr_jobstatus e =? 0)
  | |- context [gen_keypair_desc ?c ?d ?l ?n ?k] =>
    let Hh := fresh "Hh" in
    destruct (gen_keypair_desc_built c d l n k eq_refl) as (? & -> & Hh)
  | |- context [sign_desc ?c ?d ?l ?n ?f ?k ?m ?sc ?sd ?ml] =>
    let Hh := fresh "Hh" in
    destruct (sign_desc_built c d l n f k m sc sd ml eq_refl) as (? & -> & Hh)
  | |- context [verify_desc ?c ?d ?l ?n ?f ?k ?m ?sc ?sd ?t ?ml] =>
    let Hh := fresh "Hh" in
    destruct (verify_desc_built c d l n f k m sc sd t ml eq_refl)
      as (? & -> & Hh)
  | |- context [(?a =? 0) || (?b =? 0) || (?c =? 0)] =>
    destruct ((a =? 0) || (b =? 0) || (c =? 0))
  end.

Ltac shaped :=
  lazymatch goal with
  | Hh : GET_JD_DESCLEN ?x
         = Z.of_nat (length (_ :: layout _ (gen_fields _ _ _ ?k)))
    |- gen_shaped _ _ _ _ =>
    exists x, k; reflexivity
  | Hh : GET_JD_DESCLEN ?x
         = Z.of_nat (length (_ :: layout _ (sign_fields _ _ _ ?f ?k ?m ?sc
                                              ?sd _)))
    |- sign_shaped _ _ _ _ _ =>
    exists x, f, k, m, sc, sd; reflexivity
  | Hh : GET_JD_DESCLEN ?x
         = Z.of_nat (length (_ :: layout _ (verify_fields _ _ _ ?f ?k ?m ?sc
                                              ?sd ?t _)))
    |- verify_shaped _ _ _ _ _ =>
    exists x, f, k, m, sc, sd, t; reflexivity
  end.

Ltac sub_leaf :=
  lazymatch goal with
  | |- None = Some _ -> _ => discriminate
  | |- Some _ = Some _ -> _ =>
    let H := fresh in
    intros H; injection H as <- <-;
    unfold submitted; cbn [events app flat_map];
    first [apply List.Forall_nil
          | apply List.Forall_cons;
            [split;
             [match goal with
              | Hh : GET_JD_DESCLEN _ = _ |- _ => exact Hh
              end
             | shaped]
            | apply List.Forall_nil]]
  end.

Lemma gen_keypair_submits (e : environment) (c : config) (key : dsa_keypair)
    (l_bits n_bits : Z) :
  forall res s',
    do_gen_keypair e c key l_bits n_bits init_state = Some (res, s') ->
    Forall (fun ws => header_ok ws
                      /\ gen_shaped c (l_bits / 8) (n_bits / 8) ws)
      (submitted s').
Proof.
  intros res s'.
  unfold do_gen_keypair, gen_keypair_run, exit_gen_keypair, do_keypair_free,
    get_keypair_domain_params.
  munfold. unfold TEE_SUCCESS.
  repeat (mcbn; sub_step e). all: mcbn. all: sub_leaf.
Qed.

Lemma sign_submits (e : environment) (c : config)
    (sdata : drvcrypt_sign_data dsa_keypair) (l_bytes n_bytes : Z) :
  forall res s',
    do_sign e c sdata l_bytes n_bytes init_state = Some (res, s') ->
    Forall (fun ws => header_ok ws
                      /\ sign_shaped c l_bytes n_bytes
                           (cr_length (message sdata)) ws)
      (submitted s').
Proof.
  intros res s'.
  unfold do_sign, sign_run, exit_sign, do_keypair_free, do_keypriv_conv.
  munfold. unfold TEE_SUCCESS.
  repeat (mcbn; sub_step e). all: mcbn. all: sub_leaf.
Qed.

Lemma verify_submits (e : environment) (c : config)
    (sdata : drvcrypt_sign_data dsa_public_key) (l_bytes n_bytes : Z) :
  forall res s',
    do_verify e c sdata l_bytes n_bytes init_state = Some (res, s') ->
    Forall (fun ws => header_ok ws
                      /\ verify_shaped c l_bytes n_bytes
                           (cr_length (message sdata)) ws)
      (submitted s').
Proof.
  intros res s'.
  unfold do_verify, verify_run, exit_verify, do_keypair_free, do_keypub_conv.
  munfold. unfold TEE_SUCCESS.
  repeat (mcbn; sub_step e). all: mcbn. all: sub_leaf.
Qed.

(** C5. For the three operations, building the descriptor in an area of the
    capacity the operation allocates (MAX_DESC_KEY_GEN, MAX_DESC_SIGN,
    MAX_DESC_VERIFY) succeeds, and after the header has been patched the
    length field of the header word equals the number of words of the
    descriptor, the header included; so does every descriptor that a run of
    do_gen_keypair, do_sign or do_verify hands to the job ring. *)
Theorem descriptor_header_length (c : config) :
  (forall desc l_bytes n_bytes k,
     capacity desc = MAX_DESC_KEY_GEN c ->
     exists d,
       gen_keypair_desc c desc l_bytes n_bytes k = Some d
       /\ header_len d = Some (Z.of_nat (length (words d))))
  /\ (forall desc l_bytes n_bytes flags k msg sign_c sign_d mlen,
        capacity desc = MAX_DESC_SIGN c ->
        exists d,
          sign_desc c desc l_bytes n_bytes flags k msg sign_c sign_d mlen
          = Some d
          /\ header_len d = Some (Z.of_nat (length (words d))))
  /\ (forall desc l_bytes n_bytes flags k msg sign_c sign_d tmp mlen,
        capacity desc = MAX_DESC_VERIFY c ->
        exists d,
          verify_desc c desc l_bytes n_bytes flags k msg sign_c sign_d tmp
            mlen = Some d
          /\ header_len d = Some (Z.of_nat (length (words d))))
  /\ (forall e key l_bits n_bits res s',
        do_gen_keypair e c key l_bits n_bits init_state = Some (res, s') ->
        Forall header_ok (submitted s'))
  /\ (forall e sdata l_bytes n_bytes res s',
        do_sign e c sdata l_bytes n_bytes init_state = Some (res, s') ->
        Forall header_ok (submitted s'))
  /\ (forall e sdata l_bytes n_bytes res s',
        do_verify e c sdata l_bytes n_bytes init_state = Some (res, s') ->
        Forall header_ok (submitted s')).
Proof.
  split; [|split; [|split; [|split; [|split]]]].
  - intros desc l_bytes n_bytes k Hc.
    destruct (gen_keypair_desc_built c desc l_bytes n_bytes k Hc)
      as (hdr & -> & Hlen).
    eexists; split; [reflexivity|]. apply header_len_built, Hlen.
  - intros desc l_bytes n_bytes flags k msg sign_c sign_d mlen Hc.
    destruct (sign_desc_built c desc l_bytes n_bytes flags k msg sign_c sign_d
                mlen Hc) as (hdr & -> & Hlen).
    eexists; split; [reflexivity|]. apply header_len_built, Hlen.
  - intros desc l_bytes n_bytes flags k msg sign_c sign_d tmp mlen Hc.
    destruct (verify_desc_built c desc l_bytes n_bytes flags k msg sign_c
                sign_d tmp mlen Hc) as (hdr & -> & Hlen).
    eexists; split; [reflexivity|]. apply header_len_built, Hlen.
  - intros e key l_bits n_bits res s' Hrun.
    eapply List.Forall_impl;
      [|exact (gen_keypair_submits e c key l_bits n_bits res s' Hrun)].
    intros ws [Hok _]. exact Hok.
  - intros e sdata l_bytes n_bytes res s' Hrun.
    eapply List.Forall_impl;
      [|exact (sign_submits e c sdata l_bytes n_bytes res s' Hrun)].
    intros ws [Hok _]. exact Hok.
  - intros e sdata l_bytes n_bytes res s' Hrun.
    eapply List.Forall_impl;
      [|exact (verify_submits e c sdata l_bytes n_bytes res s' Hrun)].
    intros ws [Hok _]. exact Hok.
Qed.

(** The 32-bit build with the sample buffers, and the sample run of
    do_sign, which submits one descriptor. *)
Lemma descriptor_header_length_witness :
  (exists d,
     gen_keypair_desc cfg32 (fresh_desc 9) 128 20 bufs_sample = Some d
     /\ header_len d = Some (Z.of_nat (length (words d))))
  /\ (exists res s',
        do_sign env_ok cfg32 sign_data 4 2 init_state = Some (res, s')
        /\ length (submitted s') = 1%nat
        /\ Forall header_ok (submitted s')).
Proof.
  destruct (descriptor_header_length cfg32)
    as (Hgen & _ & _ & _ & Hsign & _).
  split.
  - apply Hgen. reflexivity.
  - remember (do_sign env_ok cfg32 sign_data 4 2 init_state) as run eqn:Hdef.
    assert (Hrun : exists res s',
               run = Some (res, s') /\ length (submitted s') = 1%nat).
    { rewrite Hdef. vm_compute. eexists; eexists. split; reflexivity. }
    destruct Hrun as (res & s' & Hrun & Hone).
    exists res, s'. split; [exact Hrun|]. split; [exact Hone|].
    apply (Hsign env_ok sign_data 4 2 res s'). rewrite <- Hdef. exact Hrun.
Defined.

Import CaamGenRef CaamFieldRef.

(** The walk over the answers of the collaborators, with the descriptors
    built. *)
Ltac run_step e :=
  match goal with
  | H : (dmaobj_ret e ?k =? 0) = _ |- context [dmaobj_ret e ?k =? 0] =>
    rewrite H
  | H : (bin2bn_ret e ?k =? 0) = _ |- context [bin2bn_ret e ?k =? 0] =>
    rewrite H
  | |- context [alloc_ok e ?k] => destruct (alloc_ok e k) eqn:?
  | |- context [dmaobj_ret e ?k =? 0] => destruct (dmaobj_ret e k =? 0) eqn:?
  | |- context [bin2bn_ret e ?k =? 0] => destruct (bin2bn_ret e k =? 0) eqn:?
  | |- context [store_bytes ?b ?o ?x] => destruct (store_bytes b o x)
  | |- context [caam_status_eqb (prime_gen_status e) _] =>
    destruct (prime_gen_status e) eqn:?
  | |- context [caam_status_eqb (jr_retstatus e) _] =>
    destruct (jr_retstatus e) eqn:?
  | |- context [jr_jobstatus e =? 0] => destruct (jr_jobstatus e =? 0) eqn:?
  | |- context [gen_keypair_desc ?c ?d ?l ?n ?k] =>
    destruct (gen_keypair_desc_built c d l n k eq_refl) as (? & -> & _)
  | |- context [sign_desc ?c ?d ?l ?n ?f ?k ?m ?sc ?sd ?ml] =>
    destruct (sign_desc_built c d l n f k m sc sd ml eq_refl) as (? & -> & _)
  | |- context [verify_desc ?c ?d ?l ?n ?f ?k ?m ?sc ?sd ?t ?ml] =>
    destruct (verify_desc_built c d l n f k m sc sd t ml eq_refl)
      as (? & -> & _)
  | |- context [(?a =? 0) || (?b =? 0) || (?c =? 0)] =>
    destruct ((a =? 0) || (b =? 0) || (c =? 0)) eqn:?
  end.

(** The descriptor of the goal is the one of the run. *)
Ltac same_fields e :=
  unfold gen_run_fields, sign_run_fields, verify_run_fields, sgt_flags, area,
    gen_fields, sign_fields, verify_fields;
  kproj; cbn [cb_paddr sgt_paddr sgt_type];
  destruct (dmaobj_sgt e 5), (dmaobj_sgt e 6), (dmaobj_sgt e 7);
  reflexivity.

Ltac run_leaf e :=
  lazymatch goal with
  | |- None = Some _ -> _ => discriminate
  | |- Some _ = Some _ -> _ =>
    let H := fresh in
    intros H; injection H as <- <-;
    unfold submitted; cbn [events app flat_map];
    first [left; reflexivity | right; eexists; same_fields e]
  end.

Lemma gen_keypair_submits_fields (e : environment) (c : config)
    (key : dsa_keypair) (l_bits n_bits : Z) :
  forall res s',
    do_gen_keypair e c key l_bits n_bits init_state = Some (res, s') ->
    submitted s' = []
    \/ exists hdr,
         submitted s'
         = [hdr :: layout c (gen_run_fields e c (l_bits / 8) (n_bits / 8))].
Proof.
  intros res s'.
  unfold do_gen_keypair, gen_keypair_run, exit_gen_keypair, do_keypair_free,
    get_keypair_domain_params.
  munfold. unfold TEE_SUCCESS.
  repeat (mcbn; run_step e). all: mcbn. all: run_leaf e.
Qed.

Lemma sign_submits_fields (e : environment) (c : config)
    (sdata : drvcrypt_sign_data dsa_keypair) (l_bytes n_bytes : Z) :
  forall res s',
    do_sign e c sdata l_bytes n_bytes init_state = Some (res, s') ->
    submitted s' = []
    \/ exists hdr,
         submitted s'
         = [hdr :: layout c (sign_run_fields e c l_bytes n_bytes
                               (cr_length (message sdata)))].
Proof.
  intros res s'.
  unfold do_sign, sign_run, exit_sign, do_keypair_free, do_keypriv_conv.
  munfold. unfold TEE_SUCCESS.
  repeat (mcbn; run_step e). all: mcbn. all: run_leaf e.
Qed.

Lemma verify_submits_fields (e : environment) (c : config)
    (sdata : drvcrypt_sign_data dsa_public_key) (l_bytes n_bytes : Z) :
  forall res s',
    do_verify e c sdata l_bytes n_bytes init_state = Some (res, s') ->
    submitted s' = []
    \/ exists hdr,
         submitted s'
         = [hdr :: layout c (verify_run_fields e c l_bytes n_bytes
                               (cr_length (message sdata)))].
Proof.
  intros res s'.
  unfold do_verify, verify_run, exit_verify, do_keypair_free, do_keypub_conv.
  munfold. unfold TEE_SUCCESS.
  repeat (mcbn; run_step e). all: mcbn. all: run_leaf e.
Qed.

(** The run in which every request is served: one descriptor. *)
Ltac one_desc e :=
  mcbn; eexists; eexists; eexists; split; [reflexivity|];
  unfold submitted; cbn [events app flat_map]; same_fields e.

Lemma sign_submits_one (e : environment) (c : config)
    (sdata : drvcrypt_sign_data dsa_keypair) (l_bytes n_bytes : Z) :
  (forall k, alloc_ok e k = true) ->
  (forall k, dmaobj_ret e k = TEE_SUCCESS) ->
  keypair_fits (key sdata) l_bytes n_bytes ->
  exists res s' hdr,
    do_sign e c sdata l_bytes n_bytes init_state = Some (res, s')
    /\ submitted s'
       = [hdr :: layout c (sign_run_fields e c l_bytes n_bytes
                             (cr_length (message sdata)))].
Proof.
  intros Hall Hdma (Hg & Hp & Hq & Hx).
  unfold do_sign, sign_run, exit_sign, do_keypair_free, do_keypriv_conv.
  munfold. unfold TEE_SUCCESS in *.
  repeat (mcbn; try ok_step e Hall Hdma).
  destruct (jr_retstatus e); one_desc e.
Qed.

Lemma verify_submits_one (e : environment) (c : config)
    (sdata : drvcrypt_sign_data dsa_public_key) (l_bytes n_bytes : Z) :
  (forall k, alloc_ok e k = true) ->
  (forall k, dmaobj_ret e k = TEE_SUCCESS) ->
  public_key_fits (key sdata) l_bytes n_bytes ->
  exists res s' hdr,
    do_verify e c sdata l_bytes n_bytes init_state = Some (res, s')
    /\ submitted s'
       = [hdr :: layout c (verify_run_fields e c l_bytes n_bytes
                             (cr_length (message sdata)))].
Proof.
  intros Hall Hdma (Hg & Hp & Hq & Hy).
  unfold do_verify, verify_run, exit_verify, do_keypair_free, do_keypub_conv.
  munfold. unfold TEE_SUCCESS in *.
  repeat (mcbn; try ok_step e Hall Hdma).
  destruct (jr_retstatus e); destruct (jr_jobstatus e =? 0); one_desc e.
Qed.

(** The answers of the library and of the job ring in a run of
    do_gen_keypair in which every request is served. *)
Ltac gen_step e Hall :=
  first
    [ ok_step e Hall Hall
    | match goal with
      | |- context [bin2bn_ret e ?k =? 0] =>
        destruct (bin2bn_ret e k =? 0) eqn:?
      | |- context [caam_status_eqb (jr_retstatus e) _] =>
        destruct (jr_retstatus e) eqn:?
      end ].

Ltac gen_leaf e :=
  eexists; eexists; eexists; eexists; split; [reflexivity|];
  split;
  [ unfold submitted; cbn [events app flat_map]; same_fields e
  | intros Hjr Hr;
    repeat match goal with
           | H : (_ =? 0) = false |- _ => apply Z.eqb_neq in H
           end;
    first [discriminate Hjr
          | congruence
          | unfold device_scalar; kproj;
            cbn [dk_x dk_y cb_bytes cb_length]; split; reflexivity] ].

Lemma gen_keypair_submits_one (e : environment) (c : config)
    (key : dsa_keypair) (l_bits n_bits : Z) :
  (forall k, alloc_ok e k = true) ->
  (domain_present key -> domain_fits key (l_bits / 8) (n_bits / 8)) ->
  (domain_missing key -> prime_gen_status e = CAAM_NO_ERROR) ->
  exists r key' s' hdr,
    do_gen_keypair e c key l_bits n_bits init_state = Some ((r, key'), s')
    /\ submitted s'
       = [hdr :: layout c (gen_run_fields e c (l_bits / 8) (n_bits / 8))]
    /\ (jr_retstatus e = CAAM_NO_ERROR -> r = TEE_SUCCESS ->
        dk_x key' = device_scalar e 1 (n_bits / 8)
        /\ dk_y key' = device_scalar e 2 (l_bits / 8)).
Proof.
  intros Hall Hfit Hgen.
  destruct ((crypto_bignum_num_bytes (dk_q key) =? 0)
            || (crypto_bignum_num_bytes (dk_g key) =? 0)
            || (crypto_bignum_num_bytes (dk_p key) =? 0)) eqn:Hm.
  - assert (Hmiss : domain_missing key).
    { unfold domain_missing.
      apply orb_true_iff in Hm as [Hm | Hm];
        [apply orb_true_iff in Hm as [Hm | Hm]|];
        apply Z.eqb_eq in Hm; auto. }
    specialize (Hgen Hmiss).
    unfold do_gen_keypair, gen_keypair_run, exit_gen_keypair, do_keypair_free,
      get_keypair_domain_params.
    munfold. unfold TEE_SUCCESS in *.
    repeat (mcbn; rewrite ?Hm, ?Hgen; try gen_step e Hall).
    all: mcbn; gen_leaf e.
  - assert (Hpres : domain_present key).
    { unfold domain_present.
      apply orb_false_iff in Hm as [Hm Hp].
      apply orb_false_iff in Hm as [Hq Hg].
      apply Z.eqb_neq in Hp, Hq, Hg. auto. }
    destruct (Hfit Hpres) as (Hg & Hp & Hq).
    unfold do_gen_keypair, gen_keypair_run, exit_gen_keypair, do_keypair_free,
      get_keypair_domain_params.
    munfold. unfold TEE_SUCCESS in *.
    repeat (mcbn; rewrite ?Hm; try gen_step e Hall).
    all: mcbn; gen_leaf e.
Qed.

(** The areas of the key buffers. *)
Ltac area_leaf :=
  lazymatch goal with
  | |- None = Some _ -> _ => discriminate
  | |- Some _ = Some _ -> _ =>
    let H := fresh in
    intros H;
    first [discriminate H
          | injection H as <- <-; unfold in_area; kproj;
            cbn [cb_data cb_paddr]; repeat split; reflexivity]
  end.

Lemma keypriv_conv_areas (e : environment) (outkey : caam_dsa_keypair)
    (inkey : dsa_keypair) (l_bytes n_bytes : Z) (s : state) :
  forall k s',
    do_keypriv_conv e outkey inkey l_bytes n_bytes s
    = Some ((CAAM_NO_ERROR, k), s') ->
    in_area e (reqs s) (ck_g k)
    /\ in_area e (S (reqs s)) (ck_p k)
    /\ in_area e (S (S (reqs s))) (ck_q k)
    /\ in_area e (S (S (S (reqs s)))) (ck_x k).
Proof.
  intros k s'.
  unfold do_keypriv_conv. munfold.
  repeat (mcbn; run_step e). all: mcbn. all: area_leaf.
Qed.

Lemma keypub_conv_areas (e : environment) (outkey : caam_dsa_keypair)
    (inkey : dsa_public_key) (l_bytes n_bytes : Z) (s : state) :
  forall k s',
    do_keypub_conv e outkey inkey l_bytes n_bytes s
    = Some ((CAAM_NO_ERROR, k), s') ->
    in_area e (reqs s) (ck_g k)
    /\ in_area e (S (reqs s)) (ck_p k)
    /\ in_area e (S (S (reqs s))) (ck_q k)
    /\ in_area e (S (S (S (reqs s)))) (ck_y k).
Proof.
  intros k s'.
  unfold do_keypub_conv. munfold.
  repeat (mcbn; run_step e). all: mcbn. all: area_leaf.
Qed.

Lemma domain_params_areas (e : environment) (outkey : caam_dsa_keypair)
    (key : dsa_keypair) (l_bytes n_bytes : Z) (s : state) :
  forall k key' s',
    get_keypair_domain_params e outkey key l_bytes n_bytes s
    = Some ((TEE_SUCCESS, k, key'), s') ->
    in_area e (reqs s) (ck_q k)
    /\ in_area e (S (reqs s)) (ck_g k)
    /\ in_area e (S (S (reqs s))) (ck_p k).
Proof.
  intros k key' s'.
  unfold get_keypair_domain_params. munfold. unfold TEE_SUCCESS.
  repeat (mcbn; run_step e). all: mcbn. all: area_leaf.
Qed.

(** C6. After the header word, Generate holds size-flags, p-addr, q-addr,
    g-addr, x-addr, y-addr and the opcode; Sign holds size+SG-flags,
    p-addr, q-addr, g-addr, x-addr, msg-addr, sig1-addr, sig2-addr, msg-len
    and the opcode; Verify holds size+SG-flags, p-addr, q-addr, g-addr,
    y-addr, msg-addr, sig1-addr, sig2-addr, scratch-addr, msg-len and the
    opcode; in that order and nothing else.  A run of do_gen_keypair,
    do_sign or do_verify hands to the job ring no descriptor or exactly
    this one, its addresses being those of the areas the run obtained for
    p, q, g, x or y, the message, the signature, its second part and the
    scratch buffer, and it hands it over whenever every request is served
    and the scalars fit their widths.  The key buffers are the areas of the
    requests in the order in which do_keypriv_conv, do_keypub_conv and
    get_keypair_domain_params make them; x and y of a generated key are
    read from the areas the descriptor names as x-addr and y-addr. *)
Theorem descriptor_field_order (c : config) :
  (forall desc l_bytes n_bytes k,
     capacity desc = MAX_DESC_KEY_GEN c ->
     exists d hdr,
       gen_keypair_desc c desc l_bytes n_bytes k = Some d
       /\ words d
          = hdr :: layout c
              [FWord (Z.lor (PDB_DL_KEY_L_SIZE c l_bytes)
                            (PDB_DL_KEY_N_SIZE c n_bytes));
               FPtr (cb_paddr (ck_p k)); FPtr (cb_paddr (ck_q k));
               FPtr (cb_paddr (ck_g k)); FPtr (cb_paddr (ck_x k));
               FPtr (cb_paddr (ck_y k)); FWord (PK_KEYPAIR_GEN_DL c)])
  /\ (forall desc l_bytes n_bytes flags k msg sign_c sign_d mlen,
        capacity desc = MAX_DESC_SIGN c ->
        exists d hdr,
          sign_desc c desc l_bytes n_bytes flags k msg sign_c sign_d mlen
          = Some d
          /\ words d
             = hdr :: layout c
                 [FWord (Z.lor (Z.lor (PDB_DSA_SIGN_N c n_bytes)
                                      (PDB_DSA_SIGN_L c l_bytes)) flags);
                  FPtr (cb_paddr (ck_p k)); FPtr (cb_paddr (ck_q k));
                  FPtr (cb_paddr (ck_g k)); FPtr (cb_paddr (ck_x k));
                  FPtr (sgt_paddr msg); FPtr (sgt_paddr sign_c);
                  FPtr (sgt_paddr sign_d); FWord mlen;
                  FWord (DSA_SIGN_DL c)])
  /\ (forall desc l_bytes n_bytes flags k msg sign_c sign_d tmp mlen,
        capacity desc = MAX_DESC_VERIFY c ->
        exists d hdr,
          verify_desc c desc l_bytes n_bytes flags k msg sign_c sign_d tmp
            mlen = Some d
          /\ words d
             = hdr :: layout c
                 [FWord (Z.lor (Z.lor (PDB_DSA_VERIF_N c n_bytes)
                                      (PDB_DSA_VERIF_L c l_bytes)) flags);
                  FPtr (cb_paddr (ck_p k)); FPtr (cb_paddr (ck_q k));
                  FPtr (cb_paddr (ck_g k)); FPtr (cb_paddr (ck_y k));
                  FPtr (sgt_paddr msg); FPtr (sgt_paddr sign_c);
                  FPtr (sgt_paddr sign_d); FPtr (cb_paddr tmp); FWord mlen;
                  FWord (DSA_VERIFY_DL c)])
  /\ (forall e key l_bits n_bits,
        (forall res s',
           do_gen_keypair e c key l_bits n_bits init_state = Some (res, s') ->
           submitted s' = []
           \/ exists hdr,
                submitted s'
                = [hdr :: layout c
                     (gen_run_fields e c (l_bits / 8) (n_bits / 8))])
        /\ ((forall k, alloc_ok e k = true) ->
            (domain_present key ->
             domain_fits key (l_bits / 8) (n_bits / 8)) ->
            (domain_missing key -> prime_gen_status e = CAAM_NO_ERROR) ->
            exists r key' s' hdr,
              do_gen_keypair e c key l_bits n_bits init_state
              = Some ((r, key'), s')
              /\ submitted s'
                 = [hdr :: layout c
                      (gen_run_fields e c (l_bits / 8) (n_bits / 8))]
              /\ (jr_retstatus e = CAAM_NO_ERROR -> r = TEE_SUCCESS ->
                  dk_x key' = device_scalar e 1 (n_bits / 8)
                  /\ dk_y key' = device_scalar e 2 (l_bits / 8))))
  /\ (forall e sdata l_bytes n_bytes,
        (forall res s',
           do_sign e c sdata l_bytes n_bytes init_state = Some (res, s') ->
           submitted s' = []
           \/ exists hdr,
                submitted s'
                = [hdr :: layout c
                     (sign_run_fields e c l_bytes n_bytes
                        (cr_length (message sdata)))])
        /\ ((forall k, alloc_ok e k = true) ->
            (forall k, dmaobj_ret e k = TEE_SUCCESS) ->
            keypair_fits (key sdata) l_bytes n_bytes ->
            exists res s' hdr,
              do_sign e c sdata l_bytes n_bytes init_state = Some (res, s')
              /\ submitted s'
                 = [hdr :: layout c
                      (sign_run_fields e c l_bytes n_bytes
                         (cr_length (message sdata)))]))
  /\ (forall e sdata l_bytes n_bytes,
        (forall res s',
           do_verify e c sdata l_bytes n_bytes init_state = Some (res, s') ->
           submitted s' = []
           \/ exists hdr,
                submitted s'
                = [hdr :: layout c
                     (verify_run_fields e c l_bytes n_bytes
                        (cr_length (message sdata)))])
        /\ ((forall k, alloc_ok e k = true) ->
            (forall k, dmaobj_ret e k = TEE_SUCCESS) ->
            public_key_fits (key sdata) l_bytes n_bytes ->
            exists res s' hdr,
              do_verify e c sdata l_bytes n_bytes init_state = Some (res, s')
              /\ submitted s'
                 = [hdr :: layout c
                      (verify_run_fields e c l_bytes n_bytes
                         (cr_length (message sdata)))]))
  /\ (forall e outkey inkey l_bytes n_bytes s k s',
        do_keypriv_conv e outkey inkey l_bytes n_bytes s
        = Some ((CAAM_NO_ERROR, k), s') ->
        in_area e (reqs s) (ck_g k)
        /\ in_area e (S (reqs s)) (ck_p k)
        /\ in_area e (S (S (reqs s))) (ck_q k)
        /\ in_area e (S (S (S (reqs s)))) (ck_x k))
  /\ (forall e outkey inkey l_bytes n_bytes s k s',
        do_keypub_conv e outkey inkey l_bytes n_bytes s
        = Some ((CAAM_NO_ERROR, k), s') ->
        in_area e (reqs s) (ck_g k)
        /\ in_area e (S (reqs s)) (ck_p k)
        /\ in_area e (S (S (reqs s))) (ck_q k)
        /\ in_area e (S (S (S (reqs s)))) (ck_y k))
  /\ (forall e outkey key l_bytes n_bytes s k key' s',
        get_keypair_domain_params e outkey key l_bytes n_bytes s
        = Some ((TEE_SUCCESS, k, key'), s') ->
        in_area e (reqs s) (ck_q k)
        /\ in_area e (S (reqs s)) (ck_g k)
        /\ in_area e (S (S (reqs s))) (ck_p k)).
Proof.
  split; [|split; [|split; [|split; [|split; [|split; [|split; [|split]]]]]]].
  - intros desc l_bytes n_bytes k Hc.
    destruct (gen_keypair_desc_built c desc l_bytes n_bytes k Hc)
      as (hdr & -> & _).
    eexists; exists hdr; split; reflexivity.
  - intros desc l_bytes n_bytes flags k msg sign_c sign_d mlen Hc.
    destruct (sign_desc_built c desc l_bytes n_bytes flags k msg sign_c sign_d
                mlen Hc) as (hdr & -> & _).
    eexists; exists hdr; split; reflexivity.
  - intros desc l_bytes n_bytes flags k msg sign_c sign_d tmp mlen Hc.
    destruct (verify_desc_built c desc l_bytes n_bytes flags k msg sign_c
                sign_d tmp mlen Hc) as (hdr & -> & _).
    eexists; exists hdr; split; reflexivity.
  - intros e key l_bits n_bits. split.
    + exact (gen_keypair_submits_fields e c key l_bits n_bits).
    + exact (gen_keypair_submits_one e c key l_bits n_bits).
  - intros e sdata l_bytes n_bytes. split.
    + exact (sign_submits_fields e c sdata l_bytes n_bytes).
    + exact (sign_submits_one e c sdata l_bytes n_bytes).
  - intros e sdata l_bytes n_bytes. split.
    + exact (verify_submits_fields e c sdata l_bytes n_bytes).
    + exact (verify_submits_one e c sdata l_bytes n_bytes).
  - intros e outkey inkey l_bytes n_bytes s.
    exact (keypriv_conv_areas e outkey inkey l_bytes n_bytes s).
  - intros e outkey inkey l_bytes n_bytes s.
    exact (keypub_conv_areas e outkey inkey l_bytes n_bytes s).
  - intros e outkey key l_bytes n_bytes s.
    exact (domain_params_areas e outkey key l_bytes n_bytes s).
Qed.

(** The 32-bit build, collaborators that serve every request at the
    addresses 0x1000, 0x2000 and so on, and the sample keys: the words of
    the descriptor each of the three operations hands to the job ring. *)
Lemma descriptor_field_order_witness :
  (exists res s' hdr,
     do_gen_keypair env_ok cfg32 key_full 32 16 init_state = Some (res, s')
     /\ submitted s'
        = [[hdr; 0x202; 0x6000; 0x4000; 0x5000; 0x2000; 0x3000;
            0x86140000]])
  /\ (exists res s' hdr,
        do_sign env_ok cfg32 sign_data 4 2 init_state = Some (res, s')
        /\ submitted s'
           = [[hdr; 0x202; 0x3000; 0x4000; 0x2000; 0x5000; 0x6000; 0x7000;
               0x8000; 3; 0x86150000]])
  /\ (exists res s' hdr,
        do_verify env_ok cfg32 verify_data 4 2 init_state = Some (res, s')
        /\ submitted s'
           = [[hdr; 0x202; 0x3000; 0x4000; 0x2000; 0x5000; 0x6000; 0x7000;
               0x8000; 0x9000; 3; 0x86160000]]).
Proof.
  destruct (descriptor_field_order cfg32)
    as (_ & _ & _ & Hgen & Hsign & Hver & _).
  split; [|split].
  - destruct (Hgen env_ok key_full 32 16) as [_ Hone].
    destruct Hone as (r & key' & s' & hdr & Hrun & Hsub & _).
    + intros k. reflexivity.
    + intros _. unfold domain_fits. vm_compute.
      split; [|split]; discriminate.
    + intros _. reflexivity.
    + exists (r, key'), s', hdr. split; [exact Hrun|].
      rewrite Hsub. reflexivity.
  - destruct (Hsign env_ok sign_data 4 2) as [_ Hone].
    destruct Hone as (res & s' & hdr & Hrun & Hsub).
    + intros k. reflexivity.
    + intros k. reflexivity.
    + unfold keypair_fits. vm_compute.
      split; [|split; [|split]]; discriminate.
    + exists res, s', hdr. split; [exact Hrun|].
      rewrite Hsub. reflexivity.
  - destruct (Hver env_ok verify_data 4 2) as [_ Hone].
    destruct Hone as (res & s' & hdr & Hrun & Hsub).
    + intros k. reflexivity.
    + intros k. reflexivity.
    + unfold public_key_fits. vm_compute.
      split; [|split; [|split]]; discriminate.
    + exists res, s', hdr. split; [exact Hrun|].
      rewrite Hsub. reflexivity.
Defined.

End Submitted.

(** ** left_shift_buffer and dcp_udelay on memory *)

Module DcpMemFacts.

Import Mach MachFacts Bytes BytesFacts DcpRef ShiftFacts Dcp DcpMem.

Lemma load_store_eq (m : memory) (a v : Z) : load (store m a v) a = v.
Proof. unfold load, store. rewrite Z.eqb_refl. reflexivity. Qed.

Lemma load_store_ne (m : memory) (a b v : Z) :
  b <> a -> load (store m a v) b = load m b.
Proof.
  intros H. unfold load, store.
  destruct (b =? a) eqn:E; [apply Z.eqb_eq in E; contradiction | reflexivity].
Qed.

(** Bit 7 of a byte that was shifted and took a carry is bit 6 of the byte
    before the shift. *)
Lemma top_bit_shifted (b c : Z) :
  byte_ok b -> 0 <= c <= 1 -> ((2 * b) mod 256 + c) / 128 = (b / 64) mod 2.
Proof.
  intros Hb Hc.
  assert (Hc' : c = 0 \/ c = 1) by lia.
  destruct Hc' as [-> | ->]; apply Z.eqb_eq.
  - apply (byte_cases
             (fun b => ((2 * b) mod 256 + 0) / 128 =? (b / 64) mod 2));
      [vm_compute; reflexivity | exact Hb].
  - apply (byte_cases
             (fun b => ((2 * b) mod 256 + 1) / 128 =? (b / 64) mod 2));
      [vm_compute; reflexivity | exact Hb].
Qed.

Lemma shifted_byte_ok (b c : Z) :
  byte_ok b -> 0 <= c <= 1 -> byte_ok ((2 * b) mod 256 + c).
Proof.
  intros Hb Hc. unfold byte_ok in *.
  assert (Hev : (2 * b) mod 256 = 2 * (b mod 128)).
  { rewrite (Z.mul_comm 2 b). change 256 with (128 * 2).
    rewrite Zmult_mod_distr_r. ring. }
  pose proof (Z.mod_pos_bound b 128 ltac:(lia)). lia.
Qed.

Section LoopAt.

Variables (w : Z) (input result n : Z).
Hypothesis Hw : n <= 2 ^ w.
Hypothesis Hcnt : n < 2 ^ 32.
Hypothesis Hsafe : input <= result \/ result + n <= input.

Lemma left_shift_loop_at_inv (r : nat) :
  forall (fuel : nat) (m : memory) (c : Z),
    (r <= fuel)%nat -> Z.of_nat r <= n -> 0 <= c <= 1 ->
    (forall k, 0 <= k < Z.of_nat r -> byte_ok (load m (input + k))) ->
    exists m',
      left_shift_loop_at fuel w m input result n (n - Z.of_nat r) c = Some m'
      /\ (forall a, ~ (result <= a < result + Z.of_nat r) ->
            load m' a = load m a)
      /\ (forall k, 0 <= k < Z.of_nat r ->
            load m' (result + k)
            = (2 * load m (input + k)) mod 256 + carry_in m input result r c k).
Proof.
  induction r as [|r IH]; intros fuel m c Hf Hr Hc Hok.
  - exists m. split; [|split].
    + replace (n - Z.of_nat 0) with n by lia.
      destruct fuel; cbn [left_shift_loop_at]; rewrite Z.ltb_irrefl;
        reflexivity.
    + reflexivity.
    + intros k Hk. lia.
  - destruct fuel as [|fuel]; [lia|]. cbn [left_shift_loop_at].
    assert (Hlt : (n - Z.of_nat (S r) <? n) = true) by (apply Z.ltb_lt; lia).
    rewrite Hlt.
    replace (wrap w (n - 1 - (n - Z.of_nat (S r)))) with (Z.of_nat r)
      by (rewrite wrap_small by lia; lia).
    replace (wrap 32 (n - Z.of_nat (S r) + 1)) with (n - Z.of_nat r)
      by (rewrite wrap_small by lia; lia).
    set (b := load m (input + Z.of_nat r)).
    assert (Hb : byte_ok b) by (apply Hok; lia).
    set (v := (2 * b) mod 256 + c).
    set (m1 := store m (result + Z.of_nat r) v).
    (* the two stores of the body leave [v] at [result + r] *)
    assert (Hm1 : forall a,
               load (if c =? 0
                     then store m (result + Z.of_nat r)
                            (Z.land (Z.shiftl b 1) 0xFF)
                     else store
                            (store m (result + Z.of_nat r)
                               (Z.land (Z.shiftl b 1) 0xFF))
                            (result + Z.of_nat r)
                            (Z.lor
                               (load
                                  (store m (result + Z.of_nat r)
                                     (Z.land (Z.shiftl b 1) 0xFF))
                                  (result + Z.of_nat r)) c)) a
               = load m1 a).
    { intros a. rewrite load_store_eq, shifted_byte by exact Hb.
      pose proof (carry_or b c Hb Hc) as Hor.
      subst m1 v. unfold load, store.
      destruct (c =? 0) eqn:Ec.
      - destruct (a =? result + Z.of_nat r); [exact Hor | reflexivity].
      - destruct (a =? result + Z.of_nat r); [exact Hor | reflexivity]. }
    match goal with
    | |- context [left_shift_loop_at fuel w ?mm _ _ _ _ _] =>
      assert (Hext : forall a, load mm a = load m1 a) by exact Hm1;
      set (m2 := mm) in *
    end.
    clearbody m2.
    assert (Hmsb : Z.shiftr (Z.land (load m2 (input + Z.of_nat r)) (BIT 7)) 7
                   = if input =? result then (b / 64) mod 2 else b / 128).
    { rewrite Hext. subst m1.
      destruct (input =? result) eqn:E.
      - apply Z.eqb_eq in E. rewrite E, load_store_eq.
        rewrite top_bit_byte by (apply shifted_byte_ok; assumption).
        apply top_bit_shifted; assumption.
      - apply Z.eqb_neq in E. rewrite load_store_ne by lia.
        fold b. apply top_bit_byte, Hb. }
    rewrite Hmsb.
    set (c' := if input =? result then (b / 64) mod 2 else b / 128).
    assert (Hc' : 0 <= c' <= 1).
    { subst c'. unfold byte_ok in Hb. destruct (input =? result).
      - pose proof (Z.mod_pos_bound (b / 64) 2 ltac:(lia)). lia.
      - split; [apply Z.div_pos; lia|].
        apply Z.lt_succ_r, Z.div_lt_upper_bound; lia. }
    assert (Hin1 : forall k, 0 <= k < Z.of_nat r ->
                     load m2 (input + k) = load m (input + k)).
    { intros k Hk. rewrite Hext. subst m1. apply load_store_ne. lia. }
    destruct (IH fuel m2 c' ltac:(lia) ltac:(lia) Hc') as (m' & Hrun & Hfr & Hval).
    { intros k Hk. rewrite Hin1 by exact Hk. apply Hok. lia. }
    exists m'. split; [exact Hrun|]. split.
    + intros a Ha. rewrite Hfr by lia. rewrite Hext. subst m1.
      apply load_store_ne. lia.
    + intros k Hk.
      destruct (Z.eq_dec k (Z.of_nat r)) as [-> | Hne].
      * rewrite Hfr by lia. rewrite Hext. subst m1.
        rewrite load_store_eq. subst v. unfold carry_in.
        replace (Z.of_nat r =? Z.of_nat (S r) - 1) with true
          by (symmetry; apply Z.eqb_eq; lia).
        reflexivity.
      * rewrite Hval by lia. rewrite Hin1 by lia. f_equal.
        unfold carry_in.
        replace (k =? Z.of_nat (S r) - 1) with false
          by (symmetry; apply Z.eqb_neq; lia).
        destruct (k =? Z.of_nat r - 1) eqn:Ek.
        -- apply Z.eqb_eq in Ek. subst c' b.
           replace (input + k + 1) with (input + Z.of_nat r) by lia.
           reflexivity.
        -- apply Z.eqb_neq in Ek.
           replace (input + k + 1) with (input + (k + 1)) by lia.
           rewrite Hin1 by lia. reflexivity.
Qed.

End LoopAt.

Lemma bytes_at_lookup (m : memory) (a : Z) (n i : nat) :
  (i < n)%nat -> bytes_at m a n !! i = Some (load m (a + Z.of_nat i)).
Proof.
  intros Hi. unfold bytes_at. rewrite list_lookup_fmap.
  rewrite lookup_seq_lt by exact Hi. reflexivity.
Qed.

Lemma bytes_at_length (m : memory) (a : Z) (n : nat) :
  length (bytes_at m a n) = n.
Proof. unfold bytes_at. rewrite length_map, length_seq. reflexivity. Qed.

Lemma bytes_at_ok (m : memory) (a : Z) (n : nat) :
  (forall k, 0 <= k < Z.of_nat n -> byte_ok (load m (a + k))) ->
  bytes_ok (bytes_at m a n).
Proof.
  intros H. unfold bytes_ok, bytes_at. apply List.Forall_forall.
  intros x Hx. apply in_map_iff in Hx as (k & <- & Hk).
  apply in_seq in Hk. apply H. lia.
Qed.

(** Byte [i] of a shifted byte string. *)
Lemma shift_bytes_lookup (l : list Z) :
  bytes_ok l ->
  forall (i : nat) (b : Z),
    l !! i = Some b ->
    shift_bytes l !! i
    = Some ((2 * b) mod 256
            + match l !! S i with Some b' => b' / 128 | None => 0 end).
Proof.
  induction 1 as [|x tl Hx Htl IH]; intros i b Hi; [discriminate|].
  destruct i as [|i].
  - cbn in Hi. injection Hi as ->. cbn [shift_bytes lookup list_lookup].
    rewrite shifted_byte by exact Hb || exact Hx.
    rewrite carry_or by (auto using top_bit_range).
    f_equal. f_equal.
    destruct Htl as [|y tl' Hy _]; cbn [top_bit lookup list_lookup];
      [reflexivity | apply top_bit_byte, Hy].
  - cbn [shift_bytes lookup list_lookup] in *. apply IH, Hi.
Qed.

(** X1. On a byte-addressed memory, with fewer than 2^32 bytes to shift
    and result starting above input or at least n bytes below it,
    left_shift_buffer returns with the n bytes at result holding the
    bytes that were at input shifted left by one bit, that is the
    big-endian value (2 * value(input)) mod 2^(8n), and no byte outside
    the n bytes at result is changed.  The ranges may overlap when result
    starts above input. *)
Theorem left_shift_buffer_at_doubles (size_bits : Z) (m : memory)
    (input result buffer_size : Z) (fuel : nat) :
  size_bits = 32 \/ size_bits = 64 ->
  0 <= buffer_size < 2 ^ 32 ->
  (forall k, 0 <= k < buffer_size -> byte_ok (load m (input + k))) ->
  input < result \/ result + buffer_size <= input ->
  (Z.to_nat buffer_size <= fuel)%nat ->
  exists m',
    left_shift_buffer_at fuel size_bits m input result buffer_size = Some m'
    /\ bytes_at m' result (Z.to_nat buffer_size)
       = shift_bytes (bytes_at m input (Z.to_nat buffer_size))
    /\ be_value (bytes_at m' result (Z.to_nat buffer_size))
       = (2 * be_value (bytes_at m input (Z.to_nat buffer_size)))
         mod 2 ^ (8 * buffer_size)
    /\ (forall a, ~ (result <= a < result + buffer_size) ->
          load m' a = load m a).
Proof.
  intros Hw Hn Hok Hsafe Hfuel.
  set (N := Z.to_nat buffer_size).
  assert (HN : Z.of_nat N = buffer_size) by (subst N; lia).
  assert (Hsz : buffer_size <= 2 ^ size_bits) by (destruct Hw as [-> | ->]; lia).
  destruct (left_shift_loop_at_inv size_bits input result buffer_size Hsz
              ltac:(lia) ltac:(lia) N fuel m 0 Hfuel ltac:(lia) ltac:(lia))
    as (m' & Hrun & Hfr & Hval).
  { intros k Hk. apply Hok. lia. }
  rewrite HN in Hrun, Hfr. rewrite Z.sub_diag in Hrun.
  assert (Hinok : bytes_ok (bytes_at m input N)).
  { apply bytes_at_ok. intros k Hk. apply Hok. lia. }
  assert (Hlist : bytes_at m' result N = shift_bytes (bytes_at m input N)).
  { apply list_eq. intros i.
    destruct (Nat.lt_ge_cases i N) as [Hi | Hi].
    - rewrite bytes_at_lookup by exact Hi.
      rewrite (shift_bytes_lookup _ Hinok i (load m (input + Z.of_nat i)))
        by (apply bytes_at_lookup, Hi).
      rewrite Hval by lia. f_equal. f_equal.
      unfold carry_in.
      assert (Hne : (input =? result) = false) by (apply Z.eqb_neq; lia).
      rewrite Hne.
      destruct (Z.of_nat i =? Z.of_nat N - 1) eqn:E.
      + apply Z.eqb_eq in E.
        rewrite lookup_ge_None_2 by (rewrite bytes_at_length; lia).
        reflexivity.
      + apply Z.eqb_neq in E.
        rewrite bytes_at_lookup by lia.
        replace (input + Z.of_nat (S i)) with (input + Z.of_nat i + 1) by lia.
        reflexivity.
    - rewrite !lookup_ge_None_2;
        rewrite ?shift_bytes_length, ?bytes_at_length; auto. }
  exists m'. split; [exact Hrun|]. split; [exact Hlist|]. split; [|exact Hfr].
  rewrite Hlist, shift_bytes_value by exact Hinok.
  rewrite bytes_at_length, HN, Z.pow_mul_r by lia. reflexivity.
Qed.

Lemma left_shift_buffer_at_doubles_witness :
  exists m',
    left_shift_buffer_at 3 32 (mem_of [0x81; 0x80; 0x01; 0; 0; 0]) 0 3 3
    = Some m'
    /\ bytes_at m' 3 3 = [0x03; 0x00; 0x02]
    /\ bytes_at m' 0 3 = [0x81; 0x80; 0x01].
Proof.
  destruct (left_shift_buffer_at_doubles 32
              (mem_of [0x81; 0x80; 0x01; 0; 0; 0]) 0 3 3 3)
    as (m' & Hrun & Hlist & _ & Hfr).
  - left; reflexivity.
  - lia.
  - intros k Hk. assert (Hc : k = 0 \/ k = 1 \/ k = 2) by lia.
    destruct Hc as [-> | [-> | ->]]; unfold byte_ok; vm_compute; split; congruence.
  - left. lia.
  - vm_compute. lia.
  - exists m'. split; [exact Hrun|]. split; [exact Hlist|].
    unfold bytes_at. cbn [map seq]. rewrite !Hfr by lia. reflexivity.
Defined.

(** X2. Called with result equal to input, left_shift_buffer reads each
    carry from the byte it has just overwritten: byte k becomes twice
    itself modulo 256 plus bit 6, not bit 7, of the byte that followed it,
    and nothing outside the buffer changes.  Whenever a byte after the
    first has bit 7 different from bit 6 the buffer does not hold the
    doubled value. *)
Theorem left_shift_buffer_at_in_place (size_bits : Z) (m : memory)
    (buf buffer_size : Z) (fuel : nat) :
  size_bits = 32 \/ size_bits = 64 ->
  0 <= buffer_size < 2 ^ 32 ->
  (forall k, 0 <= k < buffer_size -> byte_ok (load m (buf + k))) ->
  (Z.to_nat buffer_size <= fuel)%nat ->
  exists m',
    left_shift_buffer_at fuel size_bits m buf buf buffer_size = Some m'
    /\ (forall k, 0 <= k < buffer_size ->
          load m' (buf + k)
          = (2 * load m (buf + k)) mod 256
            + (if k =? buffer_size - 1 then 0
               else (load m (buf + k + 1) / 64) mod 2))
    /\ (forall a, ~ (buf <= a < buf + buffer_size) -> load m' a = load m a)
    /\ (forall k, 0 <= k -> k + 1 < buffer_size ->
          load m (buf + k + 1) / 128 <> (load m (buf + k + 1) / 64) mod 2 ->
          bytes_at m' buf (Z.to_nat buffer_size)
          <> shift_bytes (bytes_at m buf (Z.to_nat buffer_size))).
Proof.
  intros Hw Hn Hok Hfuel.
  set (N := Z.to_nat buffer_size).
  assert (HN : Z.of_nat N = buffer_size) by (subst N; lia).
  assert (Hsz : buffer_size <= 2 ^ size_bits) by (destruct Hw as [-> | ->]; lia).
  destruct (left_shift_loop_at_inv size_bits buf buf buffer_size Hsz
              ltac:(lia) ltac:(lia) N fuel m 0 Hfuel ltac:(lia) ltac:(lia))
    as (m' & Hrun & Hfr & Hval).
  { intros k Hk. apply Hok. lia. }
  rewrite HN in Hrun, Hfr. rewrite Z.sub_diag in Hrun.
  assert (Hpt : forall k, 0 <= k < buffer_size ->
            load m' (buf + k)
            = (2 * load m (buf + k)) mod 256
              + (if k =? buffer_size - 1 then 0
                 else (load m (buf + k + 1) / 64) mod 2)).
  { intros k Hk. rewrite Hval by lia. unfold carry_in.
    rewrite HN, Z.eqb_refl. reflexivity. }
  exists m'. split; [exact Hrun|]. split; [exact Hpt|]. split; [exact Hfr|].
  intros k Hk0 Hk1 Hdiff Heq.
  assert (Hinok : bytes_ok (bytes_at m buf N)).
  { apply bytes_at_ok. intros j Hj. apply Hok. lia. }
  assert (Hi : (Z.to_nat k < N)%nat) by lia.
  pose proof (bytes_at_lookup m' buf N (Z.to_nat k) Hi) as H1.
  rewrite Heq in H1.
  rewrite (shift_bytes_lookup _ Hinok (Z.to_nat k) (load m (buf + k))) in H1
    by (rewrite bytes_at_lookup by exact Hi; rewrite Z2Nat.id by lia;
        reflexivity).
  rewrite bytes_at_lookup in H1 by lia.
  rewrite Z2Nat.id in H1 by lia. rewrite Hpt in H1 by lia.
  injection H1 as H1.
  replace (k =? buffer_size - 1) with false in H1
    by (symmetry; apply Z.eqb_neq; lia).
  replace (buf + Z.of_nat (S (Z.to_nat k))) with (buf + k + 1) in H1 by lia.
  lia.
Qed.

Lemma left_shift_buffer_at_in_place_witness :
  exists m',
    left_shift_buffer_at 2 32 (mem_of [0x00; 0x80]) 0 0 2 = Some m'
    /\ bytes_at m' 0 2 = [0x00; 0x00]
    /\ shift_bytes (bytes_at (mem_of [0x00; 0x80]) 0 2) = [0x01; 0x00].
Proof.
  destruct (left_shift_buffer_at_in_place 32 (mem_of [0x00; 0x80]) 0 2 2)
    as (m' & Hrun & Hpt & _ & _).
  - left; reflexivity.
  - lia.
  - intros k Hk. assert (Hc : k = 0 \/ k = 1) by lia.
    destruct Hc as [-> | ->]; unfold byte_ok; vm_compute; split; congruence.
  - vm_compute. lia.
  - exists m'. split; [exact Hrun|]. split; [|reflexivity].
    unfold bytes_at. cbn [map seq].
    change (0 + Z.of_nat 0) with (0 + 0). change (0 + Z.of_nat 1) with (0 + 1).
    rewrite !Hpt by lia. reflexivity.
Defined.

Lemma udelay_loop_count (n : nat) :
  forall (fuel : nat) (barriers : Z),
    (n <= fuel)%nat -> Z.of_nat n < 2 ^ 32 ->
    udelay_loop fuel (Z.of_nat n) barriers
    = Some (2 ^ 32 - 1, barriers + Z.of_nat n).
Proof.
  induction n as [|n IH]; intros fuel barriers Hf Hn.
  - destruct fuel; cbn [udelay_loop]; cbn [Z.of_nat Z.eqb];
      rewrite Z.add_0_r; reflexivity.
  - destruct fuel as [|fuel]; [lia|]. cbn [udelay_loop].
    replace (Z.of_nat (S n) =? 0) with false
      by (symmetry; apply Z.eqb_neq; lia).
    replace (wrap 32 (Z.of_nat (S n) - 1)) with (Z.of_nat n)
      by (rewrite wrap_small by lia; lia).
    rewrite IH by lia. f_equal. f_equal. lia.
Qed.

(** X3. dcp_udelay(time) returns after executing the two barriers
    (500 * time) mod 2^32 times, leaving its counter at 0xFFFFFFFF: 500
    times per unit up to time = 8589934, and fewer than 500 * time once
    the 32-bit product wraps. *)
Theorem dcp_udelay_count (time : Z) (fuel : nat) :
  0 <= time < 2 ^ 32 ->
  (Z.to_nat ((time * 500) mod 2 ^ 32) <= fuel)%nat ->
  exists barriers,
    dcp_udelay fuel time = Some (2 ^ 32 - 1, barriers)
    /\ barriers = (time * 500) mod 2 ^ 32
    /\ (time <= 8589934 -> barriers = 500 * time)
    /\ (8589934 < time -> barriers < 500 * time).
Proof.
  intros Ht Hf. unfold dcp_udelay. unfold wrap at 1.
  pose proof (Z.mod_pos_bound (time * 500) (2 ^ 32) ltac:(lia)) as Hm.
  set (c := (time * 500) mod 2 ^ 32) in *.
  exists c. split; [|split; [reflexivity|split]].
  - rewrite <- (Z2Nat.id c) at 1 by lia.
    rewrite udelay_loop_count by lia. f_equal. f_equal. lia.
  - intros Hle. subst c. rewrite Z.mod_small by lia. lia.
  - intros Hgt. subst c.
    pose proof (Z.mod_le (time * 500) (2 ^ 32) ltac:(lia) ltac:(lia)).
    assert (2 ^ 32 <= time * 500) by lia.
    pose proof (Z.div_mod (time * 500) (2 ^ 32) ltac:(lia)) as Hd.
    assert (1 <= time * 500 / 2 ^ 32) by (apply Z.div_le_lower_bound; lia).
    lia.
Qed.

Lemma dcp_udelay_count_witness :
  dcp_udelay 1500 3 = Some (2 ^ 32 - 1, 1500).
Proof.
  destruct (dcp_udelay_count 3 1500) as (b & Hrun & Hb & _).
  - lia.
  - vm_compute. lia.
  - rewrite Hrun, Hb. reflexivity.
Defined.

End DcpMemFacts.

(** ** The areas of dcp_alloc_memalign *)

Module DcpHeap.

Import Mach MachFacts DcpRef Dcp DcpHeapRef DcpAlloc.

Lemma free_fresh (h : heap) (p len : Z) (hs : list (Z * mem_hdr)) :
  (forall len', ~ In (p, len') (areas h)) ->
  areas (free {| areas := (p, len) :: areas h; headers := hs |} p) = areas h.
Proof.
  intros Hfresh. unfold free. cbn [areas List.filter].
  rewrite Z.eqb_refl. cbn [negb].
  induction (areas h) as [|[b l] tl IH]; [reflexivity|].
  cbn [List.filter].
  destruct (b =? p) eqn:E.
  - apply Z.eqb_eq in E. subst b. exfalso. apply (Hfresh l). left. reflexivity.
  - cbn [negb]. f_equal. apply IH. intros len' Hin. apply (Hfresh len').
    right. exact Hin.
Qed.

(** What [dcp_alloc_memalign] returns: NULL with the heap as it was, or the
    address it computed from a new area, with the header stored just below
    that address. *)
Lemma dcp_alloc_memalign_cases (e : environment) (h : heap) (size : Z) :
  dcp_alloc_memalign e h size = (0, h)
  \/ exists ptr len d,
       dcp_alloc_memalign e h size
       = (d, {| areas := (ptr, len) :: areas h;
                headers := (OF_MEM_HDR e d, {| addr := ptr; size := len |})
                           :: headers h |})
       /\ ptr = calloc e len /\ ptr <> 0
       /\ d = ROUNDUP (size_bits e) (wrap (size_bits e) (ptr + MEM_HDR_SIZE e))
               (read_cacheline_size e).
Proof.
  unfold dcp_alloc_memalign.
  destruct (ADD_OVERFLOW (size_bits e) size (MEM_HDR_SIZE e)) as [o1 a1].
  destruct o1; [left; reflexivity|].
  destruct (if size =? read_cacheline_size e
            then ADD_OVERFLOW (size_bits e) a1 (read_cacheline_size e)
            else (false, a1)) as [o2 a2].
  destruct o2; [left; reflexivity|].
  destruct (ADD_OVERFLOW (size_bits e) (read_cacheline_size e)
              (ROUNDUP (size_bits e) a2 (read_cacheline_size e))) as [o3 a3].
  destruct o3; [left; reflexivity|].
  destruct (calloc e a3 =? 0) eqn:E; [left; reflexivity|].
  right. apply Z.eqb_neq in E.
  do 3 eexists. split; [reflexivity|]. split; [reflexivity|].
  split; [exact E | reflexivity].
Qed.

(** The address computed from an area that leaves room for a header and a
    cache line below the top of the address space is not NULL. *)
Lemma ret_addr_pos (e : environment) (ptr : Z) :
  0 < ptr ->
  ptr + MEM_HDR_SIZE e + read_cacheline_size e <= 2 ^ size_bits e ->
  ptr + MEM_HDR_SIZE e
  <= ROUNDUP (size_bits e) (wrap (size_bits e) (ptr + MEM_HDR_SIZE e))
       (read_cacheline_size e)
  /\ ROUNDUP (size_bits e) (wrap (size_bits e) (ptr + MEM_HDR_SIZE e))
       (read_cacheline_size e) mod read_cacheline_size e = 0.
Proof.
  intros Hp Hfit.
  destruct (cacheline_pow2 e) as (k & Hk & Hcl). rewrite Hcl in *.
  assert (Hpk : 4 <= 2 ^ k).
  { change 4 with (2 ^ 2). apply Z.pow_le_mono_r; lia. }
  assert (Hw : 32 <= size_bits e /\ 8 <= MEM_HDR_SIZE e <= 16)
    by (destruct (size_bits_cases e) as [[-> ->] | [-> ->]]; lia).
  destruct Hw as [Hw Hhdr].
  rewrite wrap_small by lia.
  destruct (ROUNDUP_bounds (size_bits e) k (ptr + MEM_HDR_SIZE e)
              ltac:(lia) ltac:(lia) ltac:(lia)) as [HD HDm].
  split; [lia | exact HDm].
Qed.

Lemma dcp_free_alloc (e : environment) (h : heap) (ptr len d : Z) :
  d <> 0 ->
  (forall len', ~ In (ptr, len') (areas h)) ->
  areas (dcp_free e
           {| areas := (ptr, len) :: areas h;
              headers := (OF_MEM_HDR e d, {| addr := ptr; size := len |})
                         :: headers h |} d)
  = areas h.
Proof.
  intros Hd Hfresh. unfold dcp_free, dcp_free_memalign.
  replace (d =? 0) with false by (symmetry; apply Z.eqb_neq; exact Hd).
  unfold lookup_hdr. cbn [headers List.find]. rewrite Z.eqb_refl.
  cbn [fmap option_fmap option_map snd addr].
  apply free_fresh, Hfresh.
Qed.

(** X4. After a successful dcp_calloc_align_buf the heap holds one more
    area, and dcp_free of the buffer's data pointer finds the header the
    allocation stored and gives back exactly that area: the areas of the
    heap are those from before the allocation.  The allocator is taken to
    hand out a start address that no area of the heap has. *)
Theorem dcp_calloc_free_round_trip (e : environment) (h h1 : heap)
    (b0 b : align_buf) (size : Z) :
  calloc_fresh e h ->
  dcp_calloc_align_buf e h (Some b0) size = (TEE_SUCCESS, Some b, h1) ->
  (exists ptr len, areas h1 = (ptr, len) :: areas h /\ ptr = calloc e len)
  /\ areas (dcp_free e h1 (data b)) = areas h.
Proof.
  intros Hfresh. unfold dcp_calloc_align_buf.
  destruct (dcp_alloc_memalign_cases e h size)
    as [-> | (ptr & len & d & -> & Hptr & Hne & Hd)].
  - cbn [Z.eqb]. discriminate.
  - destruct (d =? 0) eqn:Ed; [discriminate|].
    destruct (virt_to_phys e d =? 0); [discriminate|].
    intros H. injection H as <- <-. cbn [data areas].
    split; [exists ptr, len; auto|].
    apply Z.eqb_neq in Ed.
    apply dcp_free_alloc; [exact Ed|].
    intros len'. subst ptr. apply Hfresh.
Qed.

Lemma dcp_calloc_free_round_trip_witness :
  exists b h1,
    dcp_calloc_align_buf env32 empty_heap (Some buf0) 100
    = (TEE_SUCCESS, Some b, h1)
    /\ areas h1 = [(0x20000008, 192)]
    /\ areas (dcp_free env32 h1 (data b)) = [].
Proof.
  assert (Hrun : exists b h1,
             dcp_calloc_align_buf env32 empty_heap (Some buf0) 100
             = (TEE_SUCCESS, Some b, h1)
             /\ areas h1 = [(0x20000008, 192)]).
  { eexists; eexists. split; vm_compute; reflexivity. }
  destruct Hrun as (b & h1 & Hrun & Hareas).
  exists b, h1. split; [exact Hrun|]. split; [exact Hareas|].
  apply (dcp_calloc_free_round_trip env32 empty_heap h1 buf0 b 100).
  - intros n len Hin. exact Hin.
  - exact Hrun.
Defined.

(** X5. With an allocator that leaves room for a header and a cache line
    below the top of the address space, every return of
    dcp_calloc_align_buf other than TEE_SUCCESS leaves no area held: the
    areas of the heap are those from before the call.  When the area was
    obtained and the address translation fails, the call returns
    TEE_ERROR_OUT_OF_MEMORY after giving the area back, and the caller's
    structure keeps the address of the released area in data, with paddr
    zero and size as it was. *)
Theorem dcp_calloc_align_buf_failure (e : environment) (h : heap)
    (size : Z) :
  calloc_fresh e h ->
  calloc_low e ->
  (forall buf r b' h',
     dcp_calloc_align_buf e h buf size = (r, b', h') ->
     r <> TEE_SUCCESS -> areas h' = areas h)
  /\ (forall b0 d h1,
        dcp_alloc_memalign e h size = (d, h1) ->
        d <> 0 -> virt_to_phys e d = 0 ->
        exists h',
          dcp_calloc_align_buf e h (Some b0) size
          = (TEE_ERROR_OUT_OF_MEMORY,
             Some {| data := d; buf_size := buf_size b0; paddr := 0 |}, h')
          /\ areas h1 <> areas h
          /\ areas h' = areas h).
Proof.
  intros Hfresh Hlow. split.
  - intros buf r b' h'. unfold dcp_calloc_align_buf.
    destruct buf as [b0|]; [|intros H; injection H as <- <- <-; reflexivity].
    destruct (dcp_alloc_memalign_cases e h size)
      as [-> | (ptr & len & d & -> & Hptr & Hne & Hd)].
    + cbn [Z.eqb]. intros H; injection H as <- <- <-. reflexivity.
    + assert (Hd0 : d <> 0).
      { destruct (Hlow len) as [H0 | [Hpos Hfit]]; [congruence|].
        rewrite <- Hptr in Hpos, Hfit.
        destruct (ret_addr_pos e ptr Hpos Hfit) as [Hge _].
        rewrite <- Hd in Hge.
        destruct (size_bits_cases e) as [[_ HH] | [_ HH]]; lia. }
      replace (d =? 0) with false by (symmetry; apply Z.eqb_neq; exact Hd0).
      destruct (virt_to_phys e d =? 0).
      * intros H _. injection H as <- <- <-.
        apply dcp_free_alloc; [exact Hd0|].
        intros len'. subst ptr. apply Hfresh.
      * intros H Hr. injection H as <- <- <-. contradiction.
  - intros b0 d h1 Halloc Hd Hpa. unfold dcp_calloc_align_buf.
    rewrite Halloc.
    replace (d =? 0) with false by (symmetry; apply Z.eqb_neq; exact Hd).
    rewrite Hpa. cbn [Z.eqb].
    eexists. split; [reflexivity|].
    destruct (dcp_alloc_memalign_cases e h size)
      as [H0 | (ptr & len & d' & H1 & Hptr & Hne & Hd')].
    + rewrite H0 in Halloc. injection Halloc as <- <-. contradiction.
    + rewrite H1 in Halloc. injection Halloc as <- <-.
      cbn [areas]. split.
      * intros Heq. apply (f_equal (@length _)) in Heq. cbn in Heq. lia.
      * apply dcp_free_alloc; [exact Hd|].
        intros len'. subst ptr. apply Hfresh.
Qed.

(** An address translation that fails for every address. *)
Lemma dcp_calloc_align_buf_failure_witness :
  exists h',
    dcp_calloc_align_buf env32_unmapped empty_heap (Some buf0) 100
    = (TEE_ERROR_OUT_OF_MEMORY,
       Some {| data := 0x20000040; buf_size := 0; paddr := 0 |}, h')
    /\ areas h' = [].
Proof.
  destruct (dcp_calloc_align_buf_failure env32_unmapped empty_heap 100)
    as [_ Hdangling].
  - intros n len Hin. exact Hin.
  - intros n. unfold env32_unmapped, calloc.
    destruct (n <=? 0x100000); [right; vm_compute; split; congruence | left; reflexivity].
  - destruct (Hdangling buf0 0x20000040
                {| areas := [(0x20000008, 192)];
                   headers := [(0x20000038,
                                {| addr := 0x20000008; size := 192 |})] |})
      as (h' & Hrun & _ & Hareas).
    + vm_compute. reflexivity.
    + lia.
    + reflexivity.
    + exists h'. split; [exact Hrun | exact Hareas].
Defined.

(** The allocation where the size computation stays below the width of
    [size_t]: the area has a cache line more than the rounded sum of
    request and header, and the returned address is the first cache line
    boundary that leaves room for the header. *)
Lemma dcp_alloc_memalign_explicit (e : environment) (h : heap) (size : Z) :
  0 <= size ->
  size + MEM_HDR_SIZE e + read_cacheline_size e <= 2 ^ size_bits e ->
  calloc_sane e ->
  dcp_alloc_memalign e h size = (0, h)
  \/ exists a ptr,
       let cl := read_cacheline_size e in
       let len := cl + round_up a cl in
       let d := round_up (ptr + MEM_HDR_SIZE e) cl in
       size + MEM_HDR_SIZE e <= a <= size + MEM_HDR_SIZE e + cl
       /\ ptr = calloc e len /\ 0 < ptr /\ ptr + len <= 2 ^ size_bits e
       /\ a <= round_up a cl
       /\ ptr + MEM_HDR_SIZE e <= d <= ptr + MEM_HDR_SIZE e + (cl - 1)
       /\ d mod cl = 0
       /\ dcp_alloc_memalign e h size
          = (d, {| areas := (ptr, len) :: areas h;
                   headers := (d - MEM_HDR_SIZE e,
                               {| addr := ptr; size := len |})
                              :: headers h |}).
Proof.
  intros Hsize Hfit Hcalloc.
  destruct (cacheline_pow2 e) as (k & Hk & Hcl).
  cbv zeta. rewrite Hcl in *.
  assert (Hpk : 4 <= 2 ^ k <= 2 ^ 17).
  { change 4 with (2 ^ 2). split; apply Z.pow_le_mono_r; lia. }
  change (2 ^ 17) with 131072 in Hpk.
  assert (Hw : 32 <= size_bits e /\ 8 <= MEM_HDR_SIZE e <= 16)
    by (destruct (size_bits_cases e) as [[-> ->] | [-> ->]]; lia).
  destruct Hw as [Hw Hhdr].
  assert (H32 : 2 ^ 32 <= 2 ^ size_bits e)
    by (apply Z.pow_le_mono_r; lia).
  change (2 ^ 32) with 4294967296 in H32.
  unfold dcp_alloc_memalign, ADD_OVERFLOW, max_of, OF_MEM_HDR, round_up.
  rewrite Hcl.
  set (w := size_bits e) in *. set (H := MEM_HDR_SIZE e) in *.
  set (cl := 2 ^ k) in *.
  assert (H1 : (size + H <=? 2 ^ w - 1) = true) by (apply Z.leb_le; lia).
  rewrite H1. cbn [negb]. rewrite (wrap_small w (size + H)) by lia.
  set (a1 := if size =? cl
             then (negb (size + H + cl <=? 2 ^ w - 1), wrap w (size + H + cl))
             else (false, size + H)).
  assert (Ha1 : exists a, a1 = (false, a)
                          /\ size + H <= a <= size + H + cl
                          /\ a + cl <= 2 ^ w).
  { subst a1. destruct (size =? cl) eqn:Es.
    - apply Z.eqb_eq in Es. exists (size + H + cl).
      assert (Hle : (size + H + cl <=? 2 ^ w - 1) = true)
        by (apply Z.leb_le; lia).
      rewrite Hle, wrap_small by lia. split; [reflexivity | lia].
    - exists (size + H). split; [reflexivity | lia]. }
  destruct Ha1 as (a & -> & Ha & Hacl).
  destruct (ROUNDUP_bounds w k a ltac:(lia) ltac:(lia) ltac:(fold cl; lia))
    as [HR _]. fold cl in HR.
  pose proof (ROUNDUP_pow2 w k a ltac:(lia) ltac:(lia) ltac:(fold cl; lia))
    as HRe.
  fold cl in HRe. rewrite HRe in *. clear HRe.
  set (R := cl * ((a + (cl - 1)) / cl)) in *.
  destruct (cl + R <=? 2 ^ w - 1) eqn:Hov; cbn [negb]; [|left; reflexivity].
  apply Z.leb_le in Hov. rewrite (wrap_small w (cl + R)) by lia.
  destruct (Hcalloc (cl + R)) as [Hnull | [Hptr Hend]].
  { rewrite Hnull. cbn [Z.eqb]. left; reflexivity. }
  fold w in Hend.
  set (ptr := calloc e (cl + R)) in *.
  assert (Hne : (ptr =? 0) = false) by (apply Z.eqb_neq; lia).
  rewrite Hne. rewrite (wrap_small w (ptr + H)) by lia.
  destruct (ROUNDUP_bounds w k (ptr + H) ltac:(lia) ltac:(lia)
              ltac:(fold cl; lia)) as [HD HDm]. fold cl in HD, HDm.
  pose proof (ROUNDUP_pow2 w k (ptr + H) ltac:(lia) ltac:(lia)
                ltac:(fold cl; lia)) as HDe.
  fold cl in HDe. rewrite HDe in *. clear HDe.
  set (d := cl * ((ptr + H + (cl - 1)) / cl)) in *.
  rewrite (wrap_small w (d - H)) by lia.
  right. exists a, ptr.
  split; [lia|]. split; [reflexivity|]. split; [lia|]. split; [lia|].
  split; [lia|]. split; [lia|]. split; [exact HDm | reflexivity].
Qed.

(** X6. Where request, header and one cache line fit the width of size_t
    and the allocator answers with NULL or with an area inside the address
    space, dcp_alloc_memalign either returns NULL and leaves the heap as
    it was, or has obtained one area whose length is a whole number of
    cache lines and returns a cache-line aligned address in it: the header
    lies inside the area just below that address and records the start and
    the length of the area, and the requested bytes above the address end
    inside the area. *)
Theorem dcp_alloc_memalign_layout (e : environment) (h : heap) (size : Z) :
  0 <= size ->
  size + MEM_HDR_SIZE e + read_cacheline_size e <= 2 ^ size_bits e ->
  calloc_sane e ->
  forall d h',
    dcp_alloc_memalign e h size = (d, h') ->
    (d = 0 /\ h' = h)
    \/ exists ptr len,
         areas h' = (ptr, len) :: areas h
         /\ ptr = calloc e len
         /\ len mod read_cacheline_size e = 0
         /\ d mod read_cacheline_size e = 0
         /\ ptr <= d - MEM_HDR_SIZE e
         /\ lookup_hdr h' (d - MEM_HDR_SIZE e)
            = Some {| addr := ptr; size := len |}
         /\ d + size <= ptr + len.
Proof.
  intros Hsize Hfit Hcalloc d h' Hrun.
  destruct (dcp_alloc_memalign_explicit e h size Hsize Hfit Hcalloc)
    as [H0 | (a & ptr & Ha & Hptr & Hpos & Hend & HR & Hd & Hdm & Heq)].
  - rewrite H0 in Hrun. injection Hrun as <- <-. left. auto.
  - rewrite Heq in Hrun. injection Hrun as <- <-. right.
    destruct (cacheline_pow2 e) as (k & Hk & Hcl).
    assert (Hpk : 0 < read_cacheline_size e)
      by (rewrite Hcl; apply Z.pow_pos_nonneg; lia).
    eexists; eexists. cbn [areas].
    split; [reflexivity|]. split; [exact Hptr|].
    split.
    { unfold round_up. rewrite <- Zplus_mod_idemp_r.
      rewrite (Z.mul_comm (read_cacheline_size e)), Z.mod_mul by lia.
      rewrite Z.add_0_r. apply Z_mod_same_full. }
    split; [exact Hdm|]. split; [lia|]. split; [|lia].
    unfold lookup_hdr. cbn [headers List.find].
    rewrite Z.eqb_refl. reflexivity.
Qed.

Lemma dcp_alloc_memalign_layout_witness :
  exists h',
    dcp_alloc_memalign env32 empty_heap 100 = (0x20000040, h')
    /\ areas h' = [(0x20000008, 192)]
    /\ lookup_hdr h' 0x20000038
       = Some {| addr := 0x20000008; size := 192 |}.
Proof.
  eexists. split; [vm_compute; reflexivity|].
  destruct (dcp_alloc_memalign_layout env32 empty_heap 100) with
    (d := 0x20000040)
    (h' := {| areas := [(0x20000008, 192)];
              headers := [(0x20000038,
                           {| addr := 0x20000008; size := 192 |})] |})
    as [[H0 _] | (ptr & len & Hareas & _ & _ & _ & _ & Hhdr & _)].
  - lia.
  - vm_compute. congruence.
  - intros n. unfold env32, calloc.
    destruct (n <=? 0x100000) eqn:E;
      [right; apply Z.leb_le in E; cbn; lia | left; reflexivity].
  - vm_compute. reflexivity.
  - discriminate H0.
  - cbn [areas] in Hareas. injection Hareas as <- <-.
    split; [reflexivity | exact Hhdr].
Defined.

Lemma round_up_shift (cl q v : Z) :
  0 < cl -> round_up (cl * q + v) cl = cl * q + round_up v cl.
Proof.
  intros Hcl. unfold round_up.
  replace (cl * q + v + (cl - 1)) with (v + (cl - 1) + q * cl) by ring.
  rewrite Z.div_add by lia. ring.
Qed.

Lemma round_up_mono (cl u v : Z) :
  0 < cl -> u <= v -> round_up u cl <= round_up v cl.
Proof.
  intros Hcl Huv. unfold round_up.
  apply Z.mul_le_mono_nonneg_l; [lia|].
  apply Z.div_le_mono; lia.
Qed.

(** X7. Under the conditions of X6 and with an allocator that aligns its
    areas as it would a header (8 bytes on a 32-bit build, 16 on a 64-bit
    one), every cache line that holds a byte of the buffer lies inside the
    area obtained for it: the buffer starts on a cache line boundary at or
    above the start of the area, and the cache line boundary that follows
    its last byte is not beyond the end of the area. *)
Theorem dcp_alloc_memalign_cache_lines (e : environment) (h : heap)
    (size : Z) :
  0 <= size ->
  size + MEM_HDR_SIZE e + read_cacheline_size e <= 2 ^ size_bits e ->
  calloc_sane e ->
  calloc_aligned e ->
  forall d h',
    dcp_alloc_memalign e h size = (d, h') ->
    d <> 0 ->
    exists ptr len,
      areas h' = (ptr, len) :: areas h
      /\ d mod read_cacheline_size e = 0
      /\ ptr <= d
      /\ round_up (d + size) (read_cacheline_size e) <= ptr + len.
Proof.
  intros Hsize Hfit Hcalloc Halign d h' Hrun Hd0.
  destruct (dcp_alloc_memalign_explicit e h size Hsize Hfit Hcalloc)
    as [H0 | (a & ptr & Ha & Hptr & Hpos & Hend & HR & Hd & Hdm & Heq)].
  { rewrite H0 in Hrun. injection Hrun as <- <-. contradiction. }
  rewrite Heq in Hrun. injection Hrun as <- <-.
  destruct (cacheline_pow2 e) as (k & Hk & Hcl).
  set (cl := read_cacheline_size e) in *.
  set (H := MEM_HDR_SIZE e) in *.
  assert (Hpk : 0 < cl) by (rewrite Hcl; apply Z.pow_pos_nonneg; lia).
  set (d := round_up (ptr + H) cl) in *.
  eexists; eexists. cbn [areas]. split; [reflexivity|].
  split; [exact Hdm|].
  assert (HH : exists j, 3 <= j <= 4 /\ H = 2 ^ j).
  { subst H. destruct (size_bits_cases e) as [[_ ->] | [_ ->]];
      [exists 3 | exists 4]; split; try lia; reflexivity. }
  destruct HH as (j & Hj & HHj).
  assert (HHpos : 0 < H) by (rewrite HHj; apply Z.pow_pos_nonneg; lia).
  split; [lia|].
  assert (Hpm : ptr mod H = 0) by (rewrite Hptr; apply Halign).
  (* [d] is a multiple of the cache line *)
  assert (Hdq : d = cl * (d / cl)).
  { apply Z_div_exact_full_2; [lia | exact Hdm]. }
  rewrite Hdq, round_up_shift, <- Hdq by exact Hpk.
  destruct (Z_le_gt_dec j k) as [Hjk | Hjk].
  - (* the header divides the cache line: [d] is at most a line above
       the area *)
    assert (Hdiv : cl = H * 2 ^ (k - j)).
    { rewrite Hcl, HHj, <- Z.pow_add_r by lia. f_equal. lia. }
    assert (Hdd : (d - (ptr + H)) mod H = 0).
    { rewrite Hdq, Hdiv.
      apply Z.mod_divide; [lia|].
      apply Z.divide_sub_r.
      - rewrite <- Z.mul_assoc. apply Z.divide_factor_l.
      - apply Z.divide_add_r; [apply Z.mod_divide; [lia | exact Hpm]|].
        apply Z.divide_refl. }
    apply Z.mod_divide in Hdd; [|lia]. destruct Hdd as [t Ht].
    assert (H2p : 0 < 2 ^ (k - j)) by (apply Z.pow_pos_nonneg; lia).
    assert (Htp : t < 2 ^ (k - j)).
    { apply (Z.mul_lt_mono_pos_r H); [exact HHpos|].
      rewrite (Z.mul_comm (2 ^ (k - j))), <- Hdiv. lia. }
    assert (Hth : t * H <= (2 ^ (k - j) - 1) * H)
      by (apply Z.mul_le_mono_nonneg_r; lia).
    assert (Hle : d <= ptr + cl) by lia.
    pose proof (round_up_mono cl size a Hpk ltac:(lia)). lia.
  - (* the cache line divides the header: [d] is just above the header *)
    assert (Hdiv : H = cl * 2 ^ (j - k)).
    { rewrite Hcl, HHj, <- Z.pow_add_r by lia. f_equal. lia. }
    assert (H2p : 0 < 2 ^ (j - k)) by (apply Z.pow_pos_nonneg; lia).
    assert (Hpd : exists t, ptr + H = cl * t).
    { apply Z.mod_divide in Hpm; [|lia]. destruct Hpm as [t Ht].
      exists ((t + 1) * 2 ^ (j - k)). rewrite Ht, Hdiv. ring. }
    destruct Hpd as [t Ht].
    assert (Hde : d = ptr + H).
    { subst d. unfold round_up. rewrite Ht.
      replace (cl * t + (cl - 1)) with ((cl - 1) + t * cl) by ring.
      rewrite Z.div_add, Z.div_small by lia. ring. }
    rewrite Hde.
    pose proof (round_up_mono cl (size + H) a Hpk ltac:(lia)) as Hm.
    assert (Hsh : round_up (size + H) cl = H + round_up size cl).
    { rewrite Hdiv at 1.
      replace (size + cl * 2 ^ (j - k)) with (cl * 2 ^ (j - k) + size) by ring.
      rewrite round_up_shift by exact Hpk. lia. }
    lia.
Qed.

Lemma dcp_alloc_memalign_cache_lines_witness :
  exists h',
    dcp_alloc_memalign env32 empty_heap 100 = (0x20000040, h')
    /\ areas h' = [(0x20000008, 192)]
    /\ round_up (0x20000040 + 100) 64 <= 0x20000008 + 192.
Proof.
  eexists. split; [vm_compute; reflexivity|].
  destruct (dcp_alloc_memalign_cache_lines env32 empty_heap 100) with
    (d := 0x20000040)
    (h' := {| areas := [(0x20000008, 192)];
              headers := [(0x20000038,
                           {| addr := 0x20000008; size := 192 |})] |})
    as (ptr & len & Hareas & _ & _ & Hend).
  - lia.
  - vm_compute. congruence.
  - intros n. unfold env32, calloc.
    destruct (n <=? 0x100000) eqn:E;
      [right; apply Z.leb_le in E; cbn; lia | left; reflexivity].
  - intros n. unfold env32, calloc.
    destruct (n <=? 0x100000); reflexivity.
  - vm_compute. reflexivity.
  - lia.
  - cbn [areas] in Hareas. injection Hareas as <- <-.
    split; [reflexivity | exact Hend].
Defined.

(** ROUNDUP of a value whose sum with the alignment mask passes the width
    of the type by less than the alignment: the wrapped sum has no bit
    above the mask, and the result is zero. *)
Lemma ROUNDUP_wrapped (w k v : Z) :
  0 <= k <= w ->
  2 ^ w <= v + (2 ^ k - 1) < 2 ^ w + 2 ^ k ->
  ROUNDUP w v (2 ^ k) = 0.
Proof.
  intros Hk Hv. unfold ROUNDUP, wrap.
  assert (Hpk : 0 < 2 ^ k) by (apply Z.pow_pos_nonneg; lia).
  assert (Hpw : 0 < 2 ^ w) by (apply Z.pow_pos_nonneg; lia).
  set (x := v + (2 ^ k - 1) - 2 ^ w).
  replace (v + (2 ^ k - 1)) with (x + 1 * 2 ^ w) by (subst x; ring).
  rewrite Z_mod_plus_full.
  assert (Hx : 0 <= x < 2 ^ k) by (subst x; lia).
  assert (Hkw : 2 ^ k <= 2 ^ w) by (apply Z.pow_le_mono_r; lia).
  rewrite (Z.mod_small x) by lia.
  replace (2 ^ k - 1) with (Z.ones k) by (rewrite Z.ones_equiv; lia).
  apply Z.bits_inj'. intros i Hi.
  rewrite Z.land_spec, Z.bits_0.
  destruct (Z_lt_le_dec i k) as [Hik | Hik].
  - rewrite Z.mod_pow2_bits_low by lia.
    rewrite Z.lnot_spec, Z.ones_spec_low by lia.
    apply andb_false_r.
  - rewrite (testbit_above x k i) by lia. reflexivity.
Qed.

(** X8. The sizes that pass the first overflow check and are not covered
    by X6, the cl - 1 sizes above 2^w - cl - H up to 2^w - 1 - H for a
    cache line of cl bytes and a header of H: the rounding of the
    allocation size wraps to zero, the allocator is asked for one cache
    line only and, when it serves that request, dcp_alloc_memalign returns
    a non-null address, so that dcp_calloc_align_buf returns TEE_SUCCESS
    with the requested size recorded for a buffer whose area is one cache
    line long. *)
Theorem dcp_alloc_memalign_wrap_window (e : environment) (h : heap)
    (b0 : align_buf) (size : Z) :
  2 ^ size_bits e - read_cacheline_size e - MEM_HDR_SIZE e < size ->
  size <= 2 ^ size_bits e - 1 - MEM_HDR_SIZE e ->
  0 < calloc e (read_cacheline_size e) ->
  calloc e (read_cacheline_size e) + MEM_HDR_SIZE e + read_cacheline_size e
  <= 2 ^ size_bits e ->
  exists d h',
    dcp_alloc_memalign e h size = (d, h')
    /\ areas h' = (calloc e (read_cacheline_size e), read_cacheline_size e)
                  :: areas h
    /\ d <> 0
    /\ read_cacheline_size e < size
    /\ (virt_to_phys e d <> 0 ->
        dcp_calloc_align_buf e h (Some b0) size
        = (TEE_SUCCESS,
           Some {| data := d; buf_size := size; paddr := virt_to_phys e d |},
           h')).
Proof.
  intros Hlo Hhi Hptr Hfit.
  destruct (cacheline_pow2 e) as (k & Hk & Hcl).
  rewrite Hcl in *.
  assert (Hpk : 4 <= 2 ^ k <= 2 ^ 17).
  { change 4 with (2 ^ 2). split; apply Z.pow_le_mono_r; lia. }
  change (2 ^ 17) with 131072 in Hpk.
  assert (Hw : 32 <= size_bits e /\ 8 <= MEM_HDR_SIZE e <= 16)
    by (destruct (size_bits_cases e) as [[-> ->] | [-> ->]]; lia).
  destruct Hw as [Hw Hhdr].
  assert (H32 : 2 ^ 32 <= 2 ^ size_bits e)
    by (apply Z.pow_le_mono_r; lia).
  change (2 ^ 32) with 4294967296 in H32.
  assert (Halloc : exists d,
             dcp_alloc_memalign e h size
             = (d, {| areas := (calloc e (2 ^ k), 2 ^ k) :: areas h;
                      headers := (OF_MEM_HDR e d,
                                  {| addr := calloc e (2 ^ k);
                                     size := 2 ^ k |}) :: headers h |})
             /\ d <> 0).
  { unfold dcp_alloc_memalign, ADD_OVERFLOW, max_of.
    rewrite Hcl.
    set (w := size_bits e) in *. set (H := MEM_HDR_SIZE e) in *.
    set (cl := 2 ^ k) in *.
    assert (H1 : (size + H <=? 2 ^ w - 1) = true) by (apply Z.leb_le; lia).
    rewrite H1. cbn [negb]. rewrite (wrap_small w (size + H)) by lia.
    replace (size =? cl) with false by (symmetry; apply Z.eqb_neq; lia).
    pose proof (ROUNDUP_wrapped w k (size + H) ltac:(lia)
                  ltac:(fold cl; lia)) as HR.
    fold cl in HR. rewrite HR. rewrite Z.add_0_r.
    replace (cl <=? 2 ^ w - 1) with true by (symmetry; apply Z.leb_le; lia).
    cbn [negb]. rewrite (wrap_small w cl) by lia.
    replace (calloc e cl =? 0) with false by (symmetry; apply Z.eqb_neq; lia).
    rewrite (wrap_small w (calloc e cl + H)) by lia.
    destruct (ROUNDUP_bounds w k (calloc e cl + H) ltac:(lia) ltac:(lia)
                ltac:(fold cl; lia)) as [HD _]. fold cl in HD.
    eexists. split; [reflexivity | lia]. }
  destruct Halloc as (d & Halloc & Hd).
  do 2 eexists. split; [exact Halloc|]. cbn [areas].
  split; [reflexivity|]. split; [exact Hd|]. split; [lia|].
  intros Hpa. unfold dcp_calloc_align_buf. rewrite Halloc.
  replace (d =? 0) with false by (symmetry; apply Z.eqb_neq; exact Hd).
  replace (virt_to_phys e d =? 0) with false
    by (symmetry; apply Z.eqb_neq; exact Hpa).
  reflexivity.
Qed.

(** The 63 sizes from 0xFFFFFFB9 to 0xFFFFFFF7 on the 32-bit target with
    64-byte cache lines; here the first of them. *)
Lemma dcp_alloc_memalign_wrap_window_witness :
  exists d h',
    dcp_calloc_align_buf env32 empty_heap (Some buf0) 0xFFFFFFB9
    = (TEE_SUCCESS,
       Some {| data := d; buf_size := 0xFFFFFFB9; paddr := d |}, h')
    /\ areas h' = [(0x20000008, 64)].
Proof.
  destruct (dcp_alloc_memalign_wrap_window env32 empty_heap buf0 0xFFFFFFB9)
    as (d & h' & _ & Hareas & Hd & _ & Hrun).
  - vm_compute. reflexivity.
  - vm_compute. congruence.
  - vm_compute. reflexivity.
  - vm_compute. congruence.
  - exists d, h'. split; [|exact Hareas].
    apply (Hrun Hd).
Defined.

End DcpHeap.

(** ** Key allocation *)

Module KeyAllocation.

Import Mach Bytes Bignum CaamDesc Caam CaamRef KeyCodec Operations.
Import CaamKeyAlloc.

Ltac aunfold :=
  unfold do_allocate_keypair, do_allocate_publickey, err_alloc_keypair,
    err_alloc_pubkey, crypto_bignum_allocate, crypto_bignum_free,
    bind, ret, acquire, release.

(** X9. do_allocate_keypair asks for g, p, q, x and y in that order, g, p
    and y of l_bits and q and x of n_bits.  When the five requests are
    served it returns TEE_SUCCESS with five distinct scalars, all still
    held.  When one is refused it returns TEE_ERROR_OUT_OF_MEMORY and every
    scalar it obtained has been freed once, although the error path does
    not mention y; the key structure is not cleared again, so each of its
    non-null fields points to a freed scalar. *)
Theorem do_allocate_keypair_outcomes (e : environment)
    (key : dsa_keypair_ptrs) (l_bits n_bits : Z) :
  exists r key' s',
    do_allocate_keypair e key l_bits n_bits init_state = Some ((r, key'), s')
    /\ ((forall k, (k < 5)%nat -> alloc_ok e k = true) ->
        r = TEE_SUCCESS
        /\ key' = {| kp_g := scalar 0 l_bits; kp_p := scalar 1 l_bits;
                     kp_q := scalar 2 n_bits; kp_y := scalar 4 l_bits;
                     kp_x := scalar 3 n_bits |}
        /\ live s' = [0; 1; 2; 3; 4]%nat /\ freed s' = [])
    /\ ((exists k, (k < 5)%nat /\ alloc_ok e k = false) ->
        r = TEE_ERROR_OUT_OF_MEMORY
        /\ balanced s'
        /\ Forall (null_or_freed s') (keypair_fields key')
        /\ (alloc_ok e 0%nat = true -> kp_g key' = scalar 0 l_bits)).
Proof.
  aunfold. cbn.
  destruct (alloc_ok e 0%nat) eqn:H0; cbn;
    [destruct (alloc_ok e 1%nat) eqn:H1; cbn;
     [destruct (alloc_ok e 2%nat) eqn:H2; cbn;
      [destruct (alloc_ok e 3%nat) eqn:H3; cbn;
       [destruct (alloc_ok e 4%nat) eqn:H4; cbn|]|]|]|].
  all: do 3 eexists; (split; [reflexivity|]).
  all: split;
    [intros Hall;
     try (rewrite (Hall 0%nat) in H0 by lia; discriminate);
     try (rewrite (Hall 1%nat) in H1 by lia; discriminate);
     try (rewrite (Hall 2%nat) in H2 by lia; discriminate);
     try (rewrite (Hall 3%nat) in H3 by lia; discriminate);
     try (rewrite (Hall 4%nat) in H4 by lia; discriminate)
    |intros (k & Hk & Hno)].
  1: repeat split; reflexivity.
  1: { exfalso.
       assert (Hc : (k = 0 \/ k = 1 \/ k = 2 \/ k = 3 \/ k = 4)%nat) by lia.
       destruct Hc as [-> | [-> | [-> | [-> | ->]]]]; congruence. }
  all: split; [reflexivity|].
  all: split; [apply balancedb_sound; vm_compute; reflexivity|].
  all: split; [|intros Ht; first [reflexivity | congruence]].
  all: unfold keypair_fields, null_or_freed;
    cbn [kp_g kp_p kp_q kp_x kp_y freed bn_area];
    repeat (apply List.Forall_cons; [cbn; auto 10|]); apply List.Forall_nil.
Qed.

(** The third request refused: g and p were allocated and freed, and the
    key still points to them. *)
Lemma do_allocate_keypair_outcomes_witness :
  exists key' s',
    do_allocate_keypair env_two keypair_null 1024 160 init_state
    = Some ((TEE_ERROR_OUT_OF_MEMORY, key'), s')
    /\ balanced s'
    /\ kp_g key' = scalar 0 1024.
Proof.
  destruct (do_allocate_keypair_outcomes env_two keypair_null 1024 160)
    as (r & key' & s' & Hrun & _ & Hfail).
  destruct Hfail as (-> & Hbal & _ & Hg).
  - exists 2%nat. split; [lia | reflexivity].
  - exists key', s'. split; [exact Hrun|]. split; [exact Hbal|].
    apply Hg. reflexivity.
Defined.

(** X10. do_allocate_publickey asks for g, p, q and y in that order, g, p
    and y of l_bits and q of n_bits.  When the four requests are served it
    returns TEE_SUCCESS with four distinct scalars, all still held.  When
    one is refused it returns TEE_ERROR_OUT_OF_MEMORY, every scalar it
    obtained has been freed once, and each non-null field of the key
    points to a freed scalar. *)
Theorem do_allocate_publickey_outcomes (e : environment)
    (key : dsa_public_key_ptrs) (l_bits n_bits : Z) :
  exists r key' s',
    do_allocate_publickey e key l_bits n_bits init_state
    = Some ((r, key'), s')
    /\ ((forall k, (k < 4)%nat -> alloc_ok e k = true) ->
        r = TEE_SUCCESS
        /\ key' = {| pp_g := scalar 0 l_bits; pp_p := scalar 1 l_bits;
                     pp_q := scalar 2 n_bits; pp_y := scalar 3 l_bits |}
        /\ live s' = [0; 1; 2; 3]%nat /\ freed s' = [])
    /\ ((exists k, (k < 4)%nat /\ alloc_ok e k = false) ->
        r = TEE_ERROR_OUT_OF_MEMORY
        /\ balanced s'
        /\ Forall (null_or_freed s') (public_key_fields key')
        /\ (alloc_ok e 0%nat = true -> pp_g key' = scalar 0 l_bits)).
Proof.
  aunfold. cbn.
  destruct (alloc_ok e 0%nat) eqn:H0; cbn;
    [destruct (alloc_ok e 1%nat) eqn:H1; cbn;
     [destruct (alloc_ok e 2%nat) eqn:H2; cbn;
      [destruct (alloc_ok e 3%nat) eqn:H3; cbn|]|]|].
  all: do 3 eexists; (split; [reflexivity|]).
  all: split;
    [intros Hall;
     try (rewrite (Hall 0%nat) in H0 by lia; discriminate);
     try (rewrite (Hall 1%nat) in H1 by lia; discriminate);
     try (rewrite (Hall 2%nat) in H2 by lia; discriminate);
     try (rewrite (Hall 3%nat) in H3 by lia; discriminate)
    |intros (k & Hk & Hno)].
  1: repeat split; reflexivity.
  1: { exfalso.
       assert (Hc : (k = 0 \/ k = 1 \/ k = 2 \/ k = 3)%nat) by lia.
       destruct Hc as [-> | [-> | [-> | ->]]]; congruence. }
  all: split; [reflexivity|].
  all: split; [apply balancedb_sound; vm_compute; reflexivity|].
  all: split; [|intros Ht; first [reflexivity | congruence]].
  all: unfold public_key_fields, null_or_freed;
    cbn [pp_g pp_p pp_q pp_y freed bn_area];
    repeat (apply List.Forall_cons; [cbn; auto 10|]); apply List.Forall_nil.
Qed.

(** Every request served. *)
Lemma do_allocate_publickey_outcomes_witness :
  exists key' s',
    do_allocate_publickey env_ok public_key_null 1024 160 init_state
    = Some ((TEE_SUCCESS, key'), s')
    /\ pp_q key' = scalar 2 160
    /\ live s' = [0; 1; 2; 3]%nat.
Proof.
  destruct (do_allocate_publickey_outcomes env_ok public_key_null 1024 160)
    as (r & key' & s' & Hrun & Hok & _).
  destruct Hok as (-> & -> & Hlive & _).
  - intros k _. reflexivity.
  - eexists; exists s'. split; [exact Hrun|].
    split; [reflexivity | exact Hlive].
Defined.

End KeyAllocation.

(** ** Scalars that do not fit *)

Module KeyBounds.

Import Mach Bytes BytesFacts Bignum BignumFacts CaamDesc Caam CaamRef KeyCodec.

(** A scalar longer than the buffer is stored from before its start. *)
Lemma store_bn2bin_fault (W : Z) (bn : bignum) (buf : list Z) :
  W < crypto_bignum_num_bytes bn ->
  store_bytes buf (W - crypto_bignum_num_bytes bn) (crypto_bignum_bn2bin bn)
  = None.
Proof.
  intros H. unfold store_bytes.
  replace (0 <=? W - crypto_bignum_num_bytes bn) with false
    by (symmetry; apply Z.leb_gt; lia).
  reflexivity.
Qed.

Ltac fit_step e Hall :=
  match goal with
  | |- context [alloc_ok e ?k] => rewrite (Hall k)
  | |- context [store_bytes (zeros (Z.to_nat ?W)) (?W - _)
                  (crypto_bignum_bn2bin ?bn)] =>
    first [rewrite (store_bn2bin W bn) by assumption
          | rewrite (store_bn2bin_fault W bn) by assumption]
  end.

(** X11. do_keypriv_conv and do_keypub_conv check no length: with every
    buffer allocated, a conversion stores outside a buffer (the memory
    fault of the model, the store starting before the buffer) exactly when
    one of the scalars has more bytes than the width it is encoded into,
    l_bytes for g, p and y and n_bytes for q and x. *)
Theorem key_conversion_bounds (e : environment) (outkey : caam_dsa_keypair)
    (inkey : dsa_keypair) (pubkey : dsa_public_key) (l_bytes n_bytes : Z)
    (s : state) :
  (forall k, alloc_ok e k = true) ->
  (do_keypriv_conv e outkey inkey l_bytes n_bytes s = None
   <-> ~ keypair_fits inkey l_bytes n_bytes)
  /\ (do_keypub_conv e outkey pubkey l_bytes n_bytes s = None
      <-> ~ public_key_fits pubkey l_bytes n_bytes).
Proof.
  intros Hall. split.
  - unfold keypair_fits.
    destruct (Z_le_gt_dec (crypto_bignum_num_bytes (dk_g inkey)) l_bytes)
      as [Hg | Hg];
    [destruct (Z_le_gt_dec (crypto_bignum_num_bytes (dk_p inkey)) l_bytes)
       as [Hp | Hp];
     [destruct (Z_le_gt_dec (crypto_bignum_num_bytes (dk_q inkey)) n_bytes)
        as [Hq | Hq];
      [destruct (Z_le_gt_dec (crypto_bignum_num_bytes (dk_x inkey)) n_bytes)
         as [Hx | Hx]|]|]|].
    all: try apply Z.gt_lt in Hg; try apply Z.gt_lt in Hp;
      try apply Z.gt_lt in Hq; try apply Z.gt_lt in Hx.
    all: unfold do_keypriv_conv; munfold;
      repeat (mcbn; try fit_step e Hall).
    all: split; [intros Hrun; try discriminate; lia | intros Hno].
    all: first [reflexivity | exfalso; apply Hno; auto].
  - unfold public_key_fits.
    destruct (Z_le_gt_dec (crypto_bignum_num_bytes (pk_g pubkey)) l_bytes)
      as [Hg | Hg];
    [destruct (Z_le_gt_dec (crypto_bignum_num_bytes (pk_p pubkey)) l_bytes)
       as [Hp | Hp];
     [destruct (Z_le_gt_dec (crypto_bignum_num_bytes (pk_q pubkey)) n_bytes)
        as [Hq | Hq];
      [destruct (Z_le_gt_dec (crypto_bignum_num_bytes (pk_y pubkey)) l_bytes)
         as [Hy | Hy]|]|]|].
    all: try apply Z.gt_lt in Hg; try apply Z.gt_lt in Hp;
      try apply Z.gt_lt in Hq; try apply Z.gt_lt in Hy.
    all: unfold do_keypub_conv; munfold;
      repeat (mcbn; try fit_step e Hall).
    all: split; [intros Hrun; try discriminate; lia | intros Hno].
    all: first [reflexivity | exfalso; apply Hno; auto].
Qed.

(** The sample key, whose p has two bytes, with a width of one byte for
    it. *)
Lemma key_conversion_bounds_witness :
  do_keypriv_conv env_ok caam_dsa_keypair_zero key_full 1 1 init_state = None
  /\ do_keypub_conv env_ok caam_dsa_keypair_zero pubkey_full 1 1 init_state
     = None.
Proof.
  destruct (key_conversion_bounds env_ok caam_dsa_keypair_zero key_full
              pubkey_full 1 1 init_state) as [Hpriv Hpub].
  - intros k. reflexivity.
  - split.
    + apply Hpriv. unfold keypair_fits. vm_compute.
      intros (_ & Hp & _). apply Hp. reflexivity.
    + apply Hpub. unfold public_key_fits. vm_compute.
      intros (_ & Hp & _). apply Hp. reflexivity.
Defined.

End KeyBounds.

(** ** The caller's key after do_gen_keypair *)

Module GenKeypair.

Import Mach MachFacts Bytes BytesFacts Bignum BignumFacts CaamDesc Caam.
Import CaamRef KeyCodec DomainParams Descriptors Operations CaamGenRef.

(** X12. When get_keypair_domain_params has generated the parameters, the
    results of the three conversions back into the caller's key are not
    looked at: the function returns TEE_SUCCESS after making the three of
    them, and a scalar whose conversion the library refused keeps the
    value it had. *)
Theorem generated_params_write_back (e : environment)
    (outkey : caam_dsa_keypair) (key : dsa_keypair) (l_bytes n_bytes : Z)
    (s : state) :
  domain_missing key ->
  domain_allocs_ok e s ->
  prime_gen_status e = CAAM_NO_ERROR ->
  exists k key' s',
    get_keypair_domain_params e outkey key l_bytes n_bytes s
    = Some ((TEE_SUCCESS, k, key'), s')
    /\ convs s' = (3 + convs s)%nat
    /\ (bin2bn_ret e (convs s) <> TEE_SUCCESS -> dk_q key' = dk_q key)
    /\ (bin2bn_ret e (S (convs s)) <> TEE_SUCCESS -> dk_g key' = dk_g key)
    /\ (bin2bn_ret e (S (S (convs s))) <> TEE_SUCCESS ->
        dk_p key' = dk_p key).
Proof.
  intros Hmiss (Ha0 & Ha1 & Ha2) Hst.
  unfold get_keypair_domain_params. munfold.
  mcbn. rewrite (missing_cond key Hmiss).
  repeat (mcbn; rewrite ?Ha0, ?Ha1, ?Ha2, ?Hst).
  destruct (bin2bn_ret e (convs s) =? TEE_SUCCESS) eqn:H0;
    destruct (bin2bn_ret e (S (convs s)) =? TEE_SUCCESS) eqn:H1;
    destruct (bin2bn_ret e (S (S (convs s))) =? TEE_SUCCESS) eqn:H2;
    repeat (mcbn; rewrite ?H0, ?H1, ?H2);
    do 3 eexists; (split; [reflexivity|]); (split; [reflexivity|]);
    cbn [dk_g dk_p dk_q];
    apply Z.eqb_eq in H0 || apply Z.eqb_neq in H0;
    apply Z.eqb_eq in H1 || apply Z.eqb_neq in H1;
    apply Z.eqb_eq in H2 || apply Z.eqb_neq in H2;
    (split; [|split]); intros Hne; first [reflexivity | congruence].
Qed.

(** The key without parameters and a library that refuses the
    conversion of q. *)
Lemma generated_params_write_back_witness :
  exists k key' s',
    get_keypair_domain_params env_no_q caam_dsa_keypair_zero key_empty 4 2
      init_state
    = Some ((TEE_SUCCESS, k, key'), s')
    /\ dk_q key' = 0%N.
Proof.
  destruct (generated_params_write_back env_no_q caam_dsa_keypair_zero
              key_empty 4 2 init_state)
    as (k & key' & s' & Hrun & _ & Hq & _).
  - left. reflexivity.
  - unfold domain_allocs_ok. cbn. auto.
  - reflexivity.
  - exists k, key', s'. split; [exact Hrun|].
    apply Hq. cbn. discriminate.
Defined.

(** The run in which every request is served, split on the answers of
    the library and of the job ring. *)
Ltac gk_step e Hall :=
  first
    [ ok_step e Hall Hall
    | match goal with
      | |- context [bin2bn_ret e ?k =? 0] =>
        destruct (bin2bn_ret e k =? 0) eqn:?
      | |- context [caam_status_eqb (jr_retstatus e) _] =>
        destruct (jr_retstatus e) eqn:?
      end ].

Ltac eqb_hyps :=
  repeat match goal with
         | H : (_ =? 0) = true |- _ => apply Z.eqb_eq in H
         | H : (_ =? 0) = false |- _ => apply Z.eqb_neq in H
         end.

(** X13. In a call of do_gen_keypair whose requests are served (the
    parameters given and fitting, or generated): a job that fails leaves x
    and y of the caller's key as they were; after a job that succeeds, x is
    read from the n_bits/8 bytes the device left in the x buffer and then
    y from the l_bits/8 bytes of the y buffer.  If the conversion of x
    fails its result is returned and neither scalar changes; if the
    conversion of y fails its result is returned with x already replaced
    and y unchanged; otherwise the call returns TEE_SUCCESS.  Parameters
    that were given are never changed. *)
Theorem gen_keypair_key_update (e : environment) (c : config)
    (key : dsa_keypair) (l_bits n_bits : Z) (s : state) :
  (forall k, alloc_ok e k = true) ->
  (params_missing key = false ->
   domain_fits key (l_bits / 8) (n_bits / 8)) ->
  (params_missing key = true -> prime_gen_status e = CAAM_NO_ERROR) ->
  exists r key' s',
    do_gen_keypair e c key l_bits n_bits s = Some ((r, key'), s')
    /\ (jr_retstatus e <> CAAM_NO_ERROR ->
        r = job_status_to_tee_result e (jr_jobstatus e)
        /\ dk_x key' = dk_x key /\ dk_y key' = dk_y key)
    /\ (jr_retstatus e = CAAM_NO_ERROR ->
        bin2bn_ret e (convs s + param_convs key) <> TEE_SUCCESS ->
        r = bin2bn_ret e (convs s + param_convs key)
        /\ dk_x key' = dk_x key /\ dk_y key' = dk_y key)
    /\ (jr_retstatus e = CAAM_NO_ERROR ->
        bin2bn_ret e (convs s + param_convs key) = TEE_SUCCESS ->
        bin2bn_ret e (S (convs s + param_convs key)) <> TEE_SUCCESS ->
        r = bin2bn_ret e (S (convs s + param_convs key))
        /\ dk_x key' = device_scalar e (S (reqs s)) (n_bits / 8)
        /\ dk_y key' = dk_y key)
    /\ (jr_retstatus e = CAAM_NO_ERROR ->
        bin2bn_ret e (convs s + param_convs key) = TEE_SUCCESS ->
        bin2bn_ret e (S (convs s + param_convs key)) = TEE_SUCCESS ->
        r = TEE_SUCCESS
        /\ dk_x key' = device_scalar e (S (reqs s)) (n_bits / 8)
        /\ dk_y key' = device_scalar e (S (S (reqs s))) (l_bits / 8))
    /\ (params_missing key = false ->
        dk_g key' = dk_g key /\ dk_p key' = dk_p key /\ dk_q key' = dk_q key).
Proof.
  intros Hall Hfit Hgen.
  unfold param_convs. unfold params_missing in *.
  destruct ((crypto_bignum_num_bytes (dk_q key) =? 0)
            || (crypto_bignum_num_bytes (dk_g key) =? 0)
            || (crypto_bignum_num_bytes (dk_p key) =? 0)) eqn:Hm.
  - (* the parameters are generated *)
    specialize (Hgen eq_refl).
    replace (convs s + 3)%nat with (S (S (S (convs s)))) by lia.
    unfold do_gen_keypair, gen_keypair_run, exit_gen_keypair, do_keypair_free,
      get_keypair_domain_params.
    munfold. unfold TEE_SUCCESS in *.
    repeat (mcbn; rewrite ?Hm, ?Hgen; try gk_step e Hall).
    all: do 3 eexists; (split; [reflexivity|]).
    all: eqb_hyps.
    all: unfold device_scalar; kproj;
      cbn [dk_x dk_y dk_g dk_p dk_q cb_bytes cb_length].
    all: repeat split; intros; first [congruence | reflexivity].
  - (* the parameters are the caller's *)
    destruct (Hfit eq_refl) as (Hg & Hp & Hq).
    replace (convs s + 0)%nat with (convs s) by lia.
    unfold do_gen_keypair, gen_keypair_run, exit_gen_keypair, do_keypair_free,
      get_keypair_domain_params.
    munfold. unfold TEE_SUCCESS in *.
    repeat (mcbn; rewrite ?Hm; try gk_step e Hall).
    all: do 3 eexists; (split; [reflexivity|]).
    all: eqb_hyps.
    all: unfold device_scalar; kproj;
      cbn [dk_x dk_y dk_g dk_p dk_q cb_bytes cb_length].
    all: repeat split; intros; first [congruence | reflexivity].
Qed.

(** The sample key with its parameters and a library that refuses the
    conversion of y: the call fails with x already replaced. *)
Lemma gen_keypair_key_update_witness :
  exists key' s',
    do_gen_keypair env_no_y cfg32 key_full 32 16 init_state
    = Some ((TEE_ERROR_BAD_PARAMETERS, key'), s')
    /\ dk_x key' = 0x0101%N /\ dk_y key' = dk_y key_full.
Proof.
  destruct (gen_keypair_key_update env_no_y cfg32 key_full 32 16 init_state)
    as (r & key' & s' & Hrun & _ & _ & Hpart & _).
  - intros k. reflexivity.
  - intros _. unfold domain_fits. vm_compute.
    split; [|split]; discriminate.
  - intros H. vm_compute in H. discriminate.
  - destruct Hpart as (Hr & Hx & Hy);
      [reflexivity | reflexivity | cbn; discriminate|].
    exists key', s'. rewrite Hrun, Hr. split; [reflexivity|].
    split; [rewrite Hx; vm_compute; reflexivity | exact Hy].
Defined.

End GenKeypair.

(** ** The calls a run makes *)

Module Traces.

Import Mach MachFacts Bytes BytesFacts Bignum BignumFacts CaamDesc Caam.
Import CaamRef KeyCodec Descriptors Operations CaamGenRef CaamTraceRef.
Import GenKeypair.

(** One case split on an answer of a collaborator, the answer kept. *)
Ltac tr_step e :=
  match goal with
  | H : (dmaobj_ret e ?k =? 0) = _ |- context [dmaobj_ret e ?k =? 0] =>
    rewrite H
  | H : (bin2bn_ret e ?k =? 0) = _ |- context [bin2bn_ret e ?k =? 0] =>
    rewrite H
  | |- context [alloc_ok e ?k] => destruct (alloc_ok e k) eqn:?
  | |- context [dmaobj_ret e ?k =? 0] => destruct (dmaobj_ret e k =? 0) eqn:?
  | |- context [bin2bn_ret e ?k =? 0] => destruct (bin2bn_ret e k =? 0) eqn:?
  | |- context [store_bytes ?b ?o ?x] => destruct (store_bytes b o x)
  | |- context [caam_status_eqb (prime_gen_status e) _] =>
    destruct (prime_gen_status e) eqn:?
  | |- context [caam_status_eqb (jr_retstatus e) _] =>
    destruct (jr_retstatus e) eqn:?
  | |- context [jr_jobstatus e =? 0] => destruct (jr_jobstatus e =? 0) eqn:?
  | |- context [gen_keypair_desc ?c ?d ?l ?n ?k] =>
    destruct (gen_keypair_desc c d l n k)
  | |- context [sign_desc ?c ?d ?l ?n ?f ?k ?m ?sc ?sd ?ml] =>
    destruct (sign_desc c d l n f k m sc sd ml)
  | |- context [verify_desc ?c ?d ?l ?n ?f ?k ?m ?sc ?sd ?t ?ml] =>
    destruct (verify_desc c d l n f k m sc sd t ml)
  | |- context [(?a =? 0) || (?b =? 0) || (?c =? 0)] =>
    destruct ((a =? 0) || (b =? 0) || (c =? 0)) eqn:?
  end.

Ltac fc_leaf :=
  lazymatch goal with
  | |- None = Some _ -> _ => discriminate
  | |- Some _ = Some _ -> _ =>
    let H := fresh in
    intros H; injection H as <- <-;
    split; [cbn; lia|];
    let Hr := fresh "Hr" in
    intros Hr; eqb_hyps;
    first
      [ discriminate Hr
      | exfalso; congruence
      | split; [reflexivity|]; split; [reflexivity|];
        first [left; reflexivity
              | right; split; [discriminate|];
                split; [exact Hr|]; intros [? ?]; congruence] ]
  end.

(** X14. Whatever the collaborators answer, do_verify hands at most one
    descriptor to the job ring, and it returns TEE_SUCCESS only if all
    nine requests for memory and DMA objects were served, exactly one
    descriptor was submitted, and the job ring reported CAAM_NO_ERROR (or
    reported a failure, other than CAAM_JOB_STATUS with status 0, whose
    status word job_status_to_tee_result itself maps to TEE_SUCCESS). *)
Theorem verify_fails_closed (e : environment) (c : config)
    (sdata : drvcrypt_sign_data dsa_public_key) (l_bytes n_bytes : Z)
    (r : TEE_Result) (s' : state) :
  do_verify e c sdata l_bytes n_bytes init_state = Some (r, s') ->
  (length (submitted s') <= 1)%nat
  /\ (r = TEE_SUCCESS ->
      length (submitted s') = 1%nat
      /\ allocated s' = seq 0 9
      /\ (jr_retstatus e = CAAM_NO_ERROR
          \/ (jr_retstatus e <> CAAM_NO_ERROR
              /\ job_status_to_tee_result e (jr_jobstatus e) = TEE_SUCCESS
              /\ ~ (jr_retstatus e = CAAM_JOB_STATUS /\ jr_jobstatus e = 0)))).
Proof.
  unfold do_verify, verify_run, exit_verify, do_keypair_free, do_keypub_conv.
  munfold. unfold TEE_SUCCESS.
  repeat (mcbn; tr_step e). all: mcbn. all: fc_leaf.
Qed.

(** The sample signature data with collaborators that serve every
    request. *)
Lemma verify_fails_closed_witness :
  exists s',
    do_verify env_ok cfg32 verify_data 4 2 init_state = Some (TEE_SUCCESS, s')
    /\ length (submitted s') = 1%nat
    /\ allocated s' = seq 0 9.
Proof.
  remember (do_verify env_ok cfg32 verify_data 4 2 init_state) as run eqn:Hdef.
  assert (Hrun : exists s', run = Some (TEE_SUCCESS, s')).
  { rewrite Hdef. vm_compute. eexists. reflexivity. }
  destruct Hrun as (s' & Hrun).
  exists s'. split; [exact Hrun|].
  destruct (verify_fails_closed env_ok cfg32 verify_data 4 2 TEE_SUCCESS s')
    as (_ & Hok).
  - rewrite <- Hdef. exact Hrun.
  - destruct (Hok eq_refl) as (H1 & H2 & _). split; [exact H1 | exact H2].
Defined.

Ltac sg_leaf :=
  lazymatch goal with
  | |- None = Some _ -> _ => discriminate
  | |- Some _ = Some _ -> _ =>
    let H := fresh in
    intros H; injection H as <- <- <-;
    split; [reflexivity|]; split; [reflexivity|]; split; [reflexivity|];
    split; [reflexivity|]; split; [|cbn; lia];
    first [ intros Hne; exfalso; apply Hne; reflexivity
          | intros _; split; [reflexivity|]; split; [reflexivity|];
            split; reflexivity ]
  end.

(** X15. Whatever the collaborators answer, do_sign leaves algo, key,
    size_sec and message of the caller's data as they were and hands at
    most one descriptor to the job ring; the signature differs after the
    call only if the eight requests were served, one descriptor was
    submitted, the job ring reported CAAM_NO_ERROR and the call returns
    TEE_SUCCESS. *)
Theorem sign_writes_on_success_only (e : environment) (c : config)
    (sdata sdata' : drvcrypt_sign_data dsa_keypair) (l_bytes n_bytes : Z)
    (r : TEE_Result) (s' : state) :
  do_sign e c sdata l_bytes n_bytes init_state = Some ((r, sdata'), s') ->
  algo sdata' = algo sdata
  /\ key sdata' = key sdata
  /\ size_sec sdata' = size_sec sdata
  /\ message sdata' = message sdata
  /\ (signature sdata' <> signature sdata ->
      jr_retstatus e = CAAM_NO_ERROR /\ r = TEE_SUCCESS
      /\ length (submitted s') = 1%nat
      /\ allocated s' = seq 0 8)
  /\ (length (submitted s') <= 1)%nat.
Proof.
  unfold do_sign, sign_run, exit_sign, do_keypair_free, do_keypriv_conv.
  munfold. unfold TEE_SUCCESS.
  repeat (mcbn; tr_step e). all: mcbn. all: sg_leaf.
Qed.

Lemma sign_writes_on_success_only_witness :
  exists sdata' s',
    do_sign env_ok cfg32 sign_data 4 2 init_state
    = Some ((TEE_SUCCESS, sdata'), s')
    /\ message sdata' = message sign_data
    /\ length (submitted s') = 1%nat.
Proof.
  remember (do_sign env_ok cfg32 sign_data 4 2 init_state) as run eqn:Hdef.
  assert (Hrun : exists sdata' s',
             run = Some ((TEE_SUCCESS, sdata'), s')
             /\ signature sdata' <> signature sign_data).
  { rewrite Hdef. vm_compute. eexists; eexists.
    split; [reflexivity | discriminate]. }
  destruct Hrun as (sdata' & s' & Hrun & Hne).
  exists sdata', s'. split; [exact Hrun|].
  destruct (sign_writes_on_success_only env_ok cfg32 sign_data sdata' 4 2
              TEE_SUCCESS s')
    as (_ & _ & _ & Hmsg & Hsig & _).
  - rewrite <- Hdef. exact Hrun.
  - split; [exact Hmsg|]. destruct (Hsig Hne) as (_ & _ & Hone & _).
    exact Hone.
Defined.

Ltac incl_events :=
  repeat (apply incl_cons; [cbn; auto 20|]); apply incl_nil_l.

Ltac cm_leaf :=
  lazymatch goal with
  | |- None = Some _ -> _ => discriminate
  | |- Some _ = Some _ -> _ =>
    let H := fresh in
    intros H; injection H as <- <-;
    unfold submitted; cbn [events app flat_map before_submit after_submit];
    let Hs := fresh in
    intros Hs;
    first [ exfalso; apply Hs; reflexivity
          | repeat split; eqb_hyps; intros;
            first [congruence | discriminate | reflexivity | incl_events] ]
  end.

(** X16. In every run that hands a descriptor to the job ring, the cache
    maintenance has been done before: do_sign has cleaned the buffers of
    g, p, q and x and pushed the three DMA objects; do_verify has cleaned
    the buffers of g, p, q and y, pushed the three DMA objects and
    flushed the scratch buffer; do_gen_keypair has flushed the x and y
    buffers and, when the parameters were given, cleaned the buffers of
    q, g and p.  After a job of do_gen_keypair that succeeded, the x and
    y buffers are invalidated and nothing else is done before they are
    read; after one that failed nothing is done. *)
Theorem cache_maintenance_around_submission (e : environment) (c : config) :
  (forall sdata l_bytes n_bytes res s',
     do_sign e c sdata l_bytes n_bytes init_state = Some (res, s') ->
     submitted s' <> [] ->
     incl [EvCache TEE_CACHECLEAN (Some 1%nat) l_bytes;
           EvCache TEE_CACHECLEAN (Some 2%nat) l_bytes;
           EvCache TEE_CACHECLEAN (Some 3%nat) n_bytes;
           EvCache TEE_CACHECLEAN (Some 4%nat) n_bytes;
           EvCachePush (Some 5%nat); EvCachePush (Some 6%nat);
           EvCachePush (Some 7%nat)]
       (before_submit (events s')))
  /\ (forall sdata l_bytes n_bytes res s',
        do_verify e c sdata l_bytes n_bytes init_state = Some (res, s') ->
        submitted s' <> [] ->
        incl [EvCache TEE_CACHECLEAN (Some 1%nat) l_bytes;
              EvCache TEE_CACHECLEAN (Some 2%nat) l_bytes;
              EvCache TEE_CACHECLEAN (Some 3%nat) n_bytes;
              EvCache TEE_CACHECLEAN (Some 4%nat) l_bytes;
              EvCachePush (Some 5%nat); EvCachePush (Some 6%nat);
              EvCachePush (Some 7%nat);
              EvCache TEE_CACHEFLUSH (Some 8%nat) l_bytes]
          (before_submit (events s')))
  /\ (forall key l_bits n_bits res s',
        do_gen_keypair e c key l_bits n_bits init_state = Some (res, s') ->
        submitted s' <> [] ->
        incl [EvCache TEE_CACHEFLUSH (Some 1%nat) (n_bits / 8);
              EvCache TEE_CACHEFLUSH (Some 2%nat) (l_bits / 8)]
          (before_submit (events s'))
        /\ (params_missing key = false ->
            incl [EvCache TEE_CACHECLEAN (Some 3%nat) (n_bits / 8);
                  EvCache TEE_CACHECLEAN (Some 4%nat) (l_bits / 8);
                  EvCache TEE_CACHECLEAN (Some 5%nat) (l_bits / 8)]
              (before_submit (events s')))
        /\ (jr_retstatus e = CAAM_NO_ERROR ->
            after_submit (events s')
            = [EvCache TEE_CACHEINVALIDATE (Some 1%nat) (n_bits / 8);
               EvCache TEE_CACHEINVALIDATE (Some 2%nat) (l_bits / 8)])
        /\ (jr_retstatus e <> CAAM_NO_ERROR -> after_submit (events s') = [])).
Proof.
  split; [|split].
  - intros sdata l_bytes n_bytes res s'.
    unfold do_sign, sign_run, exit_sign, do_keypair_free, do_keypriv_conv.
    munfold. unfold TEE_SUCCESS.
    repeat (mcbn; tr_step e). all: mcbn. all: cm_leaf.
  - intros sdata l_bytes n_bytes res s'.
    unfold do_verify, verify_run, exit_verify, do_keypair_free, do_keypub_conv.
    munfold. unfold TEE_SUCCESS.
    repeat (mcbn; tr_step e). all: mcbn. all: cm_leaf.
  - intros key l_bits n_bits res s'. unfold params_missing.
    unfold do_gen_keypair, gen_keypair_run, exit_gen_keypair, do_keypair_free,
      get_keypair_domain_params.
    munfold. unfold TEE_SUCCESS.
    repeat (mcbn; tr_step e). all: mcbn. all: cm_leaf.
Qed.

(** The sample runs of the three operations. *)
Lemma cache_maintenance_around_submission_witness :
  exists res s',
    do_gen_keypair env_ok cfg32 key_empty 32 16 init_state = Some (res, s')
    /\ submitted s' <> []
    /\ after_submit (events s')
       = [EvCache TEE_CACHEINVALIDATE (Some 1%nat) 2;
          EvCache TEE_CACHEINVALIDATE (Some 2%nat) 4].
Proof.
  remember (do_gen_keypair env_ok cfg32 key_empty 32 16 init_state)
    as run eqn:Hdef.
  assert (Hrun : exists res s', run = Some (res, s') /\ submitted s' <> []).
  { rewrite Hdef. vm_compute. eexists; eexists.
    split; [reflexivity | discriminate]. }
  destruct Hrun as (res & s' & Hrun & Hsub).
  exists res, s'. split; [exact Hrun|]. split; [exact Hsub|].
  destruct (cache_maintenance_around_submission env_ok cfg32)
    as (_ & _ & Hgen).
  destruct (Hgen key_empty 32 16 res s') as (_ & _ & Hafter & _).
  - rewrite <- Hdef. exact Hrun.
  - exact Hsub.
  - apply Hafter. reflexivity.
Defined.




(** X18. With 32-bit and with 64-bit device addresses alike, each of the
    three descriptors has one word fewer than the area allocated for it:
    8 of 9 or 13 of 14 words for key generation, 11 of 12 or 18 of 19 for
    signing, 12 of 13 or 20 of 21 for verification. *)
Theorem descriptor_sizes (c : config) :
  (forall desc l_bytes n_bytes k,
     capacity desc = MAX_DESC_KEY_GEN c ->
     exists d,
       gen_keypair_desc c desc l_bytes n_bytes k = Some d
       /\ Z.of_nat (length (words d)) = MAX_DESC_KEY_GEN c - 1)
  /\ (forall desc l_bytes n_bytes flags k msg sign_c sign_d mlen,
        capacity desc = MAX_DESC_SIGN c ->
        exists d,
          sign_desc c desc l_bytes n_bytes flags k msg sign_c sign_d mlen
          = Some d
          /\ Z.of_nat (length (words d)) = MAX_DESC_SIGN c - 1)
  /\ (forall desc l_bytes n_bytes flags k msg sign_c sign_d tmp mlen,
        capacity desc = MAX_DESC_VERIFY c ->
        exists d,
          verify_desc c desc l_bytes n_bytes flags k msg sign_c sign_d tmp
            mlen = Some d
          /\ Z.of_nat (length (words d)) = MAX_DESC_VERIFY c - 1).
Proof.
  split; [|split].
  - intros desc l_bytes n_bytes k Hc.
    destruct (gen_keypair_desc_built c desc l_bytes n_bytes k Hc)
      as (hdr & -> & _).
    eexists; split; [reflexivity|].
    unfold MAX_DESC_KEY_GEN, layout, gen_fields, field_words, ptr_words.
    cbn [words]. destruct (CFG_CAAM_64BIT c), (CFG_CAAM_BIG_ENDIAN c);
      reflexivity.
  - intros desc l_bytes n_bytes flags k msg sign_c sign_d mlen Hc.
    destruct (sign_desc_built c desc l_bytes n_bytes flags k msg sign_c sign_d
                mlen Hc) as (hdr & -> & _).
    eexists; split; [reflexivity|].
    unfold MAX_DESC_SIGN, layout, sign_fields, field_words, ptr_words.
    cbn [words]. destruct (CFG_CAAM_64BIT c), (CFG_CAAM_BIG_ENDIAN c);
      reflexivity.
  - intros desc l_bytes n_bytes flags k msg sign_c sign_d tmp mlen Hc.
    destruct (verify_desc_built c desc l_bytes n_bytes flags k msg sign_c
                sign_d tmp mlen Hc) as (hdr & -> & _).
    eexists; split; [reflexivity|].
    unfold MAX_DESC_VERIFY, layout, verify_fields, field_words, ptr_words.
    cbn [words]. destruct (CFG_CAAM_64BIT c), (CFG_CAAM_BIG_ENDIAN c);
      reflexivity.
Qed.

(** The 32-bit build: eight words in an area of nine. *)
Lemma descriptor_sizes_witness :
  exists d,
    gen_keypair_desc cfg32 (fresh_desc 9) 128 20 bufs_sample = Some d
    /\ Z.of_nat (length (words d)) = 8.
Proof.
  destruct (descriptor_sizes cfg32) as (Hgen & _ & _).
  apply (Hgen (fresh_desc 9) 128 20 bufs_sample). reflexivity.
Defined.

End Traces.

(** ** Result codes *)

Module Results.

Import Mach MachFacts Bytes BytesFacts Bignum BignumFacts CaamDesc Caam.
Import CaamRef KeyCodec Descriptors Operations CaamKeyAlloc CaamGenRef.
Import CaamResultRef.

(** One case split on an answer of a collaborator, with the scalars
    fitting and the descriptors built. *)
Ltac rs_step e :=
  match goal with
  | H : alloc_ok e ?k = _ |- context [alloc_ok e ?k] => rewrite H
  | H : jr_retstatus e = _ |- context [jr_retstatus e] => rewrite H
  | H : prime_gen_status e = _ |- context [prime_gen_status e] => rewrite H
  | H : (jr_jobstatus e =? 0) = _ |- context [jr_jobstatus e =? 0] =>
    rewrite H
  | H : (dmaobj_ret e ?k =? 0) = _ |- context [dmaobj_ret e ?k =? 0] =>
    rewrite H
  | H : (bin2bn_ret e ?k =? 0) = _ |- context [bin2bn_ret e ?k =? 0] =>
    rewrite H
  | |- context [alloc_ok e ?k] => destruct (alloc_ok e k) eqn:?
  | |- context [dmaobj_ret e ?k =? 0] => destruct (dmaobj_ret e k =? 0) eqn:?
  | |- context [bin2bn_ret e ?k =? 0] => destruct (bin2bn_ret e k =? 0) eqn:?
  | |- context [store_bytes (zeros (Z.to_nat ?W)) _
                  (crypto_bignum_bn2bin ?bn)] =>
    rewrite (store_bn2bin W bn) by assumption
  | |- context [caam_status_eqb (prime_gen_status e) _] =>
    destruct (prime_gen_status e) eqn:?
  | |- context [caam_status_eqb (jr_retstatus e) _] =>
    destruct (jr_retstatus e) eqn:?
  | |- context [jr_jobstatus e =? 0] => destruct (jr_jobstatus e =? 0) eqn:?
  | |- context [gen_keypair_desc ?c ?d ?l ?n ?k] =>
    destruct (gen_keypair_desc_built c d l n k eq_refl) as (? & -> & _)
  | |- context [sign_desc ?c ?d ?l ?n ?f ?k ?m ?sc ?sd ?ml] =>
    destruct (sign_desc_built c d l n f k m sc sd ml eq_refl) as (? & -> & _)
  | |- context [verify_desc ?c ?d ?l ?n ?f ?k ?m ?sc ?sd ?t ?ml] =>
    destruct (verify_desc_built c d l n f k m sc sd t ml eq_refl)
      as (? & -> & _)
  end.

(** X19. The result of each operation is decided by the first
    collaborator that refuses, in the order the function consults them.
    do_sign: TEE_ERROR_OUT_OF_MEMORY for the descriptor or a key buffer,
    then the DMA layer's own code, unchanged, for the message, the
    signature and its second part, then the job.  do_verify: the same,
    then TEE_ERROR_OUT_OF_MEMORY for the scratch buffer, then
    TEE_ERROR_SIGNATURE_INVALID or the job.  do_gen_keypair:
    TEE_ERROR_OUT_OF_MEMORY for the descriptor and the five buffers,
    TEE_ERROR_GENERIC for a generator that fails, the job, then the code
    of the first conversion that fails.  A job gives TEE_SUCCESS when the
    job ring reports CAAM_NO_ERROR and job_status_to_tee_result of its
    status word otherwise. *)
Theorem result_precedence (e : environment) (c : config) :
  (forall sdata l_bytes n_bytes,
     keypair_fits (key sdata) l_bytes n_bytes ->
     exists sdata' s',
       do_sign e c sdata l_bytes n_bytes init_state
       = Some ((sign_result e, sdata'), s'))
  /\ (forall sdata l_bytes n_bytes,
        public_key_fits (key sdata) l_bytes n_bytes ->
        exists s',
          do_verify e c sdata l_bytes n_bytes init_state
          = Some (verify_result e, s'))
  /\ (forall key l_bits n_bits,
        (params_missing key = false ->
         domain_fits key (l_bits / 8) (n_bits / 8)) ->
        exists key' s',
          do_gen_keypair e c key l_bits n_bits init_state
          = Some ((gen_keypair_result e key, key'), s')).
Proof.
  split; [|split].
  - intros sdata l_bytes n_bytes (Hg & Hp & Hq & Hx).
    unfold sign_result, first_dma_error, job_result.
    unfold do_sign, sign_run, exit_sign, do_keypair_free, do_keypriv_conv.
    munfold. unfold TEE_SUCCESS.
    repeat (mcbn; try rs_step e).
    all: eexists; eexists; reflexivity.
  - intros sdata l_bytes n_bytes (Hg & Hp & Hq & Hy).
    unfold verify_result, first_dma_error, job_result.
    unfold do_verify, verify_run, exit_verify, do_keypair_free, do_keypub_conv.
    munfold. unfold TEE_SUCCESS.
    repeat (mcbn; try rs_step e).
    all: eexists; reflexivity.
  - intros key l_bits n_bits Hfit.
    unfold gen_keypair_result, param_convs, params_missing in *.
    destruct ((crypto_bignum_num_bytes (dk_q key) =? 0)
              || (crypto_bignum_num_bytes (dk_g key) =? 0)
              || (crypto_bignum_num_bytes (dk_p key) =? 0)) eqn:Hm.
    + unfold do_gen_keypair, gen_keypair_run, exit_gen_keypair,
        do_keypair_free, get_keypair_domain_params.
      munfold. unfold TEE_SUCCESS.
      repeat (mcbn; rewrite ?Hm; try rs_step e).
      all: eexists; eexists; reflexivity.
    + destruct (Hfit eq_refl) as (Hg & Hp & Hq).
      unfold do_gen_keypair, gen_keypair_run, exit_gen_keypair,
        do_keypair_free, get_keypair_domain_params.
      munfold. unfold TEE_SUCCESS.
      repeat (mcbn; rewrite ?Hm; try rs_step e).
      all: eexists; eexists; reflexivity.
Qed.

(** The third request for memory refused: do_verify has its descriptor
    and one key buffer and reports TEE_ERROR_OUT_OF_MEMORY. *)
Lemma result_precedence_witness :
  exists s',
    do_verify env_two cfg32 verify_data 4 2 init_state
    = Some (TEE_ERROR_OUT_OF_MEMORY, s').
Proof.
  destruct (result_precedence env_two cfg32) as (_ & Hver & _).
  destruct (Hver verify_data 4 2) as (s' & Hrun).
  - unfold public_key_fits. vm_compute.
    split; [|split; [|split]]; discriminate.
  - exists s'. exact Hrun.
Defined.

End Results.
